(** * Headlamp backend (backend/cmd/headlamp.go): a shallow embedding

    The Go server keeps three package- or closure-level tables: the
    cluster registry [contextProxies], the port-forward index
    [portForwards] and the pending OIDC flows [oauthRequestMap].  Each
    handler is embedded as a function from the table (and the request)
    to the new table and what was written to the response.

    Go maps are [gmap]s, slices are lists, strings are [string]s (byte
    sequences).  The stop channel of a tunnel is unbuffered, so a send
    on it goes through only while the tunnel's forwarder has still to
    receive; the functions that send take the set of channels that have
    such a receiver, and wait for ever, leaving everything after the
    send undone, when the channel is not in it.  Log lines are not
    modelled. *)

From stdpp Require Import gmap strings list fin_maps.

(** ** Results of Go calls *)

(** Go's [error] results: [None] is [nil]. *)
Definition error := option string.

(** A call that returns [(x, err)]. *)
Inductive result (A : Type) :=
| Ok (a : A)
| Err (msg : string).
Arguments Ok {A} a.
Arguments Err {A} msg.

(** How a handler invocation ends: it returns, it panics (index out of
    range, nil dereference, [MustCompile]), or [log.Fatal] ends the
    process. *)
Inductive outcome (A : Type) :=
| Returns (a : A)
| Panics
| Exits.
Arguments Returns {A} a.
Arguments Panics {A}.
Arguments Exits {A}.

(** [[]byte]: [None] is the nil slice. *)
Definition bytes := option string.

(** [chan struct{}]: [None] is the nil channel, [Some n] the channel
    created by the [n]-th [make]. *)
Definition chan := option nat.

(** The channels of this file are the stop channels that
    [startPortForward] makes, [make(chan struct{})] without a buffer.
    The one goroutine that receives from a stop channel is the tunnel's
    forwarder (client-go's [PortForwarder.forward], in its [select]); it
    receives once and returns, and it returns without receiving when
    the connection to the pod is lost.  [Receivers] is the set of
    channels whose forwarder has that receive still before it: a send
    on such a channel is received, a send on any other waits for
    ever. *)
Abbreviation Receivers := (gset nat).

(** A send on [c] is received: never on the nil channel. *)
Definition receives (c : chan) (receiving : Receivers) : bool :=
  match c with
  | Some n => bool_decide (n ∈ receiving)
  | None => false
  end.

(** The receivers once a send on [c] has been received. *)
Definition received (c : chan) (receiving : Receivers) : Receivers :=
  match c with
  | Some n => receiving ∖ {[n]}
  | None => receiving
  end.

(** How a call that sends on a channel ends: it returns, or it waits
    for ever in a send that no goroutine receives. *)
Inductive sending (A : Type) :=
| Completes (a : A)
| Blocks.
Arguments Completes {A} a.
Arguments Blocks {A}.

(** ** HTTP messages *)

(** [http.Header]; keys are written in canonical form. *)
Abbreviation http_Header := (gmap string (list string)).

Definition Header_Get (h : http_Header) (key : string) : string :=
  match h !! key with
  | Some (v :: _) => v
  | _ => ""
  end.

Definition Header_Set (key value : string) (h : http_Header) : http_Header :=
  <[key := [value]]> h.

Definition Header_Add (key value : string) (h : http_Header) : http_Header :=
  <[key := default [] (h !! key) ++ [value]]> h.

Definition Header_Del (key : string) (h : http_Header) : http_Header :=
  delete key h.

Module URL.
Record t := mk {
  Scheme : string;
  Host : string;
  Path : string;
  RawQuery : string
}.
End URL.

Module Request.
Record t := mk {
  Method : string;
  URL : URL.t;
  Host : string;
  Header : http_Header;
  RequestURI : string;
  TLS : bool;                      (* r.TLS != nil *)
  Vars : gmap string string;       (* mux.Vars(r) *)
  Query : gmap string (list string) (* r.URL.Query() *)
}.

Definition set_Header (h : http_Header) (r : t) : t :=
  mk (Method r) (URL r) (Host r) h (RequestURI r) (TLS r) (Vars r) (Query r).

(** [r.URL.Query().Get(key)] *)
Definition QueryGet (r : t) (key : string) : string :=
  match Query r !! key with
  | Some (v :: _) => v
  | _ => ""
  end.
End Request.

(** ** TLS configuration and reverse proxies *)

Inductive Certificate :=
| KeyPairFromFiles (certFile keyFile : string)
| KeyPairFromData (certPEM keyPEM : string).

Module TLSConfig.
Record t := mk {
  InsecureSkipVerify : bool;
  RootCAs : list string;           (* PEM blocks appended to the pool *)
  Certificates : list Certificate
}.
End TLSConfig.

Module Transport.
Record t := mk {
  Proxy : option (option URL.t);   (* nil, or http.ProxyURL(proxyURL) *)
  TLSClientConfig : TLSConfig.t
}.
End Transport.

Module ReverseProxy.
Record t := mk {
  Target : URL.t;                  (* NewSingleHostReverseProxy(target) *)
  Transport : option Transport.t   (* nil: http.DefaultTransport *)
}.

Definition set_Transport (tr : Transport.t) (p : t) : t :=
  mk (Target p) (Some tr).
End ReverseProxy.

(** ** Clusters and contexts

    [Cluster], [Context] and their accessor methods are declared in
    another file of the package; the records below carry the fields
    this file reads and writes. *)

Module ClusterConfig.               (* clientcmdapi.Cluster *)
Record t := mk {
  Server : string;
  InsecureSkipTLSVerify : bool;
  CertificateAuthority : string;
  CertificateAuthorityData : bytes
}.
End ClusterConfig.

Module Cluster.
Record t := mk {
  Name : string;
  Server : string;
  config : ClusterConfig.t;
  ProxyURL : string;
  Metadata : gmap string string
}.
End Cluster.

Module AuthInfo.                    (* clientcmdapi.AuthInfo *)
Record t := mk {
  ClientCertificate : string;
  ClientCertificateData : bytes;
  ClientKey : string;
  ClientKeyData : bytes;
  Token : string
}.
End AuthInfo.

Module Context.
Record t := mk {
  Name : string;
  cluster : Cluster.t;
  authInfo : option AuthInfo.t     (* *clientcmdapi.AuthInfo, may be nil *)
}.
End Context.

(** Modelled from the spec: [Context.getCluster], [Cluster.getName] and
    [Cluster.getServer] are not in this file; a target has a name and a
    base URL. *)
Definition getCluster (c : Context.t) : Cluster.t := Context.cluster c.
Definition getName (c : Cluster.t) : string := Cluster.Name c.
Definition getServer (c : Cluster.t) : string := Cluster.Server c.

(** Modelled from the spec: [Cluster.shouldVerifyTLS] is not in this
    file; the credential material has "a flag for skipping trust
    verification", and the target is verified unless that flag is set. *)
Definition shouldVerifyTLS (c : Cluster.t) : bool :=
  negb (ClusterConfig.InsecureSkipTLSVerify (Cluster.config c)).

(** Modelled from the spec: the four client-certificate accessors of
    [Context] are not in this file; the certificate and key are optional
    and come as file paths or as inline bytes. *)
Definition getClientCertificate (c : Context.t) : string :=
  from_option AuthInfo.ClientCertificate "" (Context.authInfo c).
Definition getClientKey (c : Context.t) : string :=
  from_option AuthInfo.ClientKey "" (Context.authInfo c).
Definition getClientCertificateData (c : Context.t) : bytes :=
  from_option AuthInfo.ClientCertificateData None (Context.authInfo c).
Definition getClientKeyData (c : Context.t) : bytes :=
  from_option AuthInfo.ClientKeyData None (Context.authInfo c).

(** [KubeConfig = 1 << iota], [DynamicCluster], [InCluster]. *)
Definition KubeConfig : Z := Z.shiftl 1 0.
Definition DynamicCluster : Z := Z.shiftl 1 1.
Definition InCluster : Z := Z.shiftl 1 2.

Module contextProxy.
Record t := mk {
  context : Context.t;
  proxy : option ReverseProxy.t;   (* nil when proxy creation failed *)
  source : Z
}.
End contextProxy.

Module HeadlampConfig.
Record t := mk {
  useInCluster : bool;
  devMode : bool;
  insecure : bool;
  kubeConfigPath : string;
  port : Z;
  staticDir : string;
  pluginDir : string;
  oidcClientID : string;
  oidcClientSecret : string;
  oidcScopes : list string;
  oidcIdpIssuerURL : string;
  baseURL : string;
  contextProxies : gmap string contextProxy.t;
  proxyURLs : list string
}.

Definition set_contextProxies (m : gmap string contextProxy.t) (c : t) : t :=
  mk (useInCluster c) (devMode c) (insecure c) (kubeConfigPath c) (port c)
     (staticDir c) (pluginDir c) (oidcClientID c) (oidcClientSecret c)
     (oidcScopes c) (oidcIdpIssuerURL c) (baseURL c) m (proxyURLs c).
End HeadlampConfig.

(** ** Response writers and effects *)

(** What gets written to a response body. *)
Inductive chunk :=
| Text (s : string)
| ConfigJSON (clusters : list Cluster.t)     (* json of clientConfig *)
| RedirectNote (url : string) (code : Z)     (* the note http.Redirect adds *)
| UpstreamBody (body : string).              (* copied by the reverse proxy *)

(** [http.ResponseWriter]: the status line is fixed by the first
    [WriteHeader] (or first [Write]); later calls do not change it, and
    the header map is sent as it was at that moment. *)
Module ResponseWriter.
Record t := mk {
  header : http_Header;
  status : option Z;
  sent : http_Header;
  body : list chunk
}.

Definition new : t := mk ∅ None ∅ [].

Definition setHeader (key value : string) (w : t) : t :=
  mk (Header_Set key value (header w)) (status w) (sent w) (body w).

Definition delHeader (key : string) (w : t) : t :=
  mk (Header_Del key (header w)) (status w) (sent w) (body w).

Definition WriteHeader (code : Z) (w : t) : t :=
  match status w with
  | Some _ => w
  | None => mk (header w) (Some code) (header w) (body w)
  end.

Definition Write (c : chunk) (w : t) : t :=
  let w := WriteHeader 200 w in
  mk (header w) (status w) (sent w) (body w ++ [c]).
End ResponseWriter.

Definition StatusOK : Z := 200.
Definition StatusCreated : Z := 201.
Definition StatusFound : Z := 302.
Definition StatusSeeOther : Z := 303.
Definition StatusBadRequest : Z := 400.
Definition StatusForbidden : Z := 403.
Definition StatusNotFound : Z := 404.
Definition StatusInternalServerError : Z := 500.

(** The newline that [fmt.Fprintln] appends. *)
Definition LF : string := String (Ascii.ascii_of_nat 10) "".

(** [http.Error(w, msg, code)] *)
Definition http_Error (msg : string) (code : Z) (w : ResponseWriter.t)
  : ResponseWriter.t :=
  let w := ResponseWriter.delHeader "Content-Length" w in
  let w := ResponseWriter.setHeader "Content-Type" "text/plain; charset=utf-8" w in
  let w := ResponseWriter.setHeader "X-Content-Type-Options" "nosniff" w in
  let w := ResponseWriter.WriteHeader code w in
  ResponseWriter.Write (Text (msg +:+ LF)) w.

(** [http.NotFound(w, r)] *)
Definition http_NotFound (w : ResponseWriter.t) : ResponseWriter.t :=
  http_Error "404 page not found" StatusNotFound w.

(** One hexadecimal digit, as [strconv.AppendInt(b, n, 16)] writes it
    (lower case). *)
Definition hexDigit (n : nat) : Ascii.ascii :=
  default (Ascii.ascii_of_nat 48) (String.get n "0123456789abcdef").

(** net/http's [hexEscapeNonASCII]: every byte from 0x80 on becomes
    [%] and its two hexadecimal digits; the other bytes are kept. *)
Fixpoint hexEscapeNonASCII (s : string) : string :=
  match s with
  | EmptyString => EmptyString
  | String c s' =>
      let n := Ascii.nat_of_ascii c in
      if (128 <=? n)%nat then
        String (Ascii.ascii_of_nat 37)
          (String (hexDigit (n / 16))
             (String (hexDigit (n mod 16)) (hexEscapeNonASCII s')))
      else String c (hexEscapeNonASCII s')
  end.

(** [http.Redirect(w, r, url, code)] for the GET requests of this file.
    Location is the URL with its non-ASCII bytes escaped.  When the
    header map has no Content-Type yet, the content type is set and the
    short HTML note is written after the status line; when it has one
    (an [http.Error] came before), only the status line is written.
    [Redirect] first makes a relative URL absolute against the request
    path and cleans its path; that step is left out, since it changes
    neither of the URLs passed here: the callback's is
    [http://localhost:3000/auth?...] or [/auth?...], whose path is
    clean already, and [AuthCodeURL] gives the provider's absolute
    authorization endpoint with a query. *)
Definition http_Redirect (url : string) (code : Z) (w : ResponseWriter.t)
  : ResponseWriter.t :=
  let hadCT :=
    bool_decide (is_Some (ResponseWriter.header w !! "Content-Type")) in
  let w := ResponseWriter.setHeader "Location" (hexEscapeNonASCII url) w in
  let w :=
    if hadCT then w
    else ResponseWriter.setHeader "Content-Type" "text/html; charset=utf-8" w in
  let w := ResponseWriter.WriteHeader code w in
  if hadCT then w else ResponseWriter.Write (RedirectNote url code) w.

(** What a piece of code does besides updating the tables and writing
    the response.  A [Send] is a send that was received. *)
Inductive effect :=
| Send (c : chan)                                  (* c <- struct{}{} *)
| TickerStop                                       (* ticker.Stop() *)
| Relay (p : ReverseProxy.t) (r : Request.t).      (* proxy.ServeHTTP(w, r) *)

(** The receivers after the sends among [effects]. *)
Definition afterSends (effects : list effect) (receiving : Receivers)
  : Receivers :=
  foldl (λ rs e, match e with Send c => received c rs | _ => rs end)
    receiving effects.

(** ** Port-forward sessions *)

Definition RUNNING : string := "Running".
Definition STOPPED : string := "Stopped".

Module PortForward.
Record t := mk {
  ID : string;
  closeChan : chan;
  Pod : string;
  Service : string;
  ServiceNamespace : string;
  Namespace : string;
  Cluster : string;
  Port : string;
  TargetPort : string;
  Status : string;
  Error : string
}.

(** The zero value [PortForward{}]. *)
Definition zero : t := mk "" None "" "" "" "" "" "" "" "" "".

Definition set_Status (s : string) (v : t) : t :=
  mk (ID v) (closeChan v) (Pod v) (Service v) (ServiceNamespace v)
     (Namespace v) (Cluster v) (Port v) (TargetPort v) s (Error v).

Definition set_Error (e : string) (v : t) : t :=
  mk (ID v) (closeChan v) (Pod v) (Service v) (ServiceNamespace v)
     (Namespace v) (Cluster v) (Port v) (TargetPort v) (Status v) e.
End PortForward.

Module PortForwardPayload.
Record t := mk {
  ID : string;
  Namespace : string;
  Pod : string;
  Service : string;
  ServiceNamespace : string;
  TargetPort : string;
  Cluster : string;
  Port : string
}.
End PortForwardPayload.

(** [var portForwards = make(map[string][]PortForward)] *)
Abbreviation PortForwards := (gmap string (list PortForward.t)).

(** The loop [for index, v := range l { if v.ID == id {...} }] stops at
    the first entry whose ID is [id]; [list_find] returns that index and
    entry. *)
Definition findByID (id : string) (l : list PortForward.t)
  : option (nat * PortForward.t) :=
  list_find (λ v, PortForward.ID v = id) l.

(** Indexing a map at a missing key gives the nil slice. *)
Definition getPortForwardList (cluster : string) (pfs : PortForwards)
  : list PortForward.t :=
  default [] (pfs !! cluster).

Definition portforwardstore (p : PortForward.t) (pfs : PortForwards)
  : PortForwards :=
  let l := default [] (pfs !! PortForward.Cluster p) in
  match findByID (PortForward.ID p) l with
  | Some (index, _) => <[PortForward.Cluster p := <[index := p]> l]> pfs
  | None => <[PortForward.Cluster p := l ++ [p]]> pfs
  end.

(** [stopOrDeletePortForward]; the result is how the call ends (the
    returned error, or [Blocks]), the index afterwards and the effects
    performed.  In the stop branch [v] is the loop's copy of the entry:
    its Status is set, then comes the send on its [closeChan], and only
    after the send is [v] written back through [clusterPortForwards],
    which shares its backing array with the slice held by the map.  So
    when the send is not received, the call never returns and the index
    is as it was. *)
Definition stopOrDeletePortForward (cluster id : string) (isStopRequest : bool)
    (pfs : PortForwards) (receiving : Receivers)
  : sending error * PortForwards * list effect :=
  match pfs !! cluster with
  | Some clusterPortForwards =>
      match findByID id clusterPortForwards with
      | Some (index, v) =>
          if negb isStopRequest then
            (Completes None,
             <[cluster := take index clusterPortForwards
                          ++ drop (S index) clusterPortForwards]> pfs,
             [])
          else
            let v := PortForward.set_Status STOPPED v in
            if receives (PortForward.closeChan v) receiving then
              (Completes None,
               <[cluster := <[index := v]> clusterPortForwards]> pfs,
               [Send (PortForward.closeChan v)])
            else (Blocks, pfs, [])
      | None => (Completes (Some "PortForward not found"), pfs, [])
      end
  | None => (Completes (Some "PortForward not found"), pfs, [])
  end.

Definition getPortForwardByID (cluster id : string) (pfs : PortForwards)
  : PortForward.t :=
  match pfs !! cluster with
  | Some val =>
      match findByID id val with
      | Some (_, v) => v
      | None => PortForward.zero
      end
  | None => PortForward.zero
  end.

(** The session record that [startPortForward] builds once the
    forwarder exists ([portForwardToStore]); [stopChan] is the channel
    handed to [portforward.New]. *)
Definition portForwardToStore (p : PortForwardPayload.t) (stopChan : chan)
  : PortForward.t :=
  PortForward.mk (PortForwardPayload.ID p) stopChan (PortForwardPayload.Pod p)
    (PortForwardPayload.Service p) (PortForwardPayload.ServiceNamespace p)
    (PortForwardPayload.Namespace p) (PortForwardPayload.Cluster p)
    (PortForwardPayload.Port p) (PortForwardPayload.TargetPort p)
    RUNNING "".

(** *** The pod watchdog of [startPortForward] *)

(** What [clientset.CoreV1().Pods(ns).Get] answers on one tick. *)
Inductive podLookup :=
| ConnRefused                      (* errors.Is(err, syscall.ECONNREFUSED) *)
| LookupErr (msg : string)         (* any other error *)
| PodPhase (phase : string).       (* pod.Status.Phase *)

Definition PodRunning : string := "Running".   (* corev1.PodRunning *)

Module Watchdog.
Record t := mk {
  index : PortForwards;          (* portForwards afterwards *)
  effects : list effect;         (* in program order *)
  handled : nat;                 (* ticks taken from ticker.C *)
  stopped : bool;                (* the loop was left through break *)
  blocked : bool                 (* the goroutine waits in a send for ever *)
}.
End Watchdog.

(** The goroutine [for range ticker.C {...}], run on the answers the
    pod lookups give tick after tick.  [pf] is the captured variable
    [portForwardToStore] and [receiving] the receivers when the loop
    reaches a send (the ticks before it send nothing).  The send on
    [stopChan] comes first in both branches that give up: when it is
    not received, the store, [ticker.Stop] and [break] after it are
    never reached and the goroutine takes no further tick. *)
Fixpoint watchdog (pf : PortForward.t) (stopChan : chan)
    (ticks : list podLookup) (pfs : PortForwards) (receiving : Receivers)
  : Watchdog.t :=
  match ticks with
  | [] => Watchdog.mk pfs [] 0 false false
  | tick :: ticks =>
      let continue :=
        let r := watchdog pf stopChan ticks pfs receiving in
        Watchdog.mk (Watchdog.index r) (Watchdog.effects r)
                    (S (Watchdog.handled r)) (Watchdog.stopped r)
                    (Watchdog.blocked r) in
      match tick with
      | ConnRefused => continue
      | LookupErr msg =>
          if receives stopChan receiving then
            let pf := PortForward.set_Error msg pf in
            Watchdog.mk (portforwardstore pf pfs) [Send stopChan; TickerStop]
              1 true false
          else Watchdog.mk pfs [] 1 false true
      | PodPhase phase =>
          if negb (String.eqb phase PodRunning) then
            if receives stopChan receiving then
              let pf := PortForward.set_Error "Pod is not running" pf in
              Watchdog.mk (portforwardstore pf pfs) [Send stopChan; TickerStop]
                1 true false
            else Watchdog.mk pfs [] 1 false true
          else continue
      end
  end.

(** *** Bearer token of [POST /portforward] *)

(** [strings.Split(s, sep)] for a non-empty [sep]: cut at the
    occurrences of [sep], found left to right without overlap.  [skip]
    counts the bytes of a separator still to be passed over and [cur] is
    the piece read so far. *)
Fixpoint splitFrom (sep : string) (skip : nat) (cur : string) (s : string)
  : list string :=
  match s with
  | EmptyString => [cur]
  | String c s' =>
      match skip with
      | S skip' => splitFrom sep skip' cur s'
      | O =>
          if String.prefix sep s
          then cur :: splitFrom sep (String.length sep - 1) "" s'
          else splitFrom sep 0 (cur +:+ String c "") s'
      end
  end.

Definition strings_Split (s sep : string) : list string :=
  splitFrom sep 0 "" s.

(** Lines 485-490: the token is [splitToken[1]]; indexing past the end
    of the slice panics. *)
Definition bearerToken (reqToken : string) : outcome string :=
  let splitToken := strings_Split reqToken "Bearer " in
  if negb (String.eqb reqToken "") || (2 <? length splitToken)%nat then
    match splitToken !! 1%nat with
    | Some token => Returns token
    | None => Panics
    end
  else Returns "".

Definition validatePortForward (p : PortForwardPayload.t) : error :=
  if String.eqb (PortForwardPayload.Namespace p) "" then
    Some "namespace is required"
  else if String.eqb (PortForwardPayload.Pod p) "" then
    Some "pod name is required"
  else if String.eqb (PortForwardPayload.TargetPort p) "" then
    Some "targetPort is required"
  else if String.eqb (PortForwardPayload.Cluster p) "" then
    Some "cluster name is required"
  else None.

(** Where the [POST /portforward] handler stands after validation. *)
Inductive portforwardStage :=
| Rejected (w : ResponseWriter.t)
| Validated (p : PortForwardPayload.t) (token : string).

(** The [POST /portforward] handler up to and including validation
    (lines 474-496).  [decoded] is what [json.NewDecoder(r.Body).Decode]
    gives and [freshID] what [uuid.New().String()] would give. *)
Definition portforwardPostHandler (decoded : result PortForwardPayload.t)
    (freshID : string) (r : Request.t) (w : ResponseWriter.t)
  : outcome portforwardStage :=
  match decoded with
  | Err e => Returns (Rejected (http_Error ("invalid request " +:+ e) StatusBadRequest w))
  | Ok p =>
      let p :=
        if String.eqb (PortForwardPayload.ID p) "" then
          PortForwardPayload.mk freshID (PortForwardPayload.Namespace p)
            (PortForwardPayload.Pod p) (PortForwardPayload.Service p)
            (PortForwardPayload.ServiceNamespace p)
            (PortForwardPayload.TargetPort p) (PortForwardPayload.Cluster p)
            (PortForwardPayload.Port p)
        else p in
      match bearerToken (Header_Get (Request.Header r) "Authorization") with
      | Panics => Panics
      | Exits => Exits
      | Returns token =>
          match validatePortForward p with
          | Some e =>
              Returns (Rejected (http_Error ("invalid request " +:+ e) StatusBadRequest w))
          | None => Returns (Validated p token)
          end
      end
  end.

(** ** Library calls

    Calls into net/url, gobwas/glob, crypto/tls and the network are taken
    as an interface; the handlers are functions of it. *)

Module Upstream.
(** What the backend answers to a relayed request. *)
Record t := mk { code : Z; body : string }.
End Upstream.

Class NetLib := {
  (** [url.Parse]; [None] is the error result. *)
  url_Parse : string → option URL.t;
  url_String : URL.t → string;
  url_RequestURI : URL.t → string;
  (** [glob.MustCompile(pattern).Match(s)]; [None] when the pattern does
      not compile and [MustCompile] panics. *)
  glob_Match : string → string → option bool;
  (** The round trip a reverse proxy makes for a request. *)
  RoundTrip : ReverseProxy.t → Request.t → Upstream.t
}.

Class KubeLib := {
  (** [Cluster.getCAData], which may read the CA file. *)
  getCAData : Cluster.t → result bytes;
  (** [tls.LoadX509KeyPair] and [tls.X509KeyPair]: [true] when
      [err == nil]. *)
  LoadX509KeyPair : string → string → bool;
  X509KeyPair : string → string → bool
}.

#[export] Instance result_ret : MRet result := @Ok.
#[export] Instance result_bind : MBind result := λ A B f m,
  match m with
  | Ok a => f a
  | Err e => Err e
  end.

Definition NewSingleHostReverseProxy (target : URL.t) : ReverseProxy.t :=
  ReverseProxy.mk target None.

(** [proxy.ServeHTTP(w, r)]: the request is relayed and the answer is
    copied to [w] (the status through [WriteHeader]).  The headers of
    the answer are not modelled. *)
Definition ServeHTTP `{NetLib} (proxy : ReverseProxy.t)
    (w : ResponseWriter.t) (r : Request.t) : ResponseWriter.t * list effect :=
  let resp := RoundTrip proxy r in
  let w := ResponseWriter.WriteHeader (Upstream.code resp) w in
  (ResponseWriter.Write (UpstreamBody (Upstream.body resp)) w, [Relay proxy r]).

(** ** The proxy factory *)

(** [rootCAs.AppendCertsFromPEM(certificate)]; the pool is kept as the
    PEM data handed to it. *)
Definition AppendCertsFromPEM (certificate : bytes) (pool : list string)
  : list string :=
  match certificate with
  | Some pem => pool ++ [pem]
  | None => pool
  end.

(** [getTransportProxy]: [None] is the nil function; the error of
    [url.Parse] is dropped, so the proxy URL itself may be nil. *)
Definition getTransportProxy `{NetLib} (cluster : Cluster.t)
  : option (option URL.t) :=
  if negb (String.eqb (Cluster.ProxyURL cluster) "")
  then Some (url_Parse (Cluster.ProxyURL cluster))
  else None.

(** [createProxyForContext].  The TLS configuration is built exactly as
    the code builds it: [InsecureSkipVerify] receives the value of the
    local [shouldVerifyTLS]. *)
Definition createProxyForContext `{NetLib, KubeLib} (c : HeadlampConfig.t)
    (context : Context.t) : result ReverseProxy.t :=
  let cluster := getCluster context in
  let name := getName cluster in
  match url_Parse (getServer cluster) with
  | None => Err ("failed to get URL from server " +:+ name)
  | Some server =>
      let proxy := NewSingleHostReverseProxy server in
      let rootCAs : list string := [] in
      let shouldVerifyTLS :=
        negb (HeadlampConfig.insecure c) || shouldVerifyTLS cluster in
      rootCAs ←
        (if shouldVerifyTLS then
           certificate ← getCAData cluster;
           mret (AppendCertsFromPEM certificate rootCAs)
         else mret rootCAs);
      let certs : list Certificate := [] in
      let clientCert := getClientCertificate context in
      certs ←
        (if negb (String.eqb clientCert "") then
           let clientKey := getClientKey context in
           if String.eqb clientKey "" then
             Err "found a ClientCertificate entry, but not a ClientKey"
           else if LoadX509KeyPair clientCert clientKey then
             mret (certs ++ [KeyPairFromFiles clientCert clientKey])
           else mret certs
         else mret certs);
      certs ←
        match getClientCertificateData context with
        | Some clientCertData =>
            match getClientKeyData context with
            | None =>
                Err "found a ClientCertificateData entry, but not a ClientKeyData"
            | Some clientKeyData =>
                if X509KeyPair clientCertData clientKeyData then
                  mret (certs ++ [KeyPairFromData clientCertData clientKeyData])
                else mret certs
            end
        | None => mret certs
        end;
      let tls :=
        TLSConfig.mk shouldVerifyTLS rootCAs certs in
      mret (ReverseProxy.set_Transport
              (Transport.mk (getTransportProxy cluster) tls) proxy)
  end.

(** The TLS client configuration a proxy handler works with; [None]
    when the transport was never set. *)
Definition tlsConfigOf (p : ReverseProxy.t) : option TLSConfig.t :=
  Transport.TLSClientConfig <$> ReverseProxy.Transport p.

(** ** The cluster registry *)

Definition getClusters (c : HeadlampConfig.t) : list Cluster.t :=
  (λ kv, getCluster (contextProxy.context kv.2))
    <$> map_to_list (HeadlampConfig.contextProxies c).

Definition getConfig (c : HeadlampConfig.t) (w : ResponseWriter.t)
  : ResponseWriter.t :=
  let w := ResponseWriter.setHeader "Content-Type" "application/json" w in
  ResponseWriter.Write (ConfigJSON (getClusters c)) w.

(** [mux.Vars(r)[key]] *)
Definition muxVar (r : Request.t) (key : string) : string :=
  default "" (Request.Vars r !! key).

(** [deleteCluster]: the registry afterwards and the response. *)
Definition deleteCluster (c : HeadlampConfig.t) (w : ResponseWriter.t)
    (r : Request.t) : HeadlampConfig.t * ResponseWriter.t :=
  let name := muxVar r "name" in
  match HeadlampConfig.contextProxies c !! name with
  | None => (c, http_Error "Cluster not found" StatusNotFound w)
  | Some cp =>
      if negb (contextProxy.source cp =? DynamicCluster)%Z then
        (c, http_Error "Cannot delete a static cluster" StatusForbidden w)
      else
        let c :=
          HeadlampConfig.set_contextProxies
            (delete name (HeadlampConfig.contextProxies c)) c in
        (c, getConfig c w)
  end.

Module ClusterReq.
Record t := mk {
  Name : string;
  Server : string;
  InsecureSkipTLSVerify : bool;
  CertificateAuthorityData : bytes;
  Metadata : gmap string string
}.
End ClusterReq.

(** [addCluster]; [decoded] is what decoding the request body gives. *)
Definition addCluster `{NetLib, KubeLib} (c : HeadlampConfig.t)
    (decoded : result ClusterReq.t) (w : ResponseWriter.t)
  : HeadlampConfig.t * ResponseWriter.t :=
  match decoded with
  | Err _ => (c, http_Error "Error decoding cluster info" StatusBadRequest w)
  | Ok clusterReq =>
      if String.eqb (ClusterReq.Name clusterReq) ""
         || String.eqb (ClusterReq.Server clusterReq) "" then
        (c, http_Error
              "Error creating cluster with invalid info; please provide a 'name' and 'server' fields at least."
              StatusBadRequest w)
      else
        let context :=
          Context.mk (ClusterReq.Name clusterReq)
            (Cluster.mk (ClusterReq.Name clusterReq) (ClusterReq.Server clusterReq)
               (ClusterConfig.mk (ClusterReq.Server clusterReq)
                  (ClusterReq.InsecureSkipTLSVerify clusterReq) ""
                  (ClusterReq.CertificateAuthorityData clusterReq))
               "" (ClusterReq.Metadata clusterReq))
            None in
        match createProxyForContext c context with
        | Err _ => (c, http_Error "Error setting up cluster" StatusBadRequest w)
        | Ok proxy =>
            let c :=
              HeadlampConfig.set_contextProxies
                (<[ClusterReq.Name clusterReq :=
                     contextProxy.mk context (Some proxy) DynamicCluster]>
                   (HeadlampConfig.contextProxies c)) c in
            (c, getConfig c (ResponseWriter.WriteHeader StatusCreated w))
        end
  end.

(** ** Relaying requests *)

(** The assignments [r.Host = h], [r.URL.Host = h], [r.URL.Scheme = s]. *)
Definition retarget (host scheme : string) (r : Request.t) : Request.t :=
  let u := Request.URL r in
  Request.mk (Request.Method r)
    (URL.mk scheme host (URL.Path u) (URL.RawQuery u))
    host (Request.Header r) (Request.RequestURI r) (Request.TLS r)
    (Request.Vars r) (Request.Query r).

Definition set_RequestURI (uri : string) (r : Request.t) : Request.t :=
  Request.mk (Request.Method r) (Request.URL r) (Request.Host r)
    (Request.Header r) uri (Request.TLS r) (Request.Vars r) (Request.Query r).

Definition set_URLPath (path : string) (r : Request.t) : Request.t :=
  let u := Request.URL r in
  Request.mk (Request.Method r)
    (URL.mk (URL.Scheme u) (URL.Host u) path (URL.RawQuery u))
    (Request.Host r) (Request.Header r) (Request.RequestURI r) (Request.TLS r)
    (Request.Vars r) (Request.Query r).

(** The loop over [config.proxyURLs]: [Some true] when some pattern
    matches (the loop breaks there), [Some false] when none does, [None]
    when a pattern reached by the loop does not compile. *)
Fixpoint isURLContainedInProxyURLs `{NetLib} (url : string)
    (proxyURLs : list string) : option bool :=
  match proxyURLs with
  | [] => Some false
  | proxyURL :: rest =>
      match glob_Match proxyURL url with
      | None => None
      | Some true => Some true
      | Some false => isURLContainedInProxyURLs url rest
      end
  end.

(** The [/externalproxy] handler (lines 396-420). *)
Definition externalproxyHandler `{NetLib} (config : HeadlampConfig.t)
    (w : ResponseWriter.t) (r : Request.t)
  : outcome (ResponseWriter.t * list effect) :=
  match url_Parse (Header_Get (Request.Header r) "Proxy-To") with
  | None => Exits
  | Some url =>
      match isURLContainedInProxyURLs (url_String url)
              (HeadlampConfig.proxyURLs config) with
      | None => Panics
      | Some contained =>
          let w :=
            if negb contained then
              http_Error "no allowed proxy url match, request denied "
                StatusBadRequest w
            else w in
          let proxy := NewSingleHostReverseProxy url in
          let r := retarget (URL.Host url) (URL.Scheme url) r in
          let r := set_RequestURI (url_RequestURI url) r in
          Returns (ServeHTTP proxy w r)
      end
  end.

(** [setPluginReloadHeader] *)
Definition setPluginReloadHeader (w : ResponseWriter.t) : ResponseWriter.t :=
  let w := ResponseWriter.setHeader "Access-Control-Expose-Headers" "X-Reload" w in
  ResponseWriter.setHeader "X-Reload" "reload" w.

(** [proxyHandler(url, proxy)(writer, request)].  [pluginsChanged] is
    the answer of the plugin watcher's flag; calling [ServeHTTP] on a nil
    proxy panics. *)
Definition proxyHandler `{NetLib} (url : URL.t) (proxy : option ReverseProxy.t)
    (pluginsChanged : bool) (writer : ResponseWriter.t) (request : Request.t)
  : outcome (ResponseWriter.t * list effect) :=
  let h := Request.Header request in
  let request :=
    Request.set_Header (Header_Set "X-Forwarded-Host" (Header_Get h "Host") h)
      request in
  let request := retarget (URL.Host url) (URL.Scheme url) request in
  let request := set_URLPath (muxVar request "api") request in
  let writer :=
    if pluginsChanged then setPluginReloadHeader writer else writer in
  match proxy with
  | Some proxy => Returns (ServeHTTP proxy writer request)
  | None => Panics
  end.

(** The handler that [handleClusterRequests] installs for
    [/clusters/{clusterName}/{api:.*}]. *)
Definition clusterRequestHandler `{NetLib} (c : HeadlampConfig.t)
    (pluginsChanged : bool) (w : ResponseWriter.t) (r : Request.t)
  : outcome (ResponseWriter.t * list effect) :=
  let clusterName := muxVar r "clusterName" in
  match HeadlampConfig.contextProxies c !! clusterName with
  | None => Returns (http_NotFound w, [])
  | Some ctxtProxy =>
      match url_Parse (getServer (Context.cluster (contextProxy.context ctxtProxy))) with
      | None => Returns (ResponseWriter.WriteHeader StatusBadRequest w, [])
      | Some server =>
          let withToken : outcome Request.t :=
            if String.eqb (Header_Get (Request.Header r) "Authorization") "" then
              match Context.authInfo (contextProxy.context ctxtProxy) with
              | None => Panics
              | Some authInfo =>
                  let token := AuthInfo.Token authInfo in
                  if negb (String.eqb token "") then
                    Returns
                      (Request.set_Header
                         (Header_Add "Authorization" ("Bearer " +:+ token)
                            (Request.Header r)) r)
                  else Returns r
              end
            else Returns r in
          match withToken with
          | Returns r => proxyHandler server (contextProxy.proxy ctxtProxy) pluginsChanged w r
          | Panics => Panics
          | Exits => Exits
          end
      end
  end.

(** ** encoding/base64, [StdEncoding]

    The standard alphabet of RFC 4648 with [=] padding.  Decoding skips
    carriage returns and line feeds and gives back the bytes of the
    quanta decoded before an error, as [DecodeString] does. *)
Module Base64.
Definition alphabet : string :=
  "ABCDEFGHIJKLMNOPQRSTUVWXYZabcdefghijklmnopqrstuvwxyz0123456789+/".

Definition pad : Ascii.ascii := Ascii.ascii_of_nat 61.

Definition enc6 (n : nat) : Ascii.ascii :=
  default pad (String.get n alphabet).

Definition dec6 (c : Ascii.ascii) : option nat :=
  let n := Ascii.nat_of_ascii c in
  if (65 <=? n)%nat && (n <=? 90)%nat then Some (n - 65)
  else if (97 <=? n)%nat && (n <=? 122)%nat then Some (n - 71)
  else if (48 <=? n)%nat && (n <=? 57)%nat then Some (n + 4)
  else if (n =? 43)%nat then Some 62
  else if (n =? 47)%nat then Some 63
  else None.

Fixpoint encodeBytes (bs : list nat) : list Ascii.ascii :=
  match bs with
  | [] => []
  | [a] => [enc6 (a / 4); enc6 (a mod 4 * 16); pad; pad]
  | [a; b] =>
      [enc6 (a / 4); enc6 (a mod 4 * 16 + b / 16); enc6 (b mod 16 * 4); pad]
  | a :: b :: c :: rest =>
      enc6 (a / 4) :: enc6 (a mod 4 * 16 + b / 16)
        :: enc6 (b mod 16 * 4 + c / 64) :: enc6 (c mod 64)
        :: encodeBytes rest
  end.

Definition EncodeToString (src : string) : string :=
  String.string_of_list_ascii
    (encodeBytes (Ascii.nat_of_ascii <$> String.list_ascii_of_string src)).

Definition isPad (c : Ascii.ascii) : bool := Ascii.eqb c pad.

Definition isNewline (c : Ascii.ascii) : bool :=
  let n := Ascii.nat_of_ascii c in (n =? 10)%nat || (n =? 13)%nat.

Definition nonEmpty (cs : list Ascii.ascii) : bool :=
  match cs with [] => false | _ => true end.

(** One quantum of four characters at a time; the boolean is
    [err != nil]. *)
Fixpoint decodeQuanta (cs : list Ascii.ascii) : list nat * bool :=
  match cs with
  | [] => ([], false)
  | a :: b :: c :: d :: rest =>
      match dec6 a, dec6 b with
      | Some x, Some y =>
          match dec6 c, dec6 d with
          | Some z, Some t =>
              let '(out, err) := decodeQuanta rest in
              (x * 4 + y / 16 :: y mod 16 * 16 + z / 4 :: z mod 4 * 64 + t :: out,
               err)
          | Some z, None =>
              if isPad d
              then ([x * 4 + y / 16; y mod 16 * 16 + z / 4], nonEmpty rest)
              else ([], true)
          | None, _ =>
              if isPad c && isPad d
              then ([x * 4 + y / 16], nonEmpty rest)
              else ([], true)
          end
      | _, _ => ([], true)
      end
  | _ => ([], true)
  end.

Definition DecodeString (s : string) : string * bool :=
  let cs := filter (λ c, isNewline c = false) (String.list_ascii_of_string s) in
  let '(out, err) := decodeQuanta cs in
  (String.string_of_list_ascii (Ascii.ascii_of_nat <$> out), err).
End Base64.

(** ** The OIDC flow *)

Module OidcConfig.                  (* what GetClusterOidcConfig returns *)
Record t := mk {
  ClientID : string;
  ClientSecret : string;
  IdpIssuerURL : string;
  Scopes : list string
}.
End OidcConfig.

Module Provider.                    (* *oidc.Provider *)
Record t := mk { Issuer : string; Endpoint : string }.
End Provider.

Module OAuth2Config.                (* oauth2.Config *)
Record t := mk {
  ClientID : string;
  ClientSecret : string;
  Endpoint : string;
  RedirectURL : string;
  Scopes : list string
}.
End OAuth2Config.

Module Verifier.                    (* provider.Verifier(&oidc.Config{ClientID}) *)
Record t := mk { provider : Provider.t; ClientID : string }.
End Verifier.

Module OauthConfig.
Record t := mk {
  Config : OAuth2Config.t;
  Verifier : Verifier.t;
  Ctx : bool                       (* the context carries the insecure client *)
}.
End OauthConfig.

Module OAuth2Token.                 (* *oauth2.Token *)
Record t := mk {
  AccessToken : string;
  id_token : option string         (* Extra("id_token").(string) *)
}.
End OAuth2Token.

Module IDToken.                     (* *oidc.IDToken *)
Record t := mk { Subject : string; claims : string }.
End IDToken.

Class OidcLib := {
  GetClusterOidcConfig : string → result OidcConfig.t;
  NewProvider : bool → string → result Provider.t;
  AuthCodeURL : OAuth2Config.t → string → string;
  Exchange : OauthConfig.t → string → result OAuth2Token.t;
  Verify : OauthConfig.t → string → result IDToken.t;
  Claims : IDToken.t → error;
  (** [utf8.RuneCountInString], which [fmt] uses for widths. *)
  RuneCountInString : string → nat
}.

Fixpoint trimLeft (c : Ascii.ascii) (l : list Ascii.ascii) : list Ascii.ascii :=
  match l with
  | a :: l' => if Ascii.eqb a c then trimLeft c l' else l
  | [] => []
  end.

(** [strings.Trim(s, "/")] *)
Definition TrimSlash (s : string) : string :=
  let slash := Ascii.ascii_of_nat 47 in
  let l := trimLeft slash (String.list_ascii_of_string s) in
  String.string_of_list_ascii (rev (trimLeft slash (rev l))).

Definition getOidcCallbackURL (r : Request.t) (config : HeadlampConfig.t)
  : string :=
  let urlScheme := URL.Scheme (Request.URL r) in
  let urlScheme :=
    if String.eqb urlScheme "" then
      let fwdProto := Header_Get (Request.Header r) "X-Forwarded-Proto" in
      if negb (String.eqb fwdProto "") then fwdProto
      else if String.prefix "localhost:" (Request.Host r) || negb (Request.TLS r)
      then "http"
      else "https"
    else urlScheme in
  let hostWithBaseURL := TrimSlash (Request.Host r) in
  let baseURL := TrimSlash (HeadlampConfig.baseURL config) in
  let hostWithBaseURL :=
    if negb (String.eqb baseURL "")
    then hostWithBaseURL +:+ "/" +:+ baseURL
    else hostWithBaseURL in
  urlScheme +:+ "://" +:+ hostWithBaseURL +:+ "/oidc-callback".

(** [var oauthRequestMap] of [createHeadlampHandler]. *)
Abbreviation OauthRequestMap := (gmap string OauthConfig.t).

(** The [/oidc] handler (lines 429-471): the pending flows afterwards
    and the response. *)
Definition oidcHandler `{OidcLib} (config : HeadlampConfig.t)
    (oauthRequestMap : OauthRequestMap) (w : ResponseWriter.t) (r : Request.t)
  : OauthRequestMap * ResponseWriter.t :=
  let cluster := Request.QueryGet r "cluster" in
  let ctx := HeadlampConfig.insecure config in
  match GetClusterOidcConfig cluster with
  | Err e => (oauthRequestMap, http_Error e StatusInternalServerError w)
  | Ok oidcAuthConfig =>
      match NewProvider ctx (OidcConfig.IdpIssuerURL oidcAuthConfig) with
      | Err e => (oauthRequestMap, http_Error e StatusInternalServerError w)
      | Ok provider =>
          let verifier :=
            Verifier.mk provider (OidcConfig.ClientID oidcAuthConfig) in
          let oauthConfig :=
            OAuth2Config.mk (OidcConfig.ClientID oidcAuthConfig)
              (OidcConfig.ClientSecret oidcAuthConfig)
              (Provider.Endpoint provider)
              (getOidcCallbackURL r config)
              ("openid" :: OidcConfig.Scopes oidcAuthConfig) in
          let state := Base64.EncodeToString cluster in
          (<[state := OauthConfig.mk oauthConfig verifier ctx]> oauthRequestMap,
           http_Redirect (AuthCodeURL oauthConfig state) StatusFound w)
      end
  end.

(** [fmt]'s [%Ns] for a string: blanks on the left up to width [N]. *)
Definition padLeft `{OidcLib} (width : nat) (s : string) : string :=
  String.string_of_list_ascii
    (replicate (width - RuneCountInString s) (Ascii.ascii_of_nat 32)) +:+ s.

(** The [/oidc-callback] handler (lines 623-675).  The text of the
    base64 error is written without its byte offset. *)
Definition oidcCallbackHandler `{OidcLib} (config : HeadlampConfig.t)
    (oauthRequestMap : OauthRequestMap) (w : ResponseWriter.t) (r : Request.t)
  : OauthRequestMap * ResponseWriter.t :=
  let state := Request.QueryGet r "state" in
  let '(decodedState, err) := Base64.DecodeString state in
  let w :=
    if err then
      http_Error ("wrong state set, invalid request " +:+ "illegal base64 data")
        StatusBadRequest w
    else w in
  if String.eqb state "" then
    (oauthRequestMap, http_Error "invalid request state is empty" StatusBadRequest w)
  else
    match oauthRequestMap !! state with
    | Some oauthConfig =>
        match Exchange oauthConfig (Request.QueryGet r "code") with
        | Err e =>
            (oauthRequestMap,
             http_Error ("Failed to exchange token: " +:+ e) StatusInternalServerError w)
        | Ok oauth2Token =>
            match OAuth2Token.id_token oauth2Token with
            | None =>
                (oauthRequestMap,
                 http_Error "No id_token field in oauth2 token." StatusInternalServerError w)
            | Some rawIDToken =>
                match Verify oauthConfig rawIDToken with
                | Err e =>
                    (oauthRequestMap,
                     http_Error ("Failed to verify ID Token: " +:+ e)
                       StatusInternalServerError w)
                | Ok idToken =>
                    match Claims idToken with
                    | Some e =>
                        (oauthRequestMap,
                         http_Error e StatusInternalServerError w)
                    | None =>
                        let redirectURL :=
                          if HeadlampConfig.devMode config
                          then "http://localhost:3000/" else "/" in
                        let redirectURL :=
                          redirectURL +:+ "auth?cluster=" +:+ padLeft 1 decodedState
                            +:+ "&token=" +:+ padLeft 2 rawIDToken in
                        (oauthRequestMap,
                         http_Redirect redirectURL StatusSeeOther w)
                    end
                end
            end
        end
    | None => (oauthRequestMap, http_Error "invalid request" StatusBadRequest w)
    end.

(** ** A concrete library for running the handlers

    The examples below run the handlers on one instance of each
    interface. *)
Module Sample.
(** Reads [scheme://host/path]; agrees with [url.Parse] on URLs of that
    shape (no user info, query or fragment). *)
Definition parse (s : string) : option URL.t :=
  match strings_Split s "://" with
  | [scheme; rest] =>
      match strings_Split rest "/" with
      | host :: segs =>
          Some (URL.mk scheme host
                  (foldr (λ seg acc, "/" +:+ seg +:+ acc) "" segs) "")
      | [] => None
      end
  | _ => None
  end.

Definition unparse (u : URL.t) : string :=
  URL.Scheme u +:+ "://" +:+ URL.Host u +:+ URL.Path u.

Definition requestURI (u : URL.t) : string :=
  if String.eqb (URL.Path u) "" then "/" else URL.Path u.

(** Patterns of literal characters and [*], which stands for any run
    of characters; agrees with gobwas/glob on such patterns. *)
Fixpoint globChars (p s : list Ascii.ascii) : bool :=
  match p with
  | [] => match s with [] => true | _ => false end
  | c :: p' =>
      if Ascii.eqb c (Ascii.ascii_of_nat 42) then
        (fix star (s : list Ascii.ascii) : bool :=
           globChars p' s
           || match s with
              | [] => false
              | _ :: s' => star s'
              end) s
      else
        match s with
        | a :: s' => Ascii.eqb a c && globChars p' s'
        | [] => false
        end
  end.

Definition glob (pattern s : string) : option bool :=
  Some (globChars (String.list_ascii_of_string pattern)
                  (String.list_ascii_of_string s)).

#[export] Instance net : NetLib := {|
  url_Parse := parse;
  url_String := unparse;
  url_RequestURI := requestURI;
  glob_Match := glob;
  RoundTrip := λ _ _, Upstream.mk 200 "upstream answer"
|}.

#[export] Instance kube : KubeLib := {|
  getCAData := λ c, Ok (ClusterConfig.CertificateAuthorityData (Cluster.config c));
  LoadX509KeyPair := λ _ _, true;
  X509KeyPair := λ _ _, true
|}.

(** An identity provider that accepts every code. *)
#[export] Instance oidc : OidcLib := {|
  GetClusterOidcConfig := λ cluster,
    Ok (OidcConfig.mk "headlamp" "secret" "https://idp.example" ["email"]);
  NewProvider := λ _ issuer, Ok (Provider.mk issuer (issuer +:+ "/auth"));
  AuthCodeURL := λ cfg state,
    OAuth2Config.Endpoint cfg +:+ "?state=" +:+ state;
  Exchange := λ _ code, Ok (OAuth2Token.mk "access" (Some "header.payload.sig"));
  Verify := λ _ raw, Ok (IDToken.mk "user" raw);
  Claims := λ _, None;
  RuneCountInString := String.length
|}.

Definition config (proxyURLs : list string)
    (proxies : gmap string contextProxy.t) : HeadlampConfig.t :=
  HeadlampConfig.mk false false false "" 4466 "" "" "" "" [] "" ""
    proxies proxyURLs.

Definition request (header : list (string * list string))
    (vars : list (string * string)) (query : list (string * list string))
  : Request.t :=
  Request.mk "GET" (URL.mk "" "" "/" "") "localhost:4466"
    (list_to_map header) "/" false (list_to_map vars) (list_to_map query).

Definition session (cluster id : string) (ch : nat) (status : string)
  : PortForward.t :=
  PortForward.mk id (Some ch) "pod1" "" "" "ns1" cluster "8080" "80" status "".

Definition target (name server token : string) (skipTLS : bool)
  : Context.t :=
  Context.mk name
    (Cluster.mk name server
       (ClusterConfig.mk server skipTLS "" (Some "-----BEGIN CERTIFICATE-----"))
       "" ∅)
    (Some (AuthInfo.mk "" None "" None token)).

(** Two sessions of cluster [c1], stored one after the other. *)
Definition index2 : PortForwards :=
  portforwardstore (session "c1" "b" 1 RUNNING)
    (portforwardstore (session "c1" "a" 0 RUNNING) ∅).

(** The forwarders of both sessions are waiting to receive; [b] after
    it has been stopped once. *)
Definition bothReceiving : Receivers := {[0; 1]}.
Definition onceStopped : PortForwards :=
  (stopOrDeletePortForward "c1" "b" true index2 bothReceiving).1.2.

(** A registry with a kubeconfig cluster and one added at run time. *)
Definition registry : gmap string contextProxy.t :=
  <["dyn" := contextProxy.mk (target "dyn" "https://dyn.example" "" false)
               (Some (NewSingleHostReverseProxy
                        (URL.mk "https" "dyn.example" "" "")))
               DynamicCluster]>
    (<["c1" := contextProxy.mk (target "c1" "https://k8s.example" "tok" false)
                 (Some (NewSingleHostReverseProxy
                          (URL.mk "https" "k8s.example" "" "")))
                 KubeConfig]> ∅).

Definition payload : PortForwardPayload.t :=
  PortForwardPayload.mk "id1" "ns1" "pod1" "" "" "80" "c1" "8080".

(** The pending flows after [GET /oidc?cluster=c1]. *)
Definition pending : OauthRequestMap :=
  (oidcHandler (config [] ∅) ∅ ResponseWriter.new
     (request [] [] [("cluster", ["c1"])])).1.

(** [GET /oidc-callback?state=YzE=&code=abc] *)
Definition callback : Request.t :=
  request [] [] [("state", ["YzE="]); ("code", ["abc"])].

(** An allow-list of one pattern, and a request for a URL outside it. *)
Definition allowConfig : HeadlampConfig.t :=
  config ["https://artifacthub.io/*"] ∅.
Definition evilURL : URL.t := URL.mk "http" "evil.example" "/x" "".
Definition evilRequest : Request.t :=
  request [("Proxy-To", ["http://evil.example/x"])] [] [].

(** What the factory returns for a cluster that asks for verification
    while insecure mode is off. *)
Definition verifyingProxy : ReverseProxy.t :=
  ReverseProxy.mk (URL.mk "https" "k8s.example" "" "")
    (Some (Transport.mk None
             (TLSConfig.mk true ["-----BEGIN CERTIFICATE-----"] []))).

(** [GET /clusters/c1/api/v1/pods] without an Authorization header, and
    with one. *)
Definition podsRequest : Request.t :=
  request [] [("clusterName", "c1"); ("api", "api/v1/pods")] [].
Definition podsRequestAuth : Request.t :=
  request [("Authorization", ["Bearer mine"])]
    [("clusterName", "c1"); ("api", "api/v1/pods")] [].

(** [POST /portforward] with a Basic credential. *)
Definition basicRequest : Request.t :=
  request [("Authorization", ["Basic abc"])] [] [].

(** The session of [payload], stored when the tunnel was ready, and the
    watchdog run in which the second lookup finds the pod Failed. *)
Definition tunnel : PortForward.t := portForwardToStore payload (Some 0).

(** A callback for the pending flow, and the same callback once more. *)
Definition firstCallback : OauthRequestMap * ResponseWriter.t :=
  oidcCallbackHandler (config [] ∅) pending ResponseWriter.new callback.
Definition secondCallback : OauthRequestMap * ResponseWriter.t :=
  oidcCallbackHandler (config [] ∅) firstCallback.1 ResponseWriter.new callback.
End Sample.

(** ** Predicates used in the statements *)

(** Session ids are pairwise different within a list. *)
Definition idsUnique (l : list PortForward.t) : Prop :=
  NoDup (PortForward.ID <$> l).

(** The indexes the package can reach: it starts empty and is changed
    only through [portforwardstore] and [stopOrDeletePortForward],
    whatever the receivers are. *)
Inductive reachable : PortForwards → Prop :=
| reach_init : reachable ∅
| reach_store p pfs :
    reachable pfs → reachable (portforwardstore p pfs)
| reach_close cluster id isStopRequest pfs receiving :
    reachable pfs →
    reachable
      (stopOrDeletePortForward cluster id isStopRequest pfs receiving).1.2.

(** [sep] occurs somewhere in [s]. *)
Fixpoint occursIn (sep s : string) : bool :=
  match s with
  | EmptyString => String.prefix sep s
  | String _ s' => String.prefix sep s || occursIn sep s'
  end.

(** A tick after which the watchdog keeps waiting: the lookup was
    refused, or the pod is running. *)
Definition keepsTicking (tick : podLookup) : bool :=
  match tick with
  | ConnRefused => true
  | LookupErr _ => false
  | PodPhase phase => String.eqb phase PodRunning
  end.

(** What a handler wrote, when it returned. *)
Definition written {A} (o : outcome (ResponseWriter.t * A))
  : option ResponseWriter.t :=
  match o with
  | Returns (w, _) => Some w
  | _ => None
  end.

(** The requests a handler relayed, in order. *)
Definition relayedRequests (o : outcome (ResponseWriter.t * list effect))
  : list Request.t :=
  match o with
  | Returns (_, effects) =>
      omap (λ e, match e with Relay _ r => Some r | _ => None end) effects
  | _ => []
  end.

From Stdlib Require Import ZifyNat.
From stdpp Require Import pretty.

(** ** The other port-forward handlers *)

(** [json.Marshal] of the values the handlers write; the error result is
    kept because the handlers test it. *)
Class JsonLib := {
  MarshalPortForwards : list PortForward.t → result string;
  MarshalPayload : PortForwardPayload.t → result string;
  (** The reduced record [payload] of the [GET /portforward] handler:
      id, pod, namespace, cluster, service. *)
  MarshalReduced : string → string → string → string → string → result string
}.

Module deletePayload.
Record t := mk {
  ID : string;
  Cluster : string;
  StopOrDelete : bool
}.
End deletePayload.

(** The [DELETE /portforward] handler (lines 532-561): the index
    afterwards, the effects and the response, or [Blocks] when
    [stopOrDeletePortForward] never returns and the request is never
    answered.  Writes to the response are taken to succeed. *)
Definition portforwardDeleteHandler (decoded : result deletePayload.t)
    (pfs : PortForwards) (receiving : Receivers) (w : ResponseWriter.t)
  : PortForwards * list effect * sending ResponseWriter.t :=
  match decoded with
  | Err e => (pfs, [], Completes (http_Error e StatusBadRequest w))
  | Ok dp =>
      if String.eqb (deletePayload.ID dp) "" then
        (pfs, [], Completes (http_Error "id is required" StatusBadRequest w))
      else if String.eqb (deletePayload.Cluster dp) "" then
        (pfs, [],
         Completes (http_Error "cluster is required" StatusBadRequest w))
      else
        match stopOrDeletePortForward (deletePayload.Cluster dp)
                (deletePayload.ID dp) (deletePayload.StopOrDelete dp)
                pfs receiving with
        | (Completes None, pfs, effects) =>
            (pfs, effects, Completes (ResponseWriter.Write (Text "stopped") w))
        | (Completes (Some err), pfs, effects) =>
            (pfs, effects,
             Completes
               (http_Error ("failed to delete port forward " +:+ err)
                  StatusInternalServerError w))
        | (Blocks, pfs, effects) => (pfs, effects, Blocks)
        end
  end.

(** The [/portforward/list] handler (lines 563-580). *)
Definition portforwardListHandler `{JsonLib} (pfs : PortForwards)
    (w : ResponseWriter.t) (r : Request.t) : ResponseWriter.t :=
  let cluster := Request.QueryGet r "cluster" in
  if String.eqb cluster "" then
    http_Error "cluster is required" StatusBadRequest w
  else
    let ports := getPortForwardList cluster pfs in
    match MarshalPortForwards ports with
    | Err e =>
        http_Error ("failed to marshal port forward list " +:+ e)
          StatusInternalServerError w
    | Ok jsonPayload =>
        let w := ResponseWriter.setHeader "Content-Type" "application/json" w in
        ResponseWriter.Write (Text jsonPayload) w
    end.

(** The [GET /portforward] handler (lines 582-621). *)
Definition portforwardGetHandler `{JsonLib} (pfs : PortForwards)
    (w : ResponseWriter.t) (r : Request.t) : ResponseWriter.t :=
  let id := Request.QueryGet r "id" in
  let cluster := Request.QueryGet r "cluster" in
  if String.eqb cluster "" then
    http_Error "cluster is required" StatusBadRequest w
  else if String.eqb id "" then
    http_Error "id is required" StatusBadRequest w
  else
    let p := getPortForwardByID cluster id pfs in
    if String.eqb (PortForward.ID p) "" then
      http_Error ("no portforward running with id " +:+ id) StatusNotFound w
    else
      match MarshalReduced (PortForward.ID p) (PortForward.Pod p)
              (PortForward.Namespace p) (PortForward.Cluster p)
              (PortForward.Service p) with
      | Err e =>
          http_Error ("failed to marshal port forward get " +:+ e)
            StatusInternalServerError w
      | Ok jsonPayload =>
          let w := ResponseWriter.setHeader "Content-Type" "application/json" w in
          ResponseWriter.Write (Text jsonPayload) w
      end.

(** ** Opening a tunnel: [startPortForward] *)

Module RestConfig.                  (* rest.Config, the fields set here *)
Record t := mk {
  Host : string;
  BearerToken : string;
  CAData : bytes;
  KeyFile : string;
  CertFile : string;
  KeyData : bytes;
  CertData : bytes
}.
End RestConfig.

(** The calls of [startPortForward] into client-go and fmt. *)
Class ForwardLib := {
  (** [fmt.Sprintf(format)] without arguments. *)
  Sprintf0 : string → string;
  (** [kubernetes.NewForConfig], [spdy.RoundTripperFor] and
      [portforward.New]: the error each returns. *)
  NewForConfig : RestConfig.t → error;
  RoundTripperFor : RestConfig.t → error;
  portforward_New : URL.t → list string → error;
  (** What [errOut] holds when [readyChan] fires; [None] when it never
      fires and the call stays in [<-readyChan]. *)
  readyErrOut : RestConfig.t → list string → option string;
  (** [GetFreePort]: the port, or the error. *)
  GetFreePort : result nat
}.

(** The [rest.Config] built at lines 737-761. *)
Definition restConfigFor (context : Context.t) (caData : bytes)
    (token : string) : RestConfig.t :=
  let rConf :=
    RestConfig.mk
      (ClusterConfig.Server (Cluster.config (Context.cluster context)))
      token caData "" "" None None in
  match Context.authInfo context with
  | None => rConf
  | Some authInfo =>
      let keyFile :=
        if negb (String.eqb (AuthInfo.ClientKey authInfo) "")
        then AuthInfo.ClientKey authInfo else RestConfig.KeyFile rConf in
      let certFile :=
        if negb (String.eqb (AuthInfo.ClientCertificate authInfo) "")
        then AuthInfo.ClientCertificate authInfo else RestConfig.CertFile rConf in
      let keyData :=
        match AuthInfo.ClientKeyData authInfo with
        | Some d => Some d
        | None => RestConfig.KeyData rConf
        end in
      let certData :=
        match AuthInfo.ClientCertificateData authInfo with
        | Some d => Some d
        | None => RestConfig.CertData rConf
        end in
      RestConfig.mk (RestConfig.Host rConf) (RestConfig.BearerToken rConf)
        (RestConfig.CAData rConf) keyFile certFile keyData certData
  end.

(** How a call of [startPortForward] ends. *)
Inductive started :=
| StartFailed (err : string)          (* a non-nil error is returned *)
| NeverReady                          (* the call waits on readyChan for ever *)
| Started (pfs : PortForwards) (session : PortForward.t).
                                      (* nil is returned; the two goroutines run *)

(** [startPortForward] up to its return (lines 721-857).  [stopChan] is
    the channel that [make] creates.  The watchdog goroutine it starts
    is the function [watchdog].  The error of [url.Parse] is written
    without the library's text. *)
Definition startPortForward `{NetLib, KubeLib, ForwardLib}
    (c : HeadlampConfig.t) (p : PortForwardPayload.t) (token : string)
    (stopChan : chan) (pfs : PortForwards) : started :=
  let ports :=
    [Sprintf0 (PortForwardPayload.Port p +:+ ":" +:+ PortForwardPayload.TargetPort p)] in
  match HeadlampConfig.contextProxies c !! PortForwardPayload.Cluster p with
  | None =>
      StartFailed ("cluster " +:+ PortForwardPayload.Cluster p +:+ " not found")
  | Some ctxtProxy =>
      let context := contextProxy.context ctxtProxy in
      match getCAData (Context.cluster context) with
      | Err e => StartFailed ("failed to get CA data: " +:+ e)
      | Ok caData =>
          let rConf := restConfigFor context caData token in
          match NewForConfig rConf with
          | Some e => StartFailed ("failed to create portforward request: " +:+ e)
          | None =>
              match RoundTripperFor rConf with
              | Some _ => StartFailed "failed to create portforward request"
              | None =>
                  let requestURL :=
                    RestConfig.Host rConf +:+ "/api/v1/namespaces/"
                      +:+ PortForwardPayload.Namespace p +:+ "/pods/"
                      +:+ PortForwardPayload.Pod p +:+ "/portforward" in
                  match url_Parse requestURL with
                  | None =>
                      StartFailed "portforward request: failed to parse url"
                  | Some reqURL =>
                      match portforward_New reqURL ports with
                      | Some e =>
                          StartFailed
                            ("portforward request: failed to create portforward: "
                               +:+ e)
                      | None =>
                          let session := portForwardToStore p stopChan in
                          match readyErrOut rConf ports with
                          | None => NeverReady
                          | Some errOut =>
                              if String.eqb errOut ""
                              then Started (portforwardstore session pfs) session
                              else Started pfs session
                          end
                      end
                  end
              end
          end
      end
  end.

(** [strconv.Itoa] of a port number. *)
Definition Itoa (n : nat) : string := pretty n.

Definition set_Port (port : string) (p : PortForwardPayload.t)
  : PortForwardPayload.t :=
  PortForwardPayload.mk (PortForwardPayload.ID p) (PortForwardPayload.Namespace p)
    (PortForwardPayload.Pod p) (PortForwardPayload.Service p)
    (PortForwardPayload.ServiceNamespace p) (PortForwardPayload.TargetPort p)
    (PortForwardPayload.Cluster p) port.

(** The port the handler asks for: lines 497-506.  The second component
    is the response, to which a failure of [GetFreePort] has written its
    500 without ending the handler. *)
Definition withFreePort `{ForwardLib} (p : PortForwardPayload.t)
    (w : ResponseWriter.t) : PortForwardPayload.t * ResponseWriter.t :=
  if String.eqb (PortForwardPayload.Port p) "" then
    match GetFreePort with
    | Err e =>
        (p, http_Error ("can't find any available port " +:+ e)
              StatusInternalServerError w)
    | Ok freePort =>
        (if negb (freePort =? 0)%nat then set_Port (Itoa freePort) p else p, w)
    end
  else (p, w).

(** The [POST /portforward] handler after validation (lines 497-530),
    for a validated payload and the extracted token.  The [err] that
    [GetFreePort] assigns is a new variable of the inner block, so the
    test at line 508 reads the [err] of the validation, which is nil.
    [None] is the call that never comes back from [startPortForward]. *)
Definition portforwardPostOpen `{NetLib, KubeLib, ForwardLib, JsonLib}
    (c : HeadlampConfig.t) (p : PortForwardPayload.t) (token : string)
    (stopChan : chan) (pfs : PortForwards) (w : ResponseWriter.t)
  : option (PortForwards * ResponseWriter.t) :=
  let '(p, w) := withFreePort p w in
  match startPortForward c p token stopChan pfs with
  | NeverReady => None
  | StartFailed e => Some (pfs, http_Error e StatusInternalServerError w)
  | Started pfs _ =>
      match MarshalPayload p with
      | Err e => Some (pfs, http_Error e StatusInternalServerError w)
      | Ok jsonPayload =>
          let w := ResponseWriter.setHeader "Content-Type" "application/json" w in
          Some (pfs, ResponseWriter.Write (Text jsonPayload) w)
      end
  end.

(** The whole [POST /portforward] handler. *)
Definition portforwardPost `{NetLib, KubeLib, ForwardLib, JsonLib}
    (c : HeadlampConfig.t) (decoded : result PortForwardPayload.t)
    (freshID : string) (stopChan : chan) (pfs : PortForwards)
    (w : ResponseWriter.t) (r : Request.t)
  : outcome (option (PortForwards * ResponseWriter.t)) :=
  match portforwardPostHandler decoded freshID r w with
  | Panics => Panics
  | Exits => Exits
  | Returns (Rejected w) => Returns (Some (pfs, w))
  | Returns (Validated p token) =>
      Returns (portforwardPostOpen c p token stopChan pfs w)
  end.

(** ** The registry at start-up *)

(** The proxy stored for a context: nil when the factory fails. *)
Definition proxyOrNil `{NetLib, KubeLib} (c : HeadlampConfig.t)
    (context : Context.t) : option ReverseProxy.t :=
  match createProxyForContext c context with
  | Ok proxy => Some proxy
  | Err _ => None
  end.

(** The in-cluster branch of [createHeadlampHandler] (lines 333-349).
    [own] is the pointer that [GetOwnContext] returns; its error is only
    logged, and a nil pointer is dereferenced. *)
Definition registerOwnContext `{NetLib, KubeLib} (c : HeadlampConfig.t)
    (own : option Context.t) : outcome HeadlampConfig.t :=
  match own with
  | None => Panics
  | Some context =>
      Returns
        (HeadlampConfig.set_contextProxies
           (<[Context.Name context :=
                contextProxy.mk context (proxyOrNil c context) InCluster]>
              (HeadlampConfig.contextProxies c)) c)
  end.

(** The loop over the kubeconfig contexts (lines 370-390): a context
    whose proxy cannot be built is logged and passed over. *)
Fixpoint registerContexts `{NetLib, KubeLib} (c : HeadlampConfig.t)
    (contexts : list Context.t) : HeadlampConfig.t :=
  match contexts with
  | [] => c
  | context :: contexts =>
      match createProxyForContext c context with
      | Err _ => registerContexts c contexts
      | Ok proxy =>
          registerContexts
            (HeadlampConfig.set_contextProxies
               (<[Context.Name context :=
                    contextProxy.mk context (Some proxy) KubeConfig]>
                  (HeadlampConfig.contextProxies c)) c)
            contexts
      end
  end.

(** The registry that [createHeadlampHandler] builds before it installs
    the routes: a fresh map, the server's own context when running
    in-cluster, then the contexts of the kubeconfig files. *)
Definition initialRegistry `{NetLib, KubeLib} (c : HeadlampConfig.t)
    (own : option Context.t) (contexts : list Context.t)
  : outcome HeadlampConfig.t :=
  let c := HeadlampConfig.set_contextProxies ∅ c in
  if HeadlampConfig.useInCluster c then
    match registerOwnContext c own with
    | Returns c => Returns (registerContexts c contexts)
    | Panics => Panics
    | Exits => Exits
    end
  else Returns (registerContexts c contexts).

(** The context that [addCluster] builds from the request body
    (lines 1027-1039): the auth info is left nil. *)
Definition contextOfRequest (clusterReq : ClusterReq.t) : Context.t :=
  Context.mk (ClusterReq.Name clusterReq)
    (Cluster.mk (ClusterReq.Name clusterReq) (ClusterReq.Server clusterReq)
       (ClusterConfig.mk (ClusterReq.Server clusterReq)
          (ClusterReq.InsecureSkipTLSVerify clusterReq) ""
          (ClusterReq.CertificateAuthorityData clusterReq))
       "" (ClusterReq.Metadata clusterReq))
    None.

(** [config.baseURL = b] *)
Definition set_baseURL (b : string) (c : HeadlampConfig.t) : HeadlampConfig.t :=
  HeadlampConfig.mk (HeadlampConfig.useInCluster c) (HeadlampConfig.devMode c)
    (HeadlampConfig.insecure c) (HeadlampConfig.kubeConfigPath c)
    (HeadlampConfig.port c) (HeadlampConfig.staticDir c)
    (HeadlampConfig.pluginDir c) (HeadlampConfig.oidcClientID c)
    (HeadlampConfig.oidcClientSecret c) (HeadlampConfig.oidcScopes c)
    (HeadlampConfig.oidcIdpIssuerURL c) b (HeadlampConfig.contextProxies c)
    (HeadlampConfig.proxyURLs c).

(** ** More concrete values for running the handlers *)
Module Scenario.
Import Sample.

(** JSON texts reduced to the fields that tell the values apart. *)
#[export] Instance json : JsonLib := {|
  MarshalPortForwards := λ l,
    Ok (foldr (λ v acc, PortForward.ID v +:+ ":" +:+ PortForward.Status v
                        +:+ ";" +:+ acc) "" l);
  MarshalPayload := λ p,
    Ok (PortForwardPayload.ID p +:+ ":" +:+ PortForwardPayload.Port p);
  MarshalReduced := λ id pod ns cluster service,
    Ok (id +:+ ":" +:+ pod +:+ ":" +:+ ns +:+ ":" +:+ cluster +:+ ":" +:+ service)
|}.

(** A cluster that accepts every tunnel; port 4571 is free. *)
#[export] Instance forward : ForwardLib := {|
  Sprintf0 := λ s, s;
  NewForConfig := λ _, None;
  RoundTripperFor := λ _, None;
  portforward_New := λ _ _, None;
  readyErrOut := λ _ _, Some "";
  GetFreePort := Ok 4571
|}.

(** The same, but no local port can be found. *)
Definition noFreePort : ForwardLib := {|
  Sprintf0 := λ s, s;
  NewForConfig := λ _, None;
  RoundTripperFor := λ _, None;
  portforward_New := λ _ _, None;
  readyErrOut := λ _ _, Some "";
  GetFreePort := Err "no port"
|}.

(** A library in which the key pair of no client certificate loads and
    CA files cannot be read. *)
Definition brokenKube : KubeLib := {|
  getCAData := λ c,
    if String.eqb (ClusterConfig.CertificateAuthority (Cluster.config c)) ""
    then Ok (ClusterConfig.CertificateAuthorityData (Cluster.config c))
    else Err "open ca.crt: no such file";
  LoadX509KeyPair := λ _ _, false;
  X509KeyPair := λ _ _, false
|}.

(** The body of a tunnel request without id and port. *)
Definition openRequest : PortForwardPayload.t :=
  PortForwardPayload.mk "" "ns1" "pod1" "" "" "8080" "c1" "".

Definition bearerRequest : Request.t :=
  request [("Authorization", ["Bearer tok123"])] [] [].

(** A context with a client certificate file and no key. *)
Definition certWithoutKey : Context.t :=
  Context.mk "bad"
    (Cluster.mk "bad" "https://bad.example"
       (ClusterConfig.mk "https://bad.example" false "" None) "" ∅)
    (Some (AuthInfo.mk "/certs/client.crt" None "" None "")).

(** A body of [POST /cluster], and the proxy the factory builds for it. *)
Definition newCluster (name : string) : ClusterReq.t :=
  ClusterReq.mk name "https://new.example" false None ∅.
Definition newProxy : ReverseProxy.t :=
  ReverseProxy.mk (URL.mk "https" "new.example" "" "")
    (Some (Transport.mk None (TLSConfig.mk true [] []))).

(** Bodies and requests of the port-forward handlers for cluster [c1]. *)
Definition closeRequest (id : string) (stop : bool) : deletePayload.t :=
  deletePayload.mk id "c1" stop.
Definition getRequest (id : string) : Request.t :=
  request [] [] [("cluster", ["c1"]); ("id", [id])].
Definition listRequest : Request.t :=
  request [] [] [("cluster", ["c1"])].

(** [DELETE /cluster/{name}], and a request routed to cluster [n1]. *)
Definition deleteRequest (name : string) : Request.t :=
  request [] [("name", name)] [].
Definition apiRequest (header : list (string * list string)) : Request.t :=
  request header [("clusterName", "n1"); ("api", "api/v1/pods")] [].

(** The registry at start-up for a kubeconfig with the one cluster
    [c1]. *)
Definition startRegistry : gmap string contextProxy.t :=
  <["c1" := contextProxy.mk (target "c1" "https://k8s.example" "tok" false)
              (Some verifyingProxy) KubeConfig]> ∅.

(** [GET /oidc?cluster=...] *)
Definition loginRequest (cluster : string) : Request.t :=
  request [] [] [("cluster", [cluster])].

(** A cluster name of the two bytes 0xc3 0xa9 (an e with an acute
    accent in UTF-8), and the callback of a login for it. *)
Definition accented : string :=
  String (Ascii.ascii_of_nat 195) (String (Ascii.ascii_of_nat 169) "").
Definition accentedCallback : Request.t :=
  request [] [] [("state", ["w6k="]); ("code", ["abc"])].

(** The session that [POST /portforward] builds for [payload] on
    channel 5. *)
Definition opened : PortForward.t := portForwardToStore payload (Some 5).
End Scenario.

(** * Properties *)

(** ** The port-forward index *)

Section Index.
Implicit Types (l : list PortForward.t) (v p : PortForward.t)
  (pfs : PortForwards) (id cluster : string).

Lemma findByID_Some id l i v :
  findByID id l = Some (i, v) ↔
  l !! i = Some v ∧ PortForward.ID v = id
  ∧ ∀ j u, l !! j = Some u → j < i → PortForward.ID u ≠ id.
Proof.
  unfold findByID.
  exact (list_find_Some (λ u, PortForward.ID u = id) l i v).
Qed.

Lemma findByID_None id l :
  findByID id l = None ↔ ∀ v, v ∈ l → PortForward.ID v ≠ id.
Proof.
  unfold findByID.
  rewrite (list_find_None (λ u, PortForward.ID u = id)), Forall_forall. done.
Qed.

Lemma findByID_elem_of id l v :
  v ∈ l → PortForward.ID v = id → is_Some (findByID id l).
Proof.
  intros Hin Hid. destruct (findByID id l) as [[i u]|] eqn:E; [eauto|].
  rewrite findByID_None in E. by destruct (E v Hin).
Qed.

(** With unique ids the entry found for an id is the only one. *)
Lemma findByID_unique id l i v u :
  idsUnique l → findByID id l = Some (i, v) →
  u ∈ l → PortForward.ID u = id → u = v.
Proof.
  intros Hnd [Hi [Hid _]]%findByID_Some [j Hj]%list_elem_of_lookup Hu.
  assert (i = j) as ->; [|congruence].
  eapply (NoDup_lookup _ _ _ id Hnd); rewrite list_lookup_fmap.
  - by rewrite Hi; simpl; f_equal.
  - by rewrite Hj; simpl; f_equal.
Qed.

Lemma getPortForwardList_insert cluster c' l pfs :
  getPortForwardList c' (<[cluster := l]> pfs)
  = if decide (cluster = c') then l else getPortForwardList c' pfs.
Proof.
  unfold getPortForwardList. rewrite lookup_insert.
  by destruct (decide (cluster = c')).
Qed.

Lemma idsUnique_insert l i v p :
  idsUnique l → l !! i = Some v → PortForward.ID v = PortForward.ID p →
  idsUnique (<[i := p]> l).
Proof.
  unfold idsUnique. intros Hnd Hi Hid.
  rewrite list_fmap_insert, list_insert_id; [done|].
  by rewrite list_lookup_fmap, Hi, <- Hid.
Qed.

Lemma idsUnique_snoc l p :
  idsUnique l → (∀ v, v ∈ l → PortForward.ID v ≠ PortForward.ID p) →
  idsUnique (l ++ [p]).
Proof.
  unfold idsUnique. intros Hnd Hfresh. rewrite fmap_app. simpl.
  apply NoDup_app. split; [done|]. split; [|apply NoDup_singleton].
  intros x [v [-> Hv]]%list_elem_of_fmap Heq%list_elem_of_singleton.
  by apply (Hfresh v).
Qed.

Lemma idsUnique_remove l i :
  idsUnique l → idsUnique (take i l ++ drop (S i) l).
Proof.
  unfold idsUnique. intros Hnd.
  rewrite <- delete_take_drop.
  eapply sublist_NoDup; [exact Hnd|].
  apply fmap_sublist, sublist_delete.
Qed.
End Index.

Section Store.
Implicit Types (l : list PortForward.t) (v p : PortForward.t)
  (pfs : PortForwards) (id cluster : string).

(** Only the list of [p.Cluster] is touched by a store. *)
Lemma portforwardstore_other p pfs cluster :
  cluster ≠ PortForward.Cluster p →
  getPortForwardList cluster (portforwardstore p pfs)
  = getPortForwardList cluster pfs.
Proof.
  intros Hne. unfold portforwardstore.
  destruct (findByID _ _) as [[i u]|];
    rewrite getPortForwardList_insert; by destruct (decide _).
Qed.

Lemma portforwardstore_found p pfs i v :
  findByID (PortForward.ID p) (getPortForwardList (PortForward.Cluster p) pfs)
    = Some (i, v) →
  getPortForwardList (PortForward.Cluster p) (portforwardstore p pfs)
  = <[i := p]> (getPortForwardList (PortForward.Cluster p) pfs).
Proof.
  intros Hfind. unfold portforwardstore.
  change (default [] (pfs !! PortForward.Cluster p))
    with (getPortForwardList (PortForward.Cluster p) pfs).
  rewrite Hfind, getPortForwardList_insert. by destruct (decide _).
Qed.

Lemma portforwardstore_fresh p pfs :
  findByID (PortForward.ID p) (getPortForwardList (PortForward.Cluster p) pfs)
    = None →
  getPortForwardList (PortForward.Cluster p) (portforwardstore p pfs)
  = getPortForwardList (PortForward.Cluster p) pfs ++ [p].
Proof.
  intros Hfind. unfold portforwardstore.
  change (default [] (pfs !! PortForward.Cluster p))
    with (getPortForwardList (PortForward.Cluster p) pfs).
  rewrite Hfind, getPortForwardList_insert. by destruct (decide _).
Qed.

Lemma portforwardstore_keeps_unique p pfs :
  idsUnique (getPortForwardList (PortForward.Cluster p) pfs) →
  idsUnique (getPortForwardList (PortForward.Cluster p) (portforwardstore p pfs)).
Proof.
  intros Hnd.
  destruct (findByID (PortForward.ID p)
              (getPortForwardList (PortForward.Cluster p) pfs))
    as [[i u]|] eqn:Hfind.
  - rewrite (portforwardstore_found _ _ _ _ Hfind).
    apply findByID_Some in Hfind as [Hi [Hid _]].
    by eapply idsUnique_insert.
  - rewrite (portforwardstore_fresh _ _ Hfind).
    apply idsUnique_snoc; [done|]. by apply findByID_None.
Qed.

(** C6. [portforwardstore] is an upsert by id on the list of
    [p.Cluster]: when the list already holds a session with the id of
    [p], that entry is overwritten where it stands and the length of
    the list stays the same; when no entry has that id, [p] is appended
    at the end; either way ids that were pairwise different stay so. *)
Theorem portforwardstore_upsert p pfs :
  let l := getPortForwardList (PortForward.Cluster p) pfs in
  let l' := getPortForwardList (PortForward.Cluster p) (portforwardstore p pfs) in
  idsUnique l →
  ((∃ v, v ∈ l ∧ PortForward.ID v = PortForward.ID p) →
     ∃ i v, l !! i = Some v ∧ PortForward.ID v = PortForward.ID p
            ∧ l' = <[i := p]> l ∧ l' !! i = Some p
            ∧ length l' = length l)
  ∧ ((∀ v, v ∈ l → PortForward.ID v ≠ PortForward.ID p) → l' = l ++ [p])
  ∧ idsUnique l'.
Proof.
  intros l l' Hnd. subst l l'.
  destruct (findByID (PortForward.ID p)
              (getPortForwardList (PortForward.Cluster p) pfs))
    as [[i u]|] eqn:Hfind.
  - rewrite (portforwardstore_found _ _ _ _ Hfind).
    pose proof Hfind as [Hi [Hid _]]%findByID_Some.
    split; [|split].
    + intros _. exists i, u. repeat split; try done.
      * apply list_lookup_insert_eq. by eapply lookup_lt_Some.
      * apply length_insert.
    + intros Hfresh. destruct (Hfresh u); [|done].
      apply list_elem_of_lookup. eauto.
    + rewrite <- (portforwardstore_found _ _ _ _ Hfind).
      by apply portforwardstore_keeps_unique.
  - rewrite (portforwardstore_fresh _ _ Hfind).
    split; [|split].
    + rewrite findByID_None in Hfind.
      intros [v [Hv Hid]]. by destruct (Hfind v Hv).
    + done.
    + rewrite <- (portforwardstore_fresh _ _ Hfind).
      by apply portforwardstore_keeps_unique.
Qed.

Lemma portforwardstore_idsUnique p pfs :
  (∀ cluster, idsUnique (getPortForwardList cluster pfs)) →
  ∀ cluster, idsUnique (getPortForwardList cluster (portforwardstore p pfs)).
Proof.
  intros Hall cluster.
  destruct (decide (cluster = PortForward.Cluster p)) as [->|Hne].
  - apply portforwardstore_keeps_unique, Hall.
  - rewrite portforwardstore_other; auto.
Qed.

Lemma stopOrDeletePortForward_idsUnique cluster id b pfs receiving :
  (∀ c, idsUnique (getPortForwardList c pfs)) →
  ∀ c, idsUnique
         (getPortForwardList c
            (stopOrDeletePortForward cluster id b pfs receiving).1.2).
Proof.
  intros Hall c. unfold stopOrDeletePortForward.
  destruct (pfs !! cluster) as [l|] eqn:Hl; [|apply Hall].
  assert (idsUnique l) as Hnd.
  { specialize (Hall cluster). unfold getPortForwardList in Hall.
    by rewrite Hl in Hall. }
  destruct (findByID id l) as [[i v]|] eqn:Hfind; [|apply Hall].
  apply findByID_Some in Hfind as [Hi [Hid _]].
  destruct b; cbn [negb]; cbv zeta.
  - destruct (receives _ receiving); cbn [fst snd]; [|apply Hall].
    rewrite getPortForwardList_insert. destruct (decide _); [|apply Hall].
    by eapply idsUnique_insert.
  - cbn [fst snd]. rewrite getPortForwardList_insert.
    destruct (decide _); [|apply Hall]. by apply idsUnique_remove.
Qed.

(** Every index the package can reach has pairwise different ids in
    each of its lists. *)
Lemma reachable_idsUnique pfs :
  reachable pfs → ∀ cluster, idsUnique (getPortForwardList cluster pfs).
Proof.
  induction 1 as [|p pfs _ IH|cluster id b pfs receiving _ IH].
  - intros cluster. unfold getPortForwardList, idsUnique.
    rewrite lookup_empty. simpl. apply NoDup_nil_2.
  - by apply portforwardstore_idsUnique.
  - by apply stopOrDeletePortForward_idsUnique.
Qed.
End Store.

Section Close.
Implicit Types (l : list PortForward.t) (v u : PortForward.t)
  (pfs : PortForwards) (id cluster : string).

(** A stop whose send is received. *)
Lemma stopOrDeletePortForward_stop cluster id pfs receiving l i v :
  pfs !! cluster = Some l → findByID id l = Some (i, v) →
  receives (PortForward.closeChan v) receiving = true →
  stopOrDeletePortForward cluster id true pfs receiving
  = (Completes None,
     <[cluster := <[i := PortForward.set_Status STOPPED v]> l]> pfs,
     [Send (PortForward.closeChan v)]).
Proof.
  intros Hl Hfind Hrecv. unfold stopOrDeletePortForward.
  rewrite Hl, Hfind. cbn [negb]. cbv zeta.
  cbn [PortForward.set_Status PortForward.closeChan]. by rewrite Hrecv.
Qed.

(** A stop whose send is not received. *)
Lemma stopOrDeletePortForward_blocks cluster id pfs receiving l i v :
  pfs !! cluster = Some l → findByID id l = Some (i, v) →
  receives (PortForward.closeChan v) receiving = false →
  stopOrDeletePortForward cluster id true pfs receiving = (Blocks, pfs, []).
Proof.
  intros Hl Hfind Hrecv. unfold stopOrDeletePortForward.
  rewrite Hl, Hfind. cbn [negb]. cbv zeta.
  cbn [PortForward.set_Status PortForward.closeChan]. by rewrite Hrecv.
Qed.

Lemma stopOrDeletePortForward_delete cluster id pfs receiving l i v :
  pfs !! cluster = Some l → findByID id l = Some (i, v) →
  stopOrDeletePortForward cluster id false pfs receiving
  = (Completes None, <[cluster := take i l ++ drop (S i) l]> pfs, []).
Proof. intros Hl Hfind. unfold stopOrDeletePortForward. by rewrite Hl, Hfind. Qed.

Lemma stopOrDeletePortForward_missing cluster id b pfs receiving :
  (∀ v, v ∈ getPortForwardList cluster pfs → PortForward.ID v ≠ id) →
  stopOrDeletePortForward cluster id b pfs receiving
  = (Completes (Some "PortForward not found"), pfs, []).
Proof.
  intros Hnone. unfold stopOrDeletePortForward, getPortForwardList in *.
  destruct (pfs !! cluster) as [l|]; [|done]. simpl in Hnone.
  apply findByID_None in Hnone. by rewrite Hnone.
Qed.

(** Once a send on a channel has been received, the next one is not. *)
Lemma receives_received c receiving :
  receives c (received c receiving) = false.
Proof.
  destruct c as [n|]; [|done]. cbn [receives received].
  apply bool_decide_eq_false. intros [_ Hn]%elem_of_difference.
  by apply Hn, elem_of_singleton.
Qed.

Lemma getPortForwardByID_insert cluster id l pfs :
  getPortForwardByID cluster id (<[cluster := l]> pfs)
  = match findByID id l with
    | Some (_, v) => v
    | None => PortForward.zero
    end.
Proof. unfold getPortForwardByID. by rewrite lookup_insert_eq. Qed.

(** In a list with unique ids, no entry around [v] carries its id. *)
Lemma idsUnique_middle l1 v l2 u :
  idsUnique (l1 ++ v :: l2) → u ∈ l1 ++ l2 →
  PortForward.ID u ≠ PortForward.ID v.
Proof.
  unfold idsUnique. rewrite fmap_app, fmap_cons.
  intros (_ & Hdisj & [Hv _]%NoDup_cons)%NoDup_app Hu Heq.
  apply elem_of_app in Hu as [Hu|Hu].
  - apply (Hdisj (PortForward.ID u)).
    + apply list_elem_of_fmap. eauto.
    + rewrite Heq. apply list_elem_of_here.
  - apply Hv. rewrite <- Heq. apply list_elem_of_fmap. eauto.
Qed.

Lemma found_in_list cluster pfs v :
  v ∈ getPortForwardList cluster pfs →
  ∃ l, pfs !! cluster = Some l ∧ getPortForwardList cluster pfs = l.
Proof.
  unfold getPortForwardList. destruct (pfs !! cluster) as [l|]; simpl.
  - eauto.
  - intros []%elem_of_nil.
Qed.
End Close.

Section CloseSession.
Implicit Types (l : list PortForward.t) (v u : PortForward.t)
  (pfs : PortForwards) (id cluster : string).

Lemma findByID_insert_same id l i v v' :
  findByID id l = Some (i, v) → PortForward.ID v' = id →
  findByID id (<[i := v']> l) = Some (i, v').
Proof.
  intros (Hi & Hid & Hmin)%findByID_Some Hid'. apply findByID_Some.
  split; [|split; [done|]].
  - apply list_lookup_insert_eq. by eapply lookup_lt_Some.
  - intros j w Hj Hlt. rewrite list_lookup_insert_ne in Hj by lia. eauto.
Qed.

(** C7 (as the code has it). In an index the package can reach, take a
    stored session [v] of [cluster] with id [id].  Closing it with
    [isStopRequest = false] returns no error, sends nothing and removes
    it: no entry of the list has the id any more and
    [getPortForwardByID] returns the zero value.  Closing it with
    [isStopRequest = true] does what is asked only while the forwarder
    of [v] is waiting to receive on its [closeChan]: then the call
    returns no error after one send and leaves the session in the list
    with status Stopped, where [getPortForwardList] and
    [getPortForwardByID] still return it.  There is no guard against a
    second send: the same stop once more never returns, and so does
    every stop of a session whose forwarder is no longer receiving; the
    index is then left as it was, with the Status the session had.  The
    not-found error is returned exactly when no session of [cluster]
    has the id. *)
Theorem stopOrDeletePortForward_close cluster id pfs receiving :
  reachable pfs →
  (∀ v, v ∈ getPortForwardList cluster pfs → PortForward.ID v = id →
     (receives (PortForward.closeChan v) receiving = true →
      ∃ pfs',
        stopOrDeletePortForward cluster id true pfs receiving
          = (Completes None, pfs', [Send (PortForward.closeChan v)])
        ∧ PortForward.set_Status STOPPED v ∈ getPortForwardList cluster pfs'
        ∧ getPortForwardByID cluster id pfs' = PortForward.set_Status STOPPED v
        ∧ PortForward.Status (getPortForwardByID cluster id pfs') = STOPPED
        ∧ length (getPortForwardList cluster pfs')
          = length (getPortForwardList cluster pfs)
        ∧ stopOrDeletePortForward cluster id true pfs'
            (afterSends [Send (PortForward.closeChan v)] receiving)
          = (Blocks, pfs', []))
     ∧ (receives (PortForward.closeChan v) receiving = false →
        stopOrDeletePortForward cluster id true pfs receiving
          = (Blocks, pfs, [])
        ∧ getPortForwardByID cluster id pfs = v)
     ∧ (∃ pfs',
         stopOrDeletePortForward cluster id false pfs receiving
           = (Completes None, pfs', [])
         ∧ (∀ u, u ∈ getPortForwardList cluster pfs' → PortForward.ID u ≠ id)
         ∧ getPortForwardByID cluster id pfs' = PortForward.zero
         ∧ ∀ u, PortForward.ID u ≠ id →
             (u ∈ getPortForwardList cluster pfs'
              ↔ u ∈ getPortForwardList cluster pfs)))
  ∧ (∀ b, (stopOrDeletePortForward cluster id b pfs receiving).1.1
            = Completes (Some "PortForward not found")
          ↔ ¬ ∃ v, v ∈ getPortForwardList cluster pfs ∧ PortForward.ID v = id).
Proof.
  intros Hreach.
  pose proof (reachable_idsUnique pfs Hreach cluster) as Hnd.
  assert (∀ v, v ∈ getPortForwardList cluster pfs → PortForward.ID v = id →
            ∃ l i, pfs !! cluster = Some l
                   ∧ getPortForwardList cluster pfs = l
                   ∧ findByID id l = Some (i, v)) as Hfound.
  { intros v Hv Hid. destruct (found_in_list _ _ _ Hv) as (l & Hl & Hlist).
    rewrite Hlist in Hv, Hnd.
    destruct (findByID_elem_of id l v Hv Hid) as [[i u] Hfind].
    exists l, i. split; [done|]. split; [done|].
    by rewrite (findByID_unique id l i u v Hnd Hfind Hv Hid) in *. }
  split.
  - intros v Hv Hid. destruct (Hfound v Hv Hid) as (l & i & Hl & Hlist & Hfind).
    rewrite Hlist in *.
    pose proof Hfind as (Hi & _ & _)%findByID_Some.
    split; [|split].
    + intros Hrecv.
      eexists. split; [by eapply stopOrDeletePortForward_stop|].
      rewrite getPortForwardList_insert, getPortForwardByID_insert.
      destruct (decide (cluster = cluster)); [|done].
      pose proof (findByID_insert_same id l i v
                    (PortForward.set_Status STOPPED v) Hfind Hid) as Hfind'.
      rewrite Hfind'.
      repeat split; try done.
      * apply list_elem_of_insert. by eapply lookup_lt_Some.
      * apply length_insert.
      * erewrite stopOrDeletePortForward_blocks;
          [done|apply lookup_insert_eq|exact Hfind'|].
        cbn [afterSends foldl PortForward.set_Status PortForward.closeChan].
        apply receives_received.
    + intros Hrecv. split; [by eapply stopOrDeletePortForward_blocks|].
      unfold getPortForwardByID. by rewrite Hl, Hfind.
    + eexists. split; [by eapply stopOrDeletePortForward_delete|].
      rewrite getPortForwardList_insert, getPortForwardByID_insert.
      destruct (decide (cluster = cluster)); [|done].
      assert (∀ u, u ∈ take i l ++ drop (S i) l → PortForward.ID u ≠ id)
        as Hgone.
      { intros u Hu. rewrite <- Hid.
        apply (idsUnique_middle (take i l) v (drop (S i) l)); [|done].
        by rewrite take_drop_middle. }
      split; [done|]. split.
      * apply findByID_None in Hgone. by rewrite Hgone.
      * intros u Hu. rewrite <- (take_drop_middle l i v Hi) at 3.
        rewrite !elem_of_app, elem_of_cons.
        split; [tauto|]. intros [?|[->|?]]; [tauto| |tauto].
        by destruct Hu.
  - intros b. split.
    + intros Herr (v & Hv & Hid).
      destruct (Hfound v Hv Hid) as (l & i & Hl & _ & Hfind).
      destruct b.
      * destruct (receives (PortForward.closeChan v) receiving) eqn:Hrecv.
        -- by rewrite (stopOrDeletePortForward_stop _ _ _ _ _ _ _ Hl Hfind Hrecv)
             in Herr.
        -- by rewrite (stopOrDeletePortForward_blocks _ _ _ _ _ _ _ Hl Hfind Hrecv)
             in Herr.
      * by rewrite (stopOrDeletePortForward_delete _ _ _ _ _ _ _ Hl Hfind)
          in Herr.
    + intros Hnone. rewrite stopOrDeletePortForward_missing; [done|].
      intros v Hv Hid. apply Hnone. eauto.
Qed.
End CloseSession.

(** ** Responses *)

Section Responses.
Implicit Types (w : ResponseWriter.t) (c : HeadlampConfig.t).

Lemma WriteHeader_status w code :
  ResponseWriter.status w = None →
  ResponseWriter.status (ResponseWriter.WriteHeader code w) = Some code.
Proof. intros Hw. unfold ResponseWriter.WriteHeader. by rewrite Hw. Qed.

(** Once the status line is out, nothing changes it. *)
Lemma WriteHeader_superfluous w code code' :
  ResponseWriter.status w = Some code →
  ResponseWriter.status (ResponseWriter.WriteHeader code' w) = Some code.
Proof. intros Hw. unfold ResponseWriter.WriteHeader. by rewrite Hw. Qed.

Lemma Write_status w code ch :
  ResponseWriter.status w = Some code →
  ResponseWriter.status (ResponseWriter.Write ch w) = Some code.
Proof.
  intros Hw. unfold ResponseWriter.Write. simpl.
  by apply WriteHeader_superfluous.
Qed.

Lemma http_Error_status w msg code :
  ResponseWriter.status w = None →
  ResponseWriter.status (http_Error msg code w) = Some code.
Proof.
  intros Hw. unfold http_Error. cbv zeta.
  apply Write_status, WriteHeader_status. done.
Qed.

Lemma http_Error_superfluous w msg code code' :
  ResponseWriter.status w = Some code →
  ResponseWriter.status (http_Error msg code' w) = Some code.
Proof.
  intros Hw. unfold http_Error. cbv zeta.
  apply Write_status, WriteHeader_superfluous. done.
Qed.

Lemma http_Redirect_status w url code :
  ResponseWriter.status w = None →
  ResponseWriter.status (http_Redirect url code w) = Some code.
Proof.
  intros Hw. unfold http_Redirect. cbv zeta.
  destruct (bool_decide _).
  - by apply WriteHeader_status.
  - by apply Write_status, WriteHeader_status.
Qed.

Lemma getConfig_status c w :
  ResponseWriter.status w = None →
  ResponseWriter.status (getConfig c w) = Some StatusOK.
Proof.
  intros Hw. unfold getConfig, ResponseWriter.Write. simpl.
  by apply WriteHeader_status.
Qed.

Lemma getConfig_body c w :
  ResponseWriter.body (getConfig c w)
  = ResponseWriter.body w ++ [ConfigJSON (getClusters c)].
Proof.
  unfold getConfig, ResponseWriter.Write, ResponseWriter.WriteHeader.
  cbn. by destruct (ResponseWriter.status w).
Qed.

Lemma ServeHTTP_status `{NetLib} proxy w r code :
  ResponseWriter.status w = Some code →
  ResponseWriter.status (ServeHTTP proxy w r).1 = Some code.
Proof.
  intros Hw. unfold ServeHTTP. cbv zeta. cbn [fst].
  by apply Write_status, WriteHeader_superfluous.
Qed.
End Responses.

(** ** The cluster registry *)

Section Registry.
Implicit Types (w : ResponseWriter.t) (c : HeadlampConfig.t) (r : Request.t).

Lemma deleteCluster_missing c w r :
  HeadlampConfig.contextProxies c !! muxVar r "name" = None →
  deleteCluster c w r = (c, http_Error "Cluster not found" StatusNotFound w).
Proof. intros Hnone. unfold deleteCluster. by rewrite Hnone. Qed.

Lemma deleteCluster_static c w r cp :
  HeadlampConfig.contextProxies c !! muxVar r "name" = Some cp →
  contextProxy.source cp ≠ DynamicCluster →
  deleteCluster c w r
  = (c, http_Error "Cannot delete a static cluster" StatusForbidden w).
Proof.
  intros Hcp Hsrc. unfold deleteCluster. rewrite Hcp.
  destruct (Z.eqb_spec (contextProxy.source cp) DynamicCluster); done.
Qed.

Lemma deleteCluster_dynamic c w r cp :
  HeadlampConfig.contextProxies c !! muxVar r "name" = Some cp →
  contextProxy.source cp = DynamicCluster →
  let c' :=
    HeadlampConfig.set_contextProxies
      (delete (muxVar r "name") (HeadlampConfig.contextProxies c)) c in
  deleteCluster c w r = (c', getConfig c' w).
Proof.
  intros Hcp Hsrc. unfold deleteCluster. rewrite Hcp, Hsrc.
  by rewrite Z.eqb_refl.
Qed.

(** C5. [deleteCluster] is the handler that [addClusterSetupRoute]
    installs for [DELETE /cluster/{name}] (when the server does not run
    in-cluster).  It answers 404 and changes nothing when
    [name] is not registered; answers 403 and changes nothing when it
    is registered with a source other than [DynamicCluster]; and when
    it is registered as [DynamicCluster] it answers 200 with the
    remaining clusters and takes [name] out of the registry, so that
    the same request made again answers 404. *)
Theorem deleteCluster_responses c w r :
  let name := muxVar r "name" in
  let c' := (deleteCluster c w r).1 in
  let w' := (deleteCluster c w r).2 in
  ResponseWriter.status w = None →
  (HeadlampConfig.contextProxies c !! name = None →
     ResponseWriter.status w' = Some StatusNotFound ∧ c' = c)
  ∧ (∀ cp, HeadlampConfig.contextProxies c !! name = Some cp →
       contextProxy.source cp ≠ DynamicCluster →
       ResponseWriter.status w' = Some StatusForbidden ∧ c' = c)
  ∧ (∀ cp, HeadlampConfig.contextProxies c !! name = Some cp →
       contextProxy.source cp = DynamicCluster →
       ResponseWriter.status w' = Some StatusOK
       ∧ ResponseWriter.body w'
         = ResponseWriter.body w ++ [ConfigJSON (getClusters c')]
       ∧ HeadlampConfig.contextProxies c' !! name = None
       ∧ ∀ w2, ResponseWriter.status w2 = None →
           ResponseWriter.status (deleteCluster c' w2 r).2 = Some StatusNotFound
           ∧ (deleteCluster c' w2 r).1 = c').
Proof.
  intros name c' w' Hw. subst name c' w'. split; [|split].
  - intros Hnone. rewrite (deleteCluster_missing _ _ _ Hnone). cbn [fst snd].
    split; [by apply http_Error_status|done].
  - intros cp Hcp Hsrc. rewrite (deleteCluster_static _ _ _ _ Hcp Hsrc). cbn [fst snd].
    split; [by apply http_Error_status|done].
  - intros cp Hcp Hsrc. rewrite (deleteCluster_dynamic _ _ _ _ Hcp Hsrc). cbn [fst snd].
    split; [by apply getConfig_status|].
    split; [apply getConfig_body|].
    assert (∀ m, HeadlampConfig.contextProxies
              (HeadlampConfig.set_contextProxies m c) = m) as Hset by done.
    split; [by rewrite Hset, lookup_delete_eq|].
    intros w2 Hw2. rewrite deleteCluster_missing.
    + cbn [fst snd]. split; [by apply http_Error_status|done].
    + by rewrite Hset, lookup_delete_eq.
Qed.

(** A cluster that [addCluster] accepts is registered as
    [DynamicCluster], so that [deleteCluster] will remove it. *)
Lemma addCluster_registers_dynamic `{NetLib, KubeLib} c decoded w :
  ResponseWriter.status w = None →
  ResponseWriter.status (addCluster c decoded w).2 = Some StatusCreated →
  ∃ clusterReq cp,
    decoded = Ok clusterReq
    ∧ HeadlampConfig.contextProxies (addCluster c decoded w).1
        !! ClusterReq.Name clusterReq = Some cp
    ∧ contextProxy.source cp = DynamicCluster.
Proof.
  intros Hw. unfold addCluster.
  destruct decoded as [clusterReq|e];
    [|cbn [snd]; by rewrite http_Error_status].
  destruct (_ || _); [cbn [snd]; by rewrite http_Error_status|].
  destruct (createProxyForContext _ _) as [proxy|e];
    [|cbn [snd]; by rewrite http_Error_status].
  intros _. eexists _, _. split; [done|]. cbn [fst].
  split; [apply lookup_insert_eq|done].
Qed.

(** C10. Whatever [deleteCluster] answers, the registry entry of every
    name other than the one in the request is the same before and
    after: same context, same proxy handler, same source.  In
    particular a successful delete of [n] changes the entry of [n]
    only. *)
Theorem deleteCluster_frame c w r other :
  other ≠ muxVar r "name" →
  HeadlampConfig.contextProxies (deleteCluster c w r).1 !! other
  = HeadlampConfig.contextProxies c !! other.
Proof.
  intros Hne. unfold deleteCluster.
  destruct (HeadlampConfig.contextProxies c !! muxVar r "name") as [cp|];
    [|done].
  destruct (negb _); [done|]. simpl. by rewrite lookup_delete_ne.
Qed.
End Registry.

(** ** Relaying *)

Section Relaying.
Context `{NetLib}.
Implicit Types (w : ResponseWriter.t) (c : HeadlampConfig.t) (r : Request.t).

Lemma isURLContainedInProxyURLs_none url proxyURLs :
  (∀ pattern, pattern ∈ proxyURLs → glob_Match pattern url = Some false) →
  isURLContainedInProxyURLs url proxyURLs = Some false.
Proof.
  induction proxyURLs as [|pattern rest IH]; intros Hall; simpl; [done|].
  rewrite (Hall pattern) by apply list_elem_of_here.
  apply IH. intros p Hp. apply Hall. by apply list_elem_of_further.
Qed.

Lemma isURLContainedInProxyURLs_some url proxyURLs :
  isURLContainedInProxyURLs url proxyURLs = Some true →
  ∃ pattern, pattern ∈ proxyURLs ∧ glob_Match pattern url = Some true.
Proof.
  induction proxyURLs as [|pattern rest IH]; simpl; [done|].
  destruct (glob_Match pattern url) as [[]|] eqn:Hm; [| |done].
  - intros _. exists pattern. split; [apply list_elem_of_here|done].
  - intros [p [Hp Hp']]%IH. exists p. split; [|done].
    by apply list_elem_of_further.
Qed.

(** C1. What the [/externalproxy] handler does with a [proxy-to] URL
    that parses and that none of the configured patterns matches: it
    writes the 400 answer and then, there being no [return] after
    [http.Error], goes on to relay the request to that URL through a
    fresh reverse proxy.  The response keeps status 400 and carries
    the upstream body after the error text. *)
Theorem externalproxyHandler_relays_unmatched config w r url :
  ResponseWriter.status w = None →
  url_Parse (Header_Get (Request.Header r) "Proxy-To") = Some url →
  (∀ pattern, pattern ∈ HeadlampConfig.proxyURLs config →
     glob_Match pattern (url_String url) = Some false) →
  ∃ w' r',
    externalproxyHandler config w r
      = Returns (w', [Relay (NewSingleHostReverseProxy url) r'])
    ∧ ResponseWriter.status w' = Some StatusBadRequest
    ∧ Request.Host r' = URL.Host url
    ∧ URL.Host (Request.URL r') = URL.Host url
    ∧ URL.Scheme (Request.URL r') = URL.Scheme url
    ∧ Request.Header r' = Request.Header r.
Proof.
  intros Hw Hurl Hnone. unfold externalproxyHandler.
  rewrite Hurl, (isURLContainedInProxyURLs_none _ _ Hnone).
  cbn [negb]. unfold ServeHTTP. cbv zeta.
  eexists _, _. split; [reflexivity|].
  split; [|done].
  apply Write_status, WriteHeader_superfluous.
  by apply http_Error_status.
Qed.

(** The request is relayed on the matching path too, with no error
    written before. *)
Lemma externalproxyHandler_relays_matched config w r url :
  url_Parse (Header_Get (Request.Header r) "Proxy-To") = Some url →
  isURLContainedInProxyURLs (url_String url) (HeadlampConfig.proxyURLs config)
    = Some true →
  ∃ r',
    externalproxyHandler config w r
      = Returns (ServeHTTP (NewSingleHostReverseProxy url) w r').
Proof.
  intros Hurl Hsome. unfold externalproxyHandler. rewrite Hurl, Hsome.
  cbn [negb]. eauto.
Qed.

(** *** Requests to a cluster *)

Lemma Header_Add_lookup key value (h : http_Header) :
  Header_Add key value h !! key = Some (default [] (h !! key) ++ [value]).
Proof. unfold Header_Add. apply lookup_insert_eq. Qed.

Lemma Header_Set_lookup_ne key key' value (h : http_Header) :
  key ≠ key' → Header_Set key value h !! key' = h !! key'.
Proof. intros Hne. unfold Header_Set. by apply lookup_insert_ne. Qed.

Lemma Header_Add_Get_absent key value (h : http_Header) :
  h !! key = None → Header_Get (Header_Add key value h) key = value.
Proof.
  intros Hnone. unfold Header_Get. by rewrite Header_Add_lookup, Hnone.
Qed.

Lemma proxyHandler_relays url proxy changed w r :
  ∃ w' r',
    proxyHandler url (Some proxy) changed w r = Returns (w', [Relay proxy r'])
    ∧ Request.Header r' !! "Authorization" = Request.Header r !! "Authorization"
    ∧ Request.Host r' = URL.Host url.
Proof.
  unfold proxyHandler, ServeHTTP. cbv zeta.
  eexists _, _. split; [reflexivity|]. split; [|done].
  cbn. by apply Header_Set_lookup_ne.
Qed.

(** C8. The handler of [/clusters/{clusterName}/{api...}].  When the
    cluster is not registered the answer is 404 and nothing is
    relayed.  When it is registered (its server URL parses and its
    proxy exists, so that the request is relayed): a request without
    an Authorization value, to a cluster whose auth info has a
    non-empty token, is relayed with [Bearer <token>] added under
    Authorization, which is then the value of the header when there
    was none; a request that has an Authorization value is relayed
    with that header as it came. *)
Theorem clusterRequestHandler_authorization c changed w r :
  let name := muxVar r "clusterName" in
  let auth := Header_Get (Request.Header r) "Authorization" in
  ResponseWriter.status w = None →
  (HeadlampConfig.contextProxies c !! name = None →
     ∃ w', clusterRequestHandler c changed w r = Returns (w', [])
           ∧ ResponseWriter.status w' = Some StatusNotFound)
  ∧ (∀ cp server proxy,
       HeadlampConfig.contextProxies c !! name = Some cp →
       url_Parse (getServer (Context.cluster (contextProxy.context cp)))
         = Some server →
       contextProxy.proxy cp = Some proxy →
       (∀ authInfo,
          auth = "" →
          Context.authInfo (contextProxy.context cp) = Some authInfo →
          AuthInfo.Token authInfo ≠ "" →
          ∃ w' r',
            clusterRequestHandler c changed w r
              = Returns (w', [Relay proxy r'])
            ∧ Request.Header r' !! "Authorization"
              = Some (default [] (Request.Header r !! "Authorization")
                        ++ ["Bearer " +:+ AuthInfo.Token authInfo])
            ∧ (Request.Header r !! "Authorization" = None →
               Header_Get (Request.Header r') "Authorization"
               = "Bearer " +:+ AuthInfo.Token authInfo))
       ∧ (auth ≠ "" →
          ∃ w' r',
            clusterRequestHandler c changed w r
              = Returns (w', [Relay proxy r'])
            ∧ Request.Header r' !! "Authorization"
              = Request.Header r !! "Authorization"
            ∧ Header_Get (Request.Header r') "Authorization" = auth)).
Proof.
  intros name auth Hw. subst name auth. split.
  - intros Hnone. unfold clusterRequestHandler. rewrite Hnone.
    eexists. split; [reflexivity|]. by apply http_Error_status.
  - intros cp server proxy Hcp Hserver Hproxy. split.
    + intros authInfo Hauth HauthInfo Htoken.
      unfold clusterRequestHandler.
      rewrite Hcp, Hserver, Hauth, HauthInfo, Hproxy. cbn [String.eqb].
      destruct (String.eqb_spec (AuthInfo.Token authInfo) ""); [done|].
      cbn [negb].
      edestruct proxyHandler_relays as (w' & r' & -> & Hhdr & _).
      exists w', r'. split; [done|]. rewrite Hhdr. cbn [Request.set_Header Request.Header].
      split; [apply Header_Add_lookup|].
      intros Hnone. unfold Header_Get at 1. rewrite Hhdr.
      cbn [Request.set_Header Request.Header].
      by rewrite Header_Add_lookup, Hnone.
    + intros Hauth. unfold clusterRequestHandler.
      rewrite Hcp, Hserver, Hproxy.
      destruct (String.eqb_spec (Header_Get (Request.Header r) "Authorization") "");
        [done|].
      edestruct proxyHandler_relays as (w' & r' & -> & Hhdr & _).
      exists w', r'. split; [done|]. split; [done|].
      unfold Header_Get. by rewrite Hhdr.
Qed.
End Relaying.

(** ** The proxy factory *)

Section Factory.
Context `{NetLib, KubeLib}.

Lemma result_bind_Ok {A B} (f : A → result B) (m : result A) (b : B) :
  m ≫= f = Ok b → ∃ a, m = Ok a ∧ f a = Ok b.
Proof. destruct m as [a|e]; [eauto|done]. Qed.

(** C2. Whenever [createProxyForContext] returns a proxy, the TLS
    client configuration of that proxy has [InsecureSkipVerify] equal
    to the code's own [shouldVerifyTLS], that is, true exactly when
    global insecure mode is off or the cluster asks for verification:
    the flag that turns certificate verification off is set in the
    very cases in which the CA bundle is loaded for verification, and
    cleared only when both insecure mode and the cluster's skip flag
    are on. *)
Theorem createProxyForContext_InsecureSkipVerify c context proxy :
  createProxyForContext c context = Ok proxy →
  ∃ tls,
    tlsConfigOf proxy = Some tls
    ∧ TLSConfig.InsecureSkipVerify tls
      = negb (HeadlampConfig.insecure c) || shouldVerifyTLS (getCluster context)
    ∧ (TLSConfig.InsecureSkipVerify tls = true →
       ∃ certificate,
         getCAData (getCluster context) = Ok certificate
         ∧ TLSConfig.RootCAs tls = AppendCertsFromPEM certificate [])
    ∧ (TLSConfig.InsecureSkipVerify tls = false → TLSConfig.RootCAs tls = []).
Proof.
  unfold createProxyForContext.
  destruct (url_Parse _) as [server|]; [|done]. cbv zeta.
  intros (rootCAs & HrootCAs & Hrest)%result_bind_Ok.
  apply result_bind_Ok in Hrest as (certs1 & _ & Hrest).
  apply result_bind_Ok in Hrest as (certs2 & _ & Hrest).
  injection Hrest as <-. eexists. split; [reflexivity|].
  cbn [TLSConfig.InsecureSkipVerify TLSConfig.RootCAs].
  split; [done|].
  destruct (negb (HeadlampConfig.insecure c) || shouldVerifyTLS (getCluster context)).
  - apply result_bind_Ok in HrootCAs as (certificate & Hca & Hpool).
    injection Hpool as <-. split; [eauto|done].
  - injection HrootCAs as <-. split; [done|done].
Qed.
End Factory.

(** ** The bearer token of [POST /portforward] *)

Section Token.
Implicit Types (s sep cur : string).

Lemma occursIn_prefix sep c s :
  occursIn sep (String c s) = false →
  String.prefix sep (String c s) = false ∧ occursIn sep s = false.
Proof. cbn [occursIn]. by intros [? ?]%orb_false_elim. Qed.

Lemma append_empty_r s : s +:+ "" = s.
Proof.
  induction s as [|c s IH]; [done|].
  change (String c (s +:+ "") = String c s). by rewrite IH.
Qed.

Lemma append_snoc cur c s : (cur +:+ String c "") +:+ s = cur +:+ String c s.
Proof.
  induction cur as [|a cur IH]; [done|].
  change (String a ((cur +:+ String c "") +:+ s) = String a (cur +:+ String c s)).
  by rewrite IH.
Qed.

(** Where the separator does not occur, nothing is cut. *)
Lemma splitFrom_no_occurrence sep s cur :
  occursIn sep s = false → splitFrom sep 0 cur s = [cur +:+ s].
Proof.
  revert cur. induction s as [|c s IH]; intros cur Hocc.
  - cbn [splitFrom]. by rewrite append_empty_r.
  - apply occursIn_prefix in Hocc as [Hpre Hocc].
    cbn [splitFrom]. rewrite Hpre, IH by done. by rewrite append_snoc.
Qed.

Lemma splitFrom_nonempty sep skip cur s : splitFrom sep skip cur s ≠ [].
Proof.
  revert skip cur. induction s as [|c s IH]; intros skip cur; [done|].
  cbn [splitFrom]. destruct skip; [|apply IH].
  destruct (String.prefix sep (String c s)); [done|apply IH].
Qed.

(** Where it does occur, there are at least two pieces. *)
Lemma splitFrom_occurrence sep s cur :
  occursIn sep s = true → sep ≠ "" → 2 ≤ length (splitFrom sep 0 cur s).
Proof.
  intros Hocc Hsep. revert cur Hocc.
  induction s as [|c s IH]; intros cur Hocc.
  - cbn in Hocc. destruct sep; done.
  - cbn [occursIn] in Hocc. cbn [splitFrom].
    destruct (String.prefix sep (String c s)) eqn:Hpre.
    + pose proof (splitFrom_nonempty sep (String.length sep - 1) "" s) as Hne.
      destruct (splitFrom _ _ _ s); [done|]. cbn. lia.
    + apply IH. by rewrite orb_false_l in Hocc.
Qed.

(** Exactly the non-empty header values without ["Bearer "] make the
    extraction panic. *)
Lemma bearerToken_Panics_iff s :
  bearerToken s = Panics ↔ s ≠ "" ∧ occursIn "Bearer " s = false.
Proof.
  unfold bearerToken, strings_Split. split.
  - destruct (String.eqb_spec s "") as [->|Hne]; [done|].
    cbn [negb orb]. destruct (occursIn "Bearer " s) eqn:Hocc.
    + pose proof (splitFrom_occurrence "Bearer " s "" Hocc ltac:(done)) as Hlen.
      destruct (splitFrom "Bearer " 0 "" s) as [|a [|b l]]; cbn in *;
        [lia|lia|done].
    + done.
  - intros [Hne Hocc]. rewrite splitFrom_no_occurrence by done.
    destruct (String.eqb_spec s ""); done.
Qed.

(** C9. The token extraction of [POST /portforward] is not total: for
    a request whose body decodes and whose Authorization value is not
    empty and does not contain ["Bearer "], [strings.Split] gives one
    piece and reading [splitToken[1]] panics. *)
Theorem portforwardPostHandler_panics p freshID r w :
  let reqToken := Header_Get (Request.Header r) "Authorization" in
  reqToken ≠ "" → occursIn "Bearer " reqToken = false →
  length (strings_Split reqToken "Bearer ") = 1
  ∧ portforwardPostHandler (Ok p) freshID r w = Panics.
Proof.
  intros reqToken Hne Hocc. split.
  - unfold strings_Split. by rewrite splitFrom_no_occurrence.
  - unfold portforwardPostHandler. fold reqToken.
    by rewrite (proj2 (bearerToken_Panics_iff reqToken)).
Qed.

(** The handler panics nowhere else before validation. *)
Lemma portforwardPostHandler_Panics_iff decoded freshID r w :
  portforwardPostHandler decoded freshID r w = Panics
  ↔ (∃ p, decoded = Ok p)
    ∧ bearerToken (Header_Get (Request.Header r) "Authorization") = Panics.
Proof.
  unfold portforwardPostHandler. destruct decoded as [p|e].
  - destruct (bearerToken _) as [token| |].
    + split; [|by intros [_ ?]]. by destruct (validatePortForward _).
    + split; eauto.
    + split; [done|by intros [_ ?]].
  - split; [done|]. by intros [[p ?] _].
Qed.
End Token.

(** ** The pod watchdog *)

Section WatchdogProperties.
Implicit Types (pf p : PortForward.t) (pfs : PortForwards)
  (ticks before after : list podLookup).

(** What was just stored is what a lookup by its cluster and id gives. *)
Lemma getPortForwardByID_portforwardstore p pfs :
  getPortForwardByID (PortForward.Cluster p) (PortForward.ID p)
    (portforwardstore p pfs) = p.
Proof.
  unfold portforwardstore.
  destruct (findByID _ _) as [[i u]|] eqn:Hfind;
    rewrite getPortForwardByID_insert.
  - by rewrite (findByID_insert_same _ _ _ _ p Hfind).
  - rewrite findByID_None in Hfind.
    set (l := default [] (pfs !! PortForward.Cluster p)) in *.
    assert (findByID (PortForward.ID p) (l ++ [p]) = Some (length l, p))
      as ->; [|done].
    apply findByID_Some. split; [|split; [done|]].
    + by rewrite lookup_app_r, Nat.sub_diag.
    + intros j u Hj Hlt. rewrite lookup_app_l in Hj by done.
      apply Hfind, list_elem_of_lookup. eauto.
Qed.

(** Ticks that keep the loop waiting change nothing. *)
Lemma watchdog_waits pf stopChan before ticks pfs receiving :
  Forall (λ tick, keepsTicking tick = true) before →
  let r := watchdog pf stopChan ticks pfs receiving in
  watchdog pf stopChan (before ++ ticks) pfs receiving
  = Watchdog.mk (Watchdog.index r) (Watchdog.effects r)
      (length before + Watchdog.handled r) (Watchdog.stopped r)
      (Watchdog.blocked r).
Proof.
  intros Hall. induction Hall as [|tick before Htick _ IH]; cbn zeta in *.
  - cbn [app length Nat.add].
    by destruct (watchdog pf stopChan ticks pfs receiving).
  - cbn [app watchdog length]. rewrite IH.
    destruct tick as [|msg|phase]; cbn in Htick; [done|done|].
    by rewrite Htick.
Qed.


(** The record [startPortForward] builds is Running and stays so in
    the index when the watchdog gives up. *)
Lemma watchdog_leaves_Running payload stopChan phase pfs receiving :
  phase ≠ PodRunning →
  receives stopChan receiving = true →
  let pf := portForwardToStore payload stopChan in
  PortForward.Status
    (getPortForwardByID (PortForward.Cluster pf) (PortForward.ID pf)
       (Watchdog.index (watchdog pf stopChan [PodPhase phase] pfs receiving)))
  = RUNNING.
Proof.
  intros Hphase Hrecv pf. cbn [watchdog].
  destruct (String.eqb_spec phase PodRunning) as [|_]; [done|].
  cbn [negb]. rewrite Hrecv. cbn [Watchdog.index].
  pose proof (getPortForwardByID_portforwardstore
                (PortForward.set_Error "Pod is not running" pf) pfs) as Hget.
  cbn [PortForward.set_Error PortForward.Cluster PortForward.ID] in Hget.
  by rewrite Hget.
Qed.
End WatchdogProperties.

(** ** The OIDC flow *)

Section Oidc.
Context `{OidcLib}.
Implicit Types (config : HeadlampConfig.t) (m : OauthRequestMap)
  (w : ResponseWriter.t) (r : Request.t).

(** The callback handler has no statement that writes to
    [oauthRequestMap]. *)
Lemma oidcCallbackHandler_map config m w r :
  (oidcCallbackHandler config m w r).1 = m.
Proof.
  unfold oidcCallbackHandler.
  destruct (Base64.DecodeString _) as [decodedState err].
  destruct (String.eqb _ ""); [done|].
  destruct (m !! _) as [oauthConfig|]; [|done].
  destruct (Exchange _ _) as [oauth2Token|e]; [|done].
  destruct (OAuth2Token.id_token _) as [rawIDToken|]; [|done].
  destruct (Verify _ _) as [idToken|e]; [|done].
  by destruct (Claims _).
Qed.

(** A redirect issued by [/oidc] leaves an entry under the base64 of
    the cluster name. *)
Lemma oidcHandler_records_state config m w r :
  ResponseWriter.status w = None →
  ResponseWriter.status (oidcHandler config m w r).2 = Some StatusFound →
  is_Some ((oidcHandler config m w r).1
             !! Base64.EncodeToString (Request.QueryGet r "cluster")).
Proof.
  intros Hw. unfold oidcHandler.
  destruct (GetClusterOidcConfig _) as [oidcAuthConfig|e].
  - destruct (NewProvider _ _) as [provider|e]; cbn [fst snd].
    + intros _. rewrite lookup_insert_eq. eauto.
    + by rewrite http_Error_status.
  - cbn [fst snd]. by rewrite http_Error_status.
Qed.

(** C3 (as the code has it). A call of the [/oidc-callback] handler
    leaves the pending-flow map as it was, whatever it answers.  So the
    entry that a redirect of [/oidc] recorded under its state token is
    still there after a callback, successful or not, and a second
    callback with the same state is handled exactly as it would have
    been on the first map.  A callback whose state is not in the map is
    answered 400 and changes nothing. *)
Theorem oidcCallbackHandler_keeps_flows config m w r :
  let state := Request.QueryGet r "state" in
  let after := (oidcCallbackHandler config m w r).1 in
  ResponseWriter.status w = None →
  after = m
  ∧ after !! state = m !! state
  ∧ (∀ m0 w0 r0,
       ResponseWriter.status w0 = None →
       m = (oidcHandler config m0 w0 r0).1 →
       ResponseWriter.status (oidcHandler config m0 w0 r0).2 = Some StatusFound →
       is_Some (after !! Base64.EncodeToString (Request.QueryGet r0 "cluster")))
  ∧ (∀ w2, oidcCallbackHandler config after w2 r
           = oidcCallbackHandler config m w2 r)
  ∧ (m !! state = None →
     ResponseWriter.status (oidcCallbackHandler config m w r).2
     = Some StatusBadRequest).
Proof.
  intros state after Hw. subst state after.
  rewrite oidcCallbackHandler_map.
  split; [done|]. split; [done|]. split; [|split; [done|]].
  - intros m0 w0 r0 Hw0 -> Hfound. by apply oidcHandler_records_state.
  - intros Hnone. unfold oidcCallbackHandler.
    destruct (Base64.DecodeString _) as [decodedState err].
    rewrite Hnone.
    destruct err, (String.eqb _ ""); cbn [snd];
      first [ by apply http_Error_superfluous, http_Error_status
            | by apply http_Error_status ].
Qed.
End Oidc.

(** ** The properties on concrete runs *)

Section Runs.
Import Sample.

Lemma index2_reachable : reachable index2.
Proof. unfold index2. repeat apply reach_store. apply reach_init. Qed.

(** Re-opening session [b] of [c1] overwrites its entry and keeps two
    sessions in the list; a session with a new id is appended. *)
Lemma portforwardstore_upsert_witness :
  idsUnique (getPortForwardList "c1" index2)
  ∧ session "c1" "b" 1 RUNNING ∈ getPortForwardList "c1" index2
  ∧ getPortForwardList "c1" (portforwardstore (session "c1" "b" 7 RUNNING) index2)
    = [session "c1" "a" 0 RUNNING; session "c1" "b" 7 RUNNING]
  ∧ length (getPortForwardList "c1"
              (portforwardstore (session "c1" "b" 7 RUNNING) index2))
    = length (getPortForwardList "c1" index2)
  ∧ getPortForwardList "c1" (portforwardstore (session "c1" "d" 8 RUNNING) index2)
    = getPortForwardList "c1" index2 ++ [session "c1" "d" 8 RUNNING]
  ∧ idsUnique
      (getPortForwardList "c1"
         (portforwardstore (session "c1" "b" 7 RUNNING) index2)).
Proof.
  assert (idsUnique (getPortForwardList "c1" index2)) as Hnd.
  { unfold idsUnique. by apply (bool_decide_unpack _); vm_compute. }
  assert (session "c1" "b" 1 RUNNING ∈ getPortForwardList "c1" index2) as Hin.
  { change (session "c1" "b" 1 RUNNING
            ∈ [session "c1" "a" 0 RUNNING; session "c1" "b" 1 RUNNING]).
    apply list_elem_of_further, list_elem_of_here. }
  destruct (portforwardstore_upsert (session "c1" "b" 7 RUNNING) index2 Hnd)
    as (Hreplace & _ & Hunique).
  destruct (portforwardstore_upsert (session "c1" "d" 8 RUNNING) index2 Hnd)
    as (_ & Happend & _).
  destruct Hreplace as (i & v & _ & _ & _ & _ & Hlen).
  { exists (session "c1" "b" 1 RUNNING). split; [exact Hin|reflexivity]. }
  split; [exact Hnd|]. split; [exact Hin|]. split; [reflexivity|].
  split; [exact Hlen|]. split; [|exact Hunique].
  apply Happend. intros u Hu.
  change (u ∈ [session "c1" "a" 0 RUNNING; session "c1" "b" 1 RUNNING]) in Hu.
  apply elem_of_cons in Hu as [->|Hu]; [discriminate|].
  apply elem_of_cons in Hu as [->|Hu]; [discriminate|].
  by apply elem_of_nil in Hu.
Defined.

(** With both forwarders receiving, stopping session [b] keeps it,
    Stopped; the same stop once more never returns.  Deleting [b]
    leaves [a] alone; an unknown id gives the not-found error. *)
Lemma stopOrDeletePortForward_close_witness :
  reachable index2
  ∧ receives (Some 1) bothReceiving = true
  ∧ stopOrDeletePortForward "c1" "b" true index2 bothReceiving
    = (Completes None, onceStopped, [Send (Some 1)])
  ∧ getPortForwardByID "c1" "b" onceStopped = session "c1" "b" 1 STOPPED
  ∧ stopOrDeletePortForward "c1" "b" true onceStopped
      (afterSends [Send (Some 1)] bothReceiving)
    = (Blocks, onceStopped, [])
  ∧ getPortForwardList "c1"
      (stopOrDeletePortForward "c1" "b" false index2 bothReceiving).1.2
    = [session "c1" "a" 0 RUNNING]
  ∧ getPortForwardByID "c1" "b"
      (stopOrDeletePortForward "c1" "b" false index2 bothReceiving).1.2
    = PortForward.zero
  ∧ (stopOrDeletePortForward "c1" "zz" true index2 bothReceiving).1.1
    = Completes (Some "PortForward not found").
Proof.
  pose proof (stopOrDeletePortForward_close "c1" "b" index2 bothReceiving
                index2_reachable) as [Hclose _].
  pose proof (stopOrDeletePortForward_close "c1" "zz" index2 bothReceiving
                index2_reachable) as [_ Hmissing].
  assert (session "c1" "b" 1 RUNNING ∈ getPortForwardList "c1" index2) as Hin.
  { change (session "c1" "b" 1 RUNNING
            ∈ [session "c1" "a" 0 RUNNING; session "c1" "b" 1 RUNNING]).
    apply list_elem_of_further, list_elem_of_here. }
  assert (receives (Some 1) bothReceiving = true) as Hrecv
    by (vm_compute; reflexivity).
  destruct (Hclose _ Hin eq_refl)
    as (Hstop & _ & (deleted & Hdel & _ & Hzero & _)).
  destruct (Hstop Hrecv) as (stopped & Hstopped & _ & Hget & _ & _ & Hagain).
  assert (stopped = onceStopped) as ->.
  { unfold onceStopped. by rewrite Hstopped. }
  split; [exact index2_reachable|]. split; [exact Hrecv|].
  split; [exact Hstopped|]. split; [exact Hget|]. split; [exact Hagain|].
  split; [vm_compute; reflexivity|].
  split; [rewrite Hdel; exact Hzero|].
  apply Hmissing. intros (v & Hv & Hid).
  change (v ∈ [session "c1" "a" 0 RUNNING; session "c1" "b" 1 RUNNING]) in Hv.
  apply elem_of_cons in Hv as [->|Hv]; [discriminate|].
  apply elem_of_cons in Hv as [->|Hv]; [discriminate|].
  by apply elem_of_nil in Hv.
Defined.

(** Deleting the cluster added at run time answers 200 and then 404;
    the kubeconfig cluster is refused with 403; an unknown one is 404. *)
Lemma deleteCluster_responses_witness :
  ResponseWriter.status ResponseWriter.new = None
  ∧ ResponseWriter.status
      (deleteCluster (config [] registry) ResponseWriter.new
         (request [] [("name", "dyn")] [])).2 = Some StatusOK
  ∧ HeadlampConfig.contextProxies
      (deleteCluster (config [] registry) ResponseWriter.new
         (request [] [("name", "dyn")] [])).1 !! "dyn" = None
  ∧ ResponseWriter.status
      (deleteCluster
         (deleteCluster (config [] registry) ResponseWriter.new
            (request [] [("name", "dyn")] [])).1
         ResponseWriter.new (request [] [("name", "dyn")] [])).2
    = Some StatusNotFound
  ∧ ResponseWriter.status
      (deleteCluster (config [] registry) ResponseWriter.new
         (request [] [("name", "c1")] [])).2 = Some StatusForbidden
  ∧ ResponseWriter.status
      (deleteCluster (config [] registry) ResponseWriter.new
         (request [] [("name", "nope")] [])).2 = Some StatusNotFound.
Proof.
  pose proof (deleteCluster_responses (config [] registry) ResponseWriter.new
                (request [] [("name", "dyn")] []) eq_refl) as (_ & _ & Hdyn).
  pose proof (deleteCluster_responses (config [] registry) ResponseWriter.new
                (request [] [("name", "c1")] []) eq_refl) as (_ & Hstatic & _).
  pose proof (deleteCluster_responses (config [] registry) ResponseWriter.new
                (request [] [("name", "nope")] []) eq_refl) as (Hnone & _ & _).
  destruct (Hdyn _ eq_refl eq_refl) as (Hok & _ & Hgone & Hagain).
  destruct (Hagain ResponseWriter.new eq_refl) as [H404 _].
  destruct (Hstatic _ eq_refl ltac:(discriminate)) as [H403 _].
  destruct (Hnone eq_refl) as [Hnope _].
  repeat split; assumption.
Defined.

(** Deleting [dyn] leaves the entry of [c1] as it was. *)
Lemma deleteCluster_frame_witness :
  "c1" ≠ muxVar (request [] [("name", "dyn")] []) "name"
  ∧ HeadlampConfig.contextProxies
      (deleteCluster (config [] registry) ResponseWriter.new
         (request [] [("name", "dyn")] [])).1 !! "c1"
    = HeadlampConfig.contextProxies (config [] registry) !! "c1".
Proof.
  assert ("c1" ≠ muxVar (request [] [("name", "dyn")] []) "name") as Hne
    by discriminate.
  split; [exact Hne|].
  exact (deleteCluster_frame (config [] registry) ResponseWriter.new
           (request [] [("name", "dyn")] []) "c1" Hne).
Defined.

(** The allow-list holds one pattern and the URL is outside it: the
    answer is 400 and the request is relayed all the same. *)
Lemma externalproxyHandler_relays_unmatched_witness :
  ResponseWriter.status ResponseWriter.new = None
  ∧ url_Parse (Header_Get (Request.Header evilRequest) "Proxy-To") = Some evilURL
  ∧ isURLContainedInProxyURLs (url_String evilURL)
      (HeadlampConfig.proxyURLs allowConfig) = Some false
  ∧ ResponseWriter.status
      <$> written (externalproxyHandler allowConfig ResponseWriter.new evilRequest)
    = Some (Some StatusBadRequest)
  ∧ Request.Host
      <$> relayedRequests
            (externalproxyHandler allowConfig ResponseWriter.new evilRequest)
    = ["evil.example"].
Proof.
  assert (∀ pattern, pattern ∈ HeadlampConfig.proxyURLs allowConfig →
            glob_Match pattern (url_String evilURL) = Some false) as Hnone.
  { intros pattern Hp. change (pattern ∈ ["https://artifacthub.io/*"]) in Hp.
    apply list_elem_of_singleton in Hp as ->. reflexivity. }
  destruct (@externalproxyHandler_relays_unmatched net allowConfig ResponseWriter.new
              evilRequest evilURL eq_refl eq_refl Hnone)
    as (w' & r' & Heq & Hstatus & Hhost & _).
  split; [reflexivity|]. split; [reflexivity|]. split; [reflexivity|].
  rewrite Heq. cbn [written relayedRequests omap fmap option_fmap option_map
                    list_fmap list_omap].
  rewrite Hstatus, Hhost. split; reflexivity.
Defined.

(** Insecure mode off, skip flag off: the factory returns a proxy whose
    TLS configuration has [InsecureSkipVerify] set. *)
Lemma createProxyForContext_InsecureSkipVerify_witness :
  createProxyForContext (config [] ∅)
    (target "c1" "https://k8s.example" "" false) = Ok verifyingProxy
  ∧ HeadlampConfig.insecure (config [] ∅) = false
  ∧ shouldVerifyTLS (getCluster (target "c1" "https://k8s.example" "" false))
    = true
  ∧ TLSConfig.InsecureSkipVerify <$> tlsConfigOf verifyingProxy = Some true.
Proof.
  destruct (@createProxyForContext_InsecureSkipVerify net kube (config [] ∅)
              (target "c1" "https://k8s.example" "" false) verifyingProxy eq_refl)
    as (tls & Htls & Hflag & _).
  split; [reflexivity|]. split; [reflexivity|]. split; [reflexivity|].
  rewrite Htls. cbn [fmap option_fmap option_map]. rewrite Hflag. reflexivity.
Defined.

(** A request without Authorization is relayed with the token of [c1];
    one with Authorization keeps its own; an unknown cluster is a 404. *)
Lemma clusterRequestHandler_authorization_witness :
  ResponseWriter.status ResponseWriter.new = None
  ∧ (λ r, Header_Get (Request.Header r) "Authorization")
      <$> relayedRequests
            (clusterRequestHandler (config [] registry) false
               ResponseWriter.new podsRequest)
    = ["Bearer tok"]
  ∧ (λ r, Header_Get (Request.Header r) "Authorization")
      <$> relayedRequests
            (clusterRequestHandler (config [] registry) false
               ResponseWriter.new podsRequestAuth)
    = ["Bearer mine"]
  ∧ ResponseWriter.status
      <$> written (clusterRequestHandler (config [] ∅) false
                     ResponseWriter.new podsRequest)
    = Some (Some StatusNotFound).
Proof.
  pose proof (@clusterRequestHandler_authorization net (config [] registry) false
                ResponseWriter.new podsRequest eq_refl) as [_ Hreg].
  pose proof (@clusterRequestHandler_authorization net (config [] registry) false
                ResponseWriter.new podsRequestAuth eq_refl) as [_ HregAuth].
  pose proof (@clusterRequestHandler_authorization net (config [] ∅) false
                ResponseWriter.new podsRequest eq_refl) as [Hmissing _].
  destruct (Hreg _ _ _ eq_refl eq_refl eq_refl) as [Hinject _].
  destruct (Hinject _ eq_refl eq_refl ltac:(discriminate))
    as (w1 & r1 & Heq1 & _ & Hget1).
  destruct (HregAuth _ _ _ eq_refl eq_refl eq_refl) as [_ Hkeep].
  destruct (Hkeep ltac:(discriminate)) as (w2 & r2 & Heq2 & _ & Hget2).
  destruct (Hmissing eq_refl) as (w3 & Heq3 & Hstatus3).
  split; [reflexivity|].
  rewrite Heq1, Heq2, Heq3.
  cbn [written relayedRequests omap fmap option_fmap option_map list_fmap
       list_omap].
  rewrite (Hget1 eq_refl), Hget2, Hstatus3. repeat split.
Defined.

(** A Basic credential makes the handler panic. *)
Lemma portforwardPostHandler_panics_witness :
  Header_Get (Request.Header basicRequest) "Authorization" = "Basic abc"
  ∧ "Basic abc" ≠ ""
  ∧ occursIn "Bearer " "Basic abc" = false
  ∧ strings_Split "Basic abc" "Bearer " = ["Basic abc"]
  ∧ portforwardPostHandler (Ok payload) "fresh" basicRequest ResponseWriter.new
    = Panics.
Proof.
  destruct (portforwardPostHandler_panics payload "fresh" basicRequest
              ResponseWriter.new ltac:(discriminate) eq_refl) as [_ Hpanics].
  split; [reflexivity|]. split; [discriminate|]. split; [reflexivity|].
  split; [reflexivity|exact Hpanics].
Defined.



(** [GET /oidc?cluster=c1] issues state [YzE=]; the callback succeeds
    and the entry is still there; the same callback succeeds again
    instead of being answered 400. *)
Lemma oidc_callback_state_reusable :
  Base64.EncodeToString "c1" = "YzE="
  ∧ pending !! "YzE=" ≠ None
  ∧ ResponseWriter.status firstCallback.2 = Some StatusSeeOther
  ∧ firstCallback.1 !! "YzE=" ≠ None
  ∧ ResponseWriter.status secondCallback.2 = Some StatusSeeOther
  ∧ ResponseWriter.status secondCallback.2 ≠ Some StatusBadRequest.
Proof. repeat split; try reflexivity; discriminate. Qed.

(** The callback leaves the pending flow of [c1] where it is; a
    callback for a state that is not pending is answered 400. *)
Lemma oidcCallbackHandler_keeps_flows_witness :
  ResponseWriter.status ResponseWriter.new = None
  ∧ firstCallback.1 = pending
  ∧ firstCallback.1 !! "YzE=" = pending !! "YzE="
  ∧ is_Some (firstCallback.1 !! "YzE=")
  ∧ (∅ : OauthRequestMap) !! Request.QueryGet callback "state" = None
  ∧ ResponseWriter.status
      (oidcCallbackHandler (config [] ∅) ∅ ResponseWriter.new callback).2
    = Some StatusBadRequest.
Proof.
  pose proof (@oidcCallbackHandler_keeps_flows oidc (config [] ∅) pending
                ResponseWriter.new callback eq_refl)
    as (Hsame & Hentry & Hissued & _ & _).
  pose proof (@oidcCallbackHandler_keeps_flows oidc (config [] ∅) ∅
                ResponseWriter.new callback eq_refl) as (_ & _ & _ & _ & Hunknown).
  split; [reflexivity|]. split; [exact Hsame|]. split; [exact Hentry|].
  split; [exact (Hissued ∅ ResponseWriter.new
                   (request [] [] [("cluster", ["c1"])]) eq_refl eq_refl eq_refl)|].
  split; [reflexivity|]. exact (Hunknown eq_refl).
Defined.
End Runs.

#[local] Set Warnings "-clear-no-such-hyp".

(** * Further properties of headlamp.go *)

(** ** Validation and token of [POST /portforward] *)

Section PostValidation.
Implicit Types (p : PortForwardPayload.t) (w : ResponseWriter.t) (r : Request.t).

(** X1. A payload passes [validatePortForward] exactly when its namespace,
    pod, target port and cluster are all non-empty; id, service, service
    namespace and local port play no part. *)
Theorem validatePortForward_accepts p :
  validatePortForward p = None
  ↔ PortForwardPayload.Namespace p ≠ ""
    ∧ PortForwardPayload.Pod p ≠ ""
    ∧ PortForwardPayload.TargetPort p ≠ ""
    ∧ PortForwardPayload.Cluster p ≠ "".
Proof.
  unfold validatePortForward.
  destruct (String.eqb_spec (PortForwardPayload.Namespace p) "");
    [split; [done|tauto]|].
  destruct (String.eqb_spec (PortForwardPayload.Pod p) "");
    [split; [done|tauto]|].
  destruct (String.eqb_spec (PortForwardPayload.TargetPort p) "");
    [split; [done|tauto]|].
  destruct (String.eqb_spec (PortForwardPayload.Cluster p) "");
    [split; [done|tauto]|].
  tauto.
Qed.

(** The id that the handler gives a payload. *)
Lemma validatePortForward_ID p id :
  validatePortForward
    (PortForwardPayload.mk id (PortForwardPayload.Namespace p)
       (PortForwardPayload.Pod p) (PortForwardPayload.Service p)
       (PortForwardPayload.ServiceNamespace p) (PortForwardPayload.TargetPort p)
       (PortForwardPayload.Cluster p) (PortForwardPayload.Port p))
  = validatePortForward p.
Proof. done. Qed.

Lemma prefix_append (s t : string) : String.prefix s (s +:+ t) = true.
Proof.
  induction s as [|c s IH]; [by destruct t|].
  change (String.prefix (String c s) (String c (s +:+ t)) = true).
  cbn [String.prefix]. by destruct (Ascii.ascii_dec c c).
Qed.

(** Once a separator has been met, the rest of it is passed over. *)
Lemma splitFrom_skip sep (u : string) cur t :
  splitFrom sep (String.length u) cur (u +:+ t) = splitFrom sep 0 cur t.
Proof.
  induction u as [|c u IH]; [done|].
  change (splitFrom sep (S (String.length u)) cur (String c (u +:+ t))
          = splitFrom sep 0 cur t).
  cbn [splitFrom]. exact IH.
Qed.

Lemma splitFrom_separator c sep cur t :
  splitFrom (String c sep) 0 cur (String c sep +:+ t)
  = cur :: splitFrom (String c sep) 0 "" t.
Proof.
  change (String c sep +:+ t) with (String c (sep +:+ t)).
  cbn [splitFrom].
  change (String c (sep +:+ t)) with (String c sep +:+ t).
  rewrite prefix_append. f_equal.
  change (String.length (String c sep) - 1) with (String.length sep - 0).
  rewrite Nat.sub_0_r. apply splitFrom_skip.
Qed.

Lemma bearerToken_Bearer t :
  occursIn "Bearer " t = false → bearerToken ("Bearer " +:+ t) = Returns t.
Proof.
  intros Hocc. unfold bearerToken, strings_Split.
  rewrite splitFrom_separator, splitFrom_no_occurrence by done.
  done.
Qed.

(** The handler's result for a Bearer token and a valid body. *)
Lemma portforwardPostHandler_validated p freshID r w t :
  Header_Get (Request.Header r) "Authorization" = "Bearer " +:+ t →
  occursIn "Bearer " t = false →
  validatePortForward p = None →
  portforwardPostHandler (Ok p) freshID r w
  = Returns
      (Validated
         (PortForwardPayload.mk
            (if String.eqb (PortForwardPayload.ID p) "" then freshID
             else PortForwardPayload.ID p)
            (PortForwardPayload.Namespace p) (PortForwardPayload.Pod p)
            (PortForwardPayload.Service p)
            (PortForwardPayload.ServiceNamespace p)
            (PortForwardPayload.TargetPort p)
            (PortForwardPayload.Cluster p) (PortForwardPayload.Port p))
         t).
Proof.
  intros Hauth Hocc Hvalid. unfold portforwardPostHandler.
  rewrite Hauth, (bearerToken_Bearer _ Hocc).
  destruct (String.eqb (PortForwardPayload.ID p) "").
  - by rewrite validatePortForward_ID, Hvalid.
  - rewrite Hvalid. by destruct p.
Qed.

(** X2. A request whose Authorization value is [Bearer t] (with no further
    ["Bearer "] inside [t]) and whose body holds the four required fields
    passes validation with token [t]; the payload keeps its id, or gets
    the fresh one when it had none, and is otherwise unchanged.  With a
    required field empty the answer is 400. *)
Theorem portforwardPostHandler_Bearer p freshID r w t :
  Header_Get (Request.Header r) "Authorization" = "Bearer " +:+ t →
  occursIn "Bearer " t = false →
  ResponseWriter.status w = None →
  (validatePortForward p = None →
     portforwardPostHandler (Ok p) freshID r w
     = Returns
         (Validated
            (PortForwardPayload.mk
               (if String.eqb (PortForwardPayload.ID p) "" then freshID
                else PortForwardPayload.ID p)
               (PortForwardPayload.Namespace p) (PortForwardPayload.Pod p)
               (PortForwardPayload.Service p)
               (PortForwardPayload.ServiceNamespace p)
               (PortForwardPayload.TargetPort p)
               (PortForwardPayload.Cluster p) (PortForwardPayload.Port p))
            t))
  ∧ (validatePortForward p ≠ None →
     ∃ w',
       portforwardPostHandler (Ok p) freshID r w = Returns (Rejected w')
       ∧ ResponseWriter.status w' = Some StatusBadRequest).
Proof.
  intros Hauth Hocc Hw. split.
  - by apply portforwardPostHandler_validated.
  - intros Hinvalid. unfold portforwardPostHandler.
    rewrite Hauth, (bearerToken_Bearer _ Hocc).
    destruct (String.eqb (PortForwardPayload.ID p) "").
    + rewrite validatePortForward_ID.
      destruct (validatePortForward p) as [e|]; [|done].
      eexists. split; [done|]. by apply http_Error_status.
    + destruct (validatePortForward p) as [e|]; [|done].
      eexists. split; [done|]. by apply http_Error_status.
Qed.
End PostValidation.

(** ** The handlers that read and close sessions *)

Section SessionHandlers.
Context `{JsonLib}.
Implicit Types (pfs : PortForwards) (w : ResponseWriter.t) (r : Request.t)
  (v u : PortForward.t).

(** The session that the loops over a cluster's list stop at, for an
    id that some session has: the one [getPortForwardByID] returns. *)
Lemma findByID_getPortForwardByID cluster id pfs v :
  v ∈ getPortForwardList cluster pfs → PortForward.ID v = id →
  ∃ l i,
    pfs !! cluster = Some l
    ∧ findByID id l = Some (i, getPortForwardByID cluster id pfs).
Proof.
  intros Hv Hid. destruct (found_in_list _ _ _ Hv) as (l & Hl & Hlist).
  rewrite Hlist in Hv.
  destruct (findByID_elem_of id l v Hv Hid) as [[i x] Hfind].
  exists l, i. split; [done|]. unfold getPortForwardByID.
  by rewrite Hl, Hfind.
Qed.

(** X3. [DELETE /portforward]: a body that does not decode, or has an empty
    id or cluster, is answered 400 with the index untouched and nothing
    sent.  Otherwise the index and the effects are those of
    [stopOrDeletePortForward].  When a session of that cluster has the
    id, a delete is answered 200, and so is a stop while the forwarder
    of the session found is waiting to receive on its channel; a stop
    of a session whose forwarder no longer receives is never answered,
    and the index stays as it was.  When no session has the id the
    answer is 500. *)
Theorem portforwardDeleteHandler_responses decoded pfs receiving w :
  ResponseWriter.status w = None →
  let res := portforwardDeleteHandler decoded pfs receiving w in
  ((∀ dp, decoded = Ok dp →
      deletePayload.ID dp = "" ∨ deletePayload.Cluster dp = "") →
     res.1 = (pfs, [])
     ∧ ∃ w', res.2 = Completes w'
             ∧ ResponseWriter.status w' = Some StatusBadRequest)
  ∧ (∀ dp, decoded = Ok dp →
       deletePayload.ID dp ≠ "" → deletePayload.Cluster dp ≠ "" →
       let closed :=
         stopOrDeletePortForward (deletePayload.Cluster dp)
           (deletePayload.ID dp) (deletePayload.StopOrDelete dp)
           pfs receiving in
       let found :=
         getPortForwardByID (deletePayload.Cluster dp) (deletePayload.ID dp)
           pfs in
       res.1 = (closed.1.2, closed.2)
       ∧ ((∃ v, v ∈ getPortForwardList (deletePayload.Cluster dp) pfs
                ∧ PortForward.ID v = deletePayload.ID dp) →
          (deletePayload.StopOrDelete dp = false
           ∨ receives (PortForward.closeChan found) receiving = true →
           ∃ w', res.2 = Completes w'
                 ∧ ResponseWriter.status w' = Some StatusOK
                 ∧ ResponseWriter.body w'
                   = ResponseWriter.body w ++ [Text "stopped"])
          ∧ (deletePayload.StopOrDelete dp = true →
             receives (PortForward.closeChan found) receiving = false →
             res.2 = Blocks ∧ res.1 = (pfs, [])))
       ∧ ((∀ v, v ∈ getPortForwardList (deletePayload.Cluster dp) pfs
                → PortForward.ID v ≠ deletePayload.ID dp) →
          res.1 = (pfs, [])
          ∧ ∃ w', res.2 = Completes w'
                  ∧ ResponseWriter.status w'
                    = Some StatusInternalServerError)).
Proof.
  intros Hw res. subst res. split.
  - intros Hbad. unfold portforwardDeleteHandler.
    destruct decoded as [dp|e]; cbn [fst snd];
      [|split; [done|eexists; split; [done|by apply http_Error_status]]].
    destruct (Hbad dp eq_refl) as [-> | Hcl]; cbn [String.eqb fst snd].
    + split; [done|]. eexists. split; [done|by apply http_Error_status].
    + destruct (String.eqb _ ""); rewrite ?Hcl; cbn [String.eqb fst snd];
        (split; [done|]; eexists; split; [done|by apply http_Error_status]).
  - intros dp -> Hid Hcl closed found. subst closed found.
    unfold portforwardDeleteHandler.
    destruct (String.eqb_spec (deletePayload.ID dp) ""); [done|].
    destruct (String.eqb_spec (deletePayload.Cluster dp) ""); [done|].
    split; [|split].
    + by destruct (stopOrDeletePortForward _ _ _ _ _) as [[[[e|]|] pfs'] eff].
    + intros (v & Hv & Hv').
      destruct (findByID_getPortForwardByID _ _ _ _ Hv Hv')
        as (l & i & Hl & Hfind).
      assert (∀ w0 : ResponseWriter.t,
                w0 = ResponseWriter.Write (Text "stopped") w →
                ResponseWriter.status w0 = Some StatusOK
                ∧ ResponseWriter.body w0
                  = ResponseWriter.body w ++ [Text "stopped"]) as Hok.
      { intros w0 ->. unfold ResponseWriter.Write, ResponseWriter.WriteHeader.
        by rewrite Hw. }
      split.
      * intros [Hmode|Hrecv].
        -- rewrite Hmode,
             (stopOrDeletePortForward_delete _ _ _ _ _ _ _ Hl Hfind).
           eexists. split; [done|]. by apply Hok.
        -- destruct (deletePayload.StopOrDelete dp).
           ++ rewrite (stopOrDeletePortForward_stop _ _ _ _ _ _ _ Hl Hfind Hrecv).
              eexists. split; [done|]. by apply Hok.
           ++ rewrite (stopOrDeletePortForward_delete _ _ _ _ _ _ _ Hl Hfind).
              eexists. split; [done|]. by apply Hok.
      * intros -> Hrecv.
        by rewrite (stopOrDeletePortForward_blocks _ _ _ _ _ _ _ Hl Hfind Hrecv).
    + intros Hnone. rewrite (stopOrDeletePortForward_missing _ _ _ _ _ Hnone).
      cbn [fst snd]. split; [done|].
      eexists. split; [done|by apply http_Error_status].
Qed.

(** X4. [GET /portforward?cluster=&id=] with both parameters given: when a
    session of the cluster has the id, the answer is the JSON of the
    first such session's id, pod, namespace, cluster and service (200,
    or 500 if it cannot be marshalled); when none has, the answer is
    404. *)
Theorem portforwardGetHandler_responses pfs w r :
  let id := Request.QueryGet r "id" in
  let cluster := Request.QueryGet r "cluster" in
  ResponseWriter.status w = None →
  cluster ≠ "" → id ≠ "" →
  (∀ v, v ∈ getPortForwardList cluster pfs → PortForward.ID v = id →
     ∃ p, p ∈ getPortForwardList cluster pfs ∧ PortForward.ID p = id
          ∧ ∀ json,
              MarshalReduced (PortForward.ID p) (PortForward.Pod p)
                (PortForward.Namespace p) (PortForward.Cluster p)
                (PortForward.Service p) = Ok json →
              ResponseWriter.status (portforwardGetHandler pfs w r) = Some StatusOK
              ∧ ResponseWriter.body (portforwardGetHandler pfs w r)
                = ResponseWriter.body w ++ [Text json])
  ∧ ((∀ v, v ∈ getPortForwardList cluster pfs → PortForward.ID v ≠ id) →
     ResponseWriter.status (portforwardGetHandler pfs w r) = Some StatusNotFound).
Proof.
  intros id cluster Hw Hcl Hid. subst id cluster.
  unfold portforwardGetHandler.
  destruct (String.eqb_spec (Request.QueryGet r "cluster") ""); [done|].
  destruct (String.eqb_spec (Request.QueryGet r "id") ""); [done|].
  split.
  - intros v Hv Hv'. destruct (found_in_list _ _ _ Hv) as (l & Hl & Hlist).
    rewrite Hlist in *.
    destruct (findByID_elem_of _ l v Hv Hv') as [[i p] Hfind].
    pose proof Hfind as (Hi & Hp & _)%findByID_Some.
    exists p. split; [apply list_elem_of_lookup; eauto|]. split; [done|].
    intros json Hjson. unfold getPortForwardByID. rewrite Hl, Hfind.
    destruct (String.eqb_spec (PortForward.ID p) ""); [congruence|].
    rewrite Hjson. unfold ResponseWriter.Write, ResponseWriter.WriteHeader.
    cbn. by rewrite Hw.
  - intros Hnone. unfold getPortForwardByID.
    destruct (pfs !! Request.QueryGet r "cluster") as [l|] eqn:Hl;
      [|by apply http_Error_status].
    assert (findByID (Request.QueryGet r "id") l = None) as ->.
    { apply findByID_None. intros v Hv. apply Hnone.
      unfold getPortForwardList. by rewrite Hl. }
    by apply http_Error_status.
Qed.
End SessionHandlers.

(** ** What closing a session leaves alone *)

Section CloseFrame.
Implicit Types (pfs : PortForwards) (v u : PortForward.t) (id cluster : string).

(** X5. Closing a session, in either mode, whether or not it is found
    and whether or not the call returns, changes no list of another
    cluster, and in the cluster itself every session with another id is
    in the list afterwards exactly when it was before. *)
Theorem stopOrDeletePortForward_frame cluster id b pfs receiving :
  let pfs' := (stopOrDeletePortForward cluster id b pfs receiving).1.2 in
  (∀ other, other ≠ cluster →
     getPortForwardList other pfs' = getPortForwardList other pfs)
  ∧ (∀ u, PortForward.ID u ≠ id →
       u ∈ getPortForwardList cluster pfs' ↔ u ∈ getPortForwardList cluster pfs).
Proof.
  intros pfs'. subst pfs'. unfold stopOrDeletePortForward.
  destruct (pfs !! cluster) as [l|] eqn:Hl; [|done].
  destruct (findByID id l) as [[i v]|] eqn:Hfind; [|done].
  pose proof Hfind as (Hi & Hid & _)%findByID_Some.
  assert (getPortForwardList cluster pfs = l) as Hlist
    by (unfold getPortForwardList; by rewrite Hl).
  destruct b; cbn [negb]; cbv zeta;
    [destruct (receives _ receiving); [|done]|]; cbn [fst snd]; split.
  - intros other Hne. rewrite getPortForwardList_insert.
    by destruct (decide (cluster = other)).
  - intros u Hu. rewrite getPortForwardList_insert, Hlist.
    destruct (decide (cluster = cluster)); [|done].
    rewrite insert_take_drop by (by eapply lookup_lt_Some).
    rewrite <- (take_drop_middle l i v Hi) at 3.
    rewrite !elem_of_app, !elem_of_cons.
    split; (intros [?|[->|?]]; [tauto| |tauto]).
    + by destruct Hu.
    + by destruct Hu.
  - intros other Hne. rewrite getPortForwardList_insert.
    by destruct (decide (cluster = other)).
  - intros u Hu. rewrite getPortForwardList_insert, Hlist.
    destruct (decide (cluster = cluster)); [|done].
    rewrite <- (take_drop_middle l i v Hi) at 3.
    rewrite !elem_of_app, elem_of_cons.
    split; [tauto|]. intros [?|[->|?]]; [tauto| |tauto]. by destruct Hu.
Qed.

(** After a delete, no session of the cluster has the id. *)
Lemma stopOrDeletePortForward_delete_gone cluster id pfs receiving :
  idsUnique (getPortForwardList cluster pfs) →
  ∀ u, u ∈ getPortForwardList cluster
             (stopOrDeletePortForward cluster id false pfs receiving).1.2 →
       PortForward.ID u ≠ id.
Proof.
  intros Hnd u. unfold stopOrDeletePortForward.
  destruct (pfs !! cluster) as [l|] eqn:Hl.
  - assert (getPortForwardList cluster pfs = l) as Hlist
      by (unfold getPortForwardList; by rewrite Hl).
    rewrite Hlist in Hnd.
    destruct (findByID id l) as [[i v]|] eqn:Hfind; cbn [negb fst snd].
    + apply findByID_Some in Hfind as (Hi & <- & _).
      rewrite getPortForwardList_insert.
      destruct (decide (cluster = cluster)); [|done].
      intros Hu. apply (idsUnique_middle (take i l) v (drop (S i) l)); [|done].
      by rewrite take_drop_middle.
    + rewrite Hlist. intros Hu. by apply (proj1 (findByID_None id l) Hfind).
  - cbn [fst snd]. unfold getPortForwardList. rewrite Hl.
    by intros ?%elem_of_nil.
Qed.

(** A delete sends nothing. *)
Lemma stopOrDeletePortForward_delete_effects cluster id pfs receiving :
  (stopOrDeletePortForward cluster id false pfs receiving).2 = [].
Proof.
  unfold stopOrDeletePortForward.
  destruct (pfs !! _) as [l|]; [|done].
  by destruct (findByID _ l) as [[i v]|].
Qed.

(** X6. A delete does not stop the tunnel: nothing is sent on its channel,
    so the receivers are as before and its watchdog keeps running.  A
    session deleted from an index the package can reach is gone from
    [getPortForwardByID]; when its forwarder is still waiting to
    receive, it comes back, with the error text, the next time the
    watchdog finds the pod in a phase other than Running.  (When the
    forwarder no longer receives, the watchdog waits in its send and
    the session stays gone.) *)
Theorem deleted_session_comes_back pf stopChan before phase pfs receiving :
  reachable pfs →
  Forall (λ tick, keepsTicking tick = true) before →
  phase ≠ PodRunning →
  let deleted :=
    stopOrDeletePortForward (PortForward.Cluster pf) (PortForward.ID pf)
      false pfs receiving in
  let run :=
    watchdog pf stopChan (before ++ [PodPhase phase]) deleted.1.2
      (afterSends deleted.2 receiving) in
  deleted.2 = []
  ∧ afterSends deleted.2 receiving = receiving
  ∧ getPortForwardByID (PortForward.Cluster pf) (PortForward.ID pf) deleted.1.2
    = PortForward.zero
  ∧ (receives stopChan receiving = true →
     getPortForwardByID (PortForward.Cluster pf) (PortForward.ID pf)
       (Watchdog.index run)
     = PortForward.set_Error "Pod is not running" pf)
  ∧ (receives stopChan receiving = false →
     Watchdog.blocked run = true ∧ Watchdog.index run = deleted.1.2).
Proof.
  intros Hreach Hwait Hphase deleted run. subst deleted run.
  rewrite stopOrDeletePortForward_delete_effects. cbn [afterSends foldl].
  split; [done|]. split; [done|]. split; [|split].
  - pose proof (stopOrDeletePortForward_delete_gone (PortForward.Cluster pf)
                  (PortForward.ID pf) pfs receiving
                  (reachable_idsUnique pfs Hreach _)) as Hgone.
    unfold getPortForwardByID.
    destruct (_ !! PortForward.Cluster pf) as [l|] eqn:Hl; [|done].
    assert (findByID (PortForward.ID pf) l = None) as ->; [|done].
    apply findByID_None. intros v Hv. apply Hgone.
    unfold getPortForwardList. by rewrite Hl.
  - intros Hrecv. rewrite (watchdog_waits _ _ _ _ _ _ Hwait).
    cbn [watchdog Watchdog.index].
    destruct (String.eqb_spec phase PodRunning) as [|_]; [done|].
    cbn [negb]. rewrite Hrecv. cbn [Watchdog.index].
    exact (getPortForwardByID_portforwardstore
             (PortForward.set_Error "Pod is not running" pf) _).
  - intros Hrecv. rewrite (watchdog_waits _ _ _ _ _ _ Hwait).
    cbn [watchdog Watchdog.index Watchdog.blocked].
    destruct (String.eqb_spec phase PodRunning) as [|_]; [done|].
    cbn [negb]. by rewrite Hrecv.
Qed.
End CloseFrame.

(** ** More on the watchdog *)

Section WatchdogMore.
Implicit Types (pf : PortForward.t) (pfs : PortForwards)
  (ticks before after : list podLookup).

(** X7. While every lookup is refused or finds the pod Running, the
    watchdog changes nothing: the index is the same, nothing is sent,
    the ticker is not stopped and the loop is still waiting. *)
Theorem watchdog_idle pf stopChan ticks pfs receiving :
  Forall (λ tick, keepsTicking tick = true) ticks →
  watchdog pf stopChan ticks pfs receiving
  = Watchdog.mk pfs [] (length ticks) false false.
Proof.
  intros Hwait.
  pose proof (watchdog_waits pf stopChan ticks [] pfs receiving Hwait) as Hrun.
  rewrite app_nil_r in Hrun. rewrite Hrun. cbn. by rewrite Nat.add_0_r.
Qed.

(** X8. A lookup error other than connection refused ends the watchdog as a
    pod that is not running does.  While the forwarder is waiting to
    receive on the stop channel: one send, the record stored with the
    text of the error in its Error field and its Status unchanged, the
    ticker stopped, later ticks not handled.  When the forwarder no
    longer receives, the watchdog waits in its send for ever: nothing
    is stored and the ticker is not stopped. *)
Theorem watchdog_lookup_error pf stopChan before msg after pfs receiving :
  Forall (λ tick, keepsTicking tick = true) before →
  let r :=
    watchdog pf stopChan (before ++ LookupErr msg :: after) pfs receiving in
  let stored :=
    getPortForwardByID (PortForward.Cluster pf) (PortForward.ID pf)
      (Watchdog.index r) in
  (receives stopChan receiving = true →
     Watchdog.effects r = [Send stopChan; TickerStop]
     ∧ Watchdog.stopped r = true
     ∧ Watchdog.blocked r = false
     ∧ Watchdog.handled r = length before + 1
     ∧ Watchdog.index r = portforwardstore (PortForward.set_Error msg pf) pfs
     ∧ stored = PortForward.set_Error msg pf
     ∧ PortForward.Status stored = PortForward.Status pf)
  ∧ (receives stopChan receiving = false →
     r = Watchdog.mk pfs [] (length before + 1) false true).
Proof.
  intros Hwait r stored. subst r stored.
  rewrite (watchdog_waits _ _ _ _ _ _ Hwait). cbn [watchdog].
  split; intros ->; [|done].
  cbn [Watchdog.index Watchdog.effects Watchdog.handled Watchdog.stopped
       Watchdog.blocked].
  pose proof (getPortForwardByID_portforwardstore
                (PortForward.set_Error msg pf) pfs) as Hget.
  cbn [PortForward.set_Error PortForward.Cluster PortForward.ID] in Hget.
  repeat split; try done. by rewrite Hget.
Qed.
End WatchdogMore.

(** ** Opening a tunnel *)

Section Opening.
Context `{NetLib, KubeLib, ForwardLib, JsonLib}.
Implicit Types (c : HeadlampConfig.t) (p : PortForwardPayload.t)
  (pfs : PortForwards) (w : ResponseWriter.t) (r : Request.t).

Lemma Write_body ch w :
  ResponseWriter.body (ResponseWriter.Write ch w) = ResponseWriter.body w ++ [ch].
Proof.
  unfold ResponseWriter.Write, ResponseWriter.WriteHeader.
  by destruct (ResponseWriter.status w).
Qed.

Lemma http_Error_body msg code w :
  ResponseWriter.body (http_Error msg code w)
  = ResponseWriter.body w ++ [Text (msg +:+ LF)].
Proof.
  unfold http_Error. cbv zeta. rewrite Write_body.
  unfold ResponseWriter.WriteHeader. cbn.
  by destruct (ResponseWriter.status w).
Qed.

Lemma json_written_status w code json :
  ResponseWriter.status w = code →
  ResponseWriter.status
    (ResponseWriter.Write (Text json)
       (ResponseWriter.setHeader "Content-Type" "application/json" w))
  = Some (default StatusOK code).
Proof.
  intros <-. unfold ResponseWriter.Write, ResponseWriter.WriteHeader. cbn.
  destruct (ResponseWriter.status w) eqn:Hst; cbn; by rewrite ?Hst.
Qed.

Lemma json_written_body w json :
  ResponseWriter.body
    (ResponseWriter.Write (Text json)
       (ResponseWriter.setHeader "Content-Type" "application/json" w))
  = ResponseWriter.body w ++ [Text json].
Proof. by rewrite Write_body. Qed.

Lemma withFreePort_Cluster p w :
  PortForwardPayload.Cluster (withFreePort p w).1 = PortForwardPayload.Cluster p.
Proof.
  unfold withFreePort. destruct (String.eqb _ ""); [|done].
  destruct GetFreePort as [n|e]; [|done]. by destruct (negb _).
Qed.

(** What is known when [startPortForward] has returned nil. *)
Lemma startPortForward_Started_inv c p token stopChan pfs pfs' session :
  startPortForward c p token stopChan pfs = Started pfs' session →
  session = portForwardToStore p stopChan
  ∧ ∃ cp caData errOut,
      HeadlampConfig.contextProxies c !! PortForwardPayload.Cluster p = Some cp
      ∧ getCAData (Context.cluster (contextProxy.context cp)) = Ok caData
      ∧ readyErrOut (restConfigFor (contextProxy.context cp) caData token)
          [Sprintf0 (PortForwardPayload.Port p +:+ ":"
                       +:+ PortForwardPayload.TargetPort p)]
        = Some errOut
      ∧ pfs' = (if String.eqb errOut ""
                then portforwardstore session pfs else pfs).
Proof.
  unfold startPortForward.
  destruct (_ !! PortForwardPayload.Cluster p) as [cp|]; [|done].
  destruct (getCAData _) as [caData|e] eqn:Hca; [|done]. cbv zeta.
  destruct (NewForConfig _); [done|].
  destruct (RoundTripperFor _); [done|].
  destruct (url_Parse _) as [reqURL|]; [|done].
  destruct (portforward_New _ _); [done|].
  destruct (readyErrOut _ _) as [errOut|] eqn:Hready; [|done].
  destruct (String.eqb errOut "") eqn:Herr; intros [= <- <-];
    (split; [done|]); exists cp, caData, errOut; by rewrite Herr.
Qed.

(** X9. When [startPortForward] returns nil, the target cluster is
    registered, its CA data could be read, and the session it built is
    Running with the payload's id and the fresh stop channel.  The
    session is in the index, found by its cluster and id, exactly when
    [errOut] was empty at the moment the tunnel became ready; with a
    non-empty [errOut] nil is returned all the same and the index is
    left as it was. *)
Theorem startPortForward_Started c p token stopChan pfs pfs' session :
  startPortForward c p token stopChan pfs = Started pfs' session →
  session = portForwardToStore p stopChan
  ∧ PortForward.Status session = RUNNING
  ∧ PortForward.closeChan session = stopChan
  ∧ ∃ cp caData errOut,
      HeadlampConfig.contextProxies c !! PortForwardPayload.Cluster p = Some cp
      ∧ getCAData (Context.cluster (contextProxy.context cp)) = Ok caData
      ∧ readyErrOut (restConfigFor (contextProxy.context cp) caData token)
          [Sprintf0 (PortForwardPayload.Port p +:+ ":"
                       +:+ PortForwardPayload.TargetPort p)]
        = Some errOut
      ∧ (errOut = "" →
         pfs' = portforwardstore session pfs
         ∧ getPortForwardByID (PortForwardPayload.Cluster p)
             (PortForwardPayload.ID p) pfs' = session)
      ∧ (errOut ≠ "" → pfs' = pfs).
Proof.
  intros (-> & cp & caData & errOut & Hcp & Hca & Hready & ->)%startPortForward_Started_inv.
  split; [done|]. split; [done|]. split; [done|].
  exists cp, caData, errOut. split; [done|]. split; [done|]. split; [done|].
  split.
  - intros ->. cbn [String.eqb]. split; [done|].
    exact (getPortForwardByID_portforwardstore (portForwardToStore p stopChan) pfs).
  - intros Hne. by destruct (String.eqb_spec errOut "").
Qed.

(** X10. A tunnel request for a cluster that is not registered is answered
    500 and stores nothing, whether or not a local port was asked for. *)
Theorem portforwardPostOpen_unknown_cluster c p token stopChan pfs w :
  ResponseWriter.status w = None →
  HeadlampConfig.contextProxies c !! PortForwardPayload.Cluster p = None →
  ∃ w',
    portforwardPostOpen c p token stopChan pfs w = Some (pfs, w')
    ∧ ResponseWriter.status w' = Some StatusInternalServerError.
Proof.
  intros Hw Hnone. unfold portforwardPostOpen.
  pose proof (withFreePort_Cluster p w) as Hcl.
  assert (ResponseWriter.status (withFreePort p w).2 = None
          ∨ ResponseWriter.status (withFreePort p w).2
            = Some StatusInternalServerError) as Hst.
  { unfold withFreePort. destruct (String.eqb _ ""); [|by left].
    destruct GetFreePort as [n|e]; [by left|right].
    by apply http_Error_status. }
  destruct (withFreePort p w) as [p' w1]. cbn [fst snd] in *.
  unfold startPortForward. rewrite Hcl, Hnone.
  eexists. split; [done|].
  destruct Hst as [Hst|Hst].
  - by apply http_Error_status.
  - by apply http_Error_superfluous.
Qed.

(** X11. When no local port is given and [GetFreePort] fails, the handler
    writes its 500 and goes on: the tunnel is still opened, with an empty
    local port, and when that succeeds the payload is written after the
    error text; the status stays 500. *)
Theorem portforwardPostOpen_no_free_port c p token stopChan pfs w e pfs' session :
  ResponseWriter.status w = None →
  PortForwardPayload.Port p = "" →
  GetFreePort = Err e →
  startPortForward c p token stopChan pfs = Started pfs' session →
  ∃ w',
    portforwardPostOpen c p token stopChan pfs w = Some (pfs', w')
    ∧ ResponseWriter.status w' = Some StatusInternalServerError
    ∧ PortForward.Port session = ""
    ∧ ∀ json, MarshalPayload p = Ok json →
        ResponseWriter.body w'
        = ResponseWriter.body w
            ++ [Text (("can't find any available port " +:+ e) +:+ LF);
                Text json].
Proof.
  intros Hw Hport Hfree Hstart. unfold portforwardPostOpen, withFreePort.
  rewrite Hport, Hfree. cbn [String.eqb]. rewrite Hstart.
  pose proof Hstart as (-> & _)%startPortForward_Started_inv.
  set (w1 := http_Error _ _ w).
  assert (ResponseWriter.status w1 = Some StatusInternalServerError) as Hw1
    by (by apply http_Error_status).
  assert (ResponseWriter.body w1
          = ResponseWriter.body w
              ++ [Text (("can't find any available port " +:+ e) +:+ LF)]) as Hb1
    by apply http_Error_body.
  clearbody w1.
  destruct (MarshalPayload p) as [json|e'].
  - eexists. split; [done|]. split; [|split; [done|]].
    + by rewrite (json_written_status _ _ _ Hw1).
    + intros ? [= <-]. rewrite json_written_body, Hb1. by rewrite <- app_assoc.
  - eexists. split; [done|]. split; [|split; [done|done]].
    by apply http_Error_superfluous.
Qed.

(** X12. A request with a Bearer token and a valid body that names no local
    port, when a free port [n] is found and the tunnel opens: the answer
    is 200 with the JSON of the payload, whose port is the decimal text
    of [n] and whose id is the caller's or the fresh one; the session
    built is Running under that id with that port, and the index
    afterwards is the one [startPortForward] left. *)
Theorem portforwardPost_opens c p freshID stopChan pfs w r t n pfs' session json :
  let p' :=
    set_Port (Itoa n)
      (PortForwardPayload.mk
         (if String.eqb (PortForwardPayload.ID p) "" then freshID
          else PortForwardPayload.ID p)
         (PortForwardPayload.Namespace p) (PortForwardPayload.Pod p)
         (PortForwardPayload.Service p) (PortForwardPayload.ServiceNamespace p)
         (PortForwardPayload.TargetPort p) (PortForwardPayload.Cluster p)
         (PortForwardPayload.Port p)) in
  ResponseWriter.status w = None →
  Header_Get (Request.Header r) "Authorization" = "Bearer " +:+ t →
  occursIn "Bearer " t = false →
  validatePortForward p = None →
  PortForwardPayload.Port p = "" →
  GetFreePort = Ok n → n ≠ 0 →
  startPortForward c p' t stopChan pfs = Started pfs' session →
  MarshalPayload p' = Ok json →
  ∃ w',
    portforwardPost c (Ok p) freshID stopChan pfs w r = Returns (Some (pfs', w'))
    ∧ ResponseWriter.status w' = Some StatusOK
    ∧ ResponseWriter.body w' = ResponseWriter.body w ++ [Text json]
    ∧ session = portForwardToStore p' stopChan
    ∧ PortForward.Port session = Itoa n
    ∧ PortForward.Status session = RUNNING.
Proof.
  intros p' Hw Hauth Hocc Hvalid Hport Hfree Hn Hstart Hjson.
  unfold portforwardPost.
  rewrite (portforwardPostHandler_validated p freshID r w t Hauth Hocc Hvalid).
  unfold portforwardPostOpen, withFreePort.
  cbn [PortForwardPayload.Port]. rewrite Hfree.
  destruct (String.eqb_spec (PortForwardPayload.Port p) "") as [_|]; [|done].
  destruct (Nat.eqb_spec n 0) as [|_]; [done|]. cbn [negb].
  fold p'. rewrite Hstart, Hjson.
  pose proof Hstart as (-> & _)%startPortForward_Started_inv.
  eexists. split; [done|].
  rewrite (json_written_status _ _ _ Hw), json_written_body. done.
Qed.
End Opening.

(** ** More on the proxy factory *)

Section FactoryMore.
Context `{NetLib, KubeLib}.
Implicit Types (c : HeadlampConfig.t) (context : Context.t).

(** X13. [createProxyForContext] returns an error in exactly four cases: the
    server URL does not parse; the certificate is to be verified and the
    CA data cannot be had; a client certificate file is named without a
    key file; client certificate data is given without key data. *)
Theorem createProxyForContext_fails_iff c context :
  (∃ e, createProxyForContext c context = Err e)
  ↔ url_Parse (getServer (getCluster context)) = None
    ∨ (negb (HeadlampConfig.insecure c) || shouldVerifyTLS (getCluster context)
         = true
       ∧ ∃ e, getCAData (getCluster context) = Err e)
    ∨ (getClientCertificate context ≠ "" ∧ getClientKey context = "")
    ∨ (getClientCertificateData context ≠ None
       ∧ getClientKeyData context = None).
Proof.
  unfold createProxyForContext.
  destruct (url_Parse _) as [server|] eqn:Hurl; [|naive_solver].
  cbv zeta.
  destruct (negb (HeadlampConfig.insecure c) || shouldVerifyTLS (getCluster context))
    eqn:Hverify;
    destruct (getCAData (getCluster context)) as [ca|e] eqn:Hca;
    destruct (String.eqb_spec (getClientCertificate context) "");
    destruct (String.eqb_spec (getClientKey context) "");
    try destruct (LoadX509KeyPair _ _);
    destruct (getClientCertificateData context) as [cd|] eqn:Hcd;
    destruct (getClientKeyData context) as [kd|] eqn:Hkd;
    try destruct (X509KeyPair _ _);
    cbn; naive_solver.
Qed.

(** The proxy that the factory returns targets the parsed server URL. *)
Lemma createProxyForContext_Target c context proxy :
  createProxyForContext c context = Ok proxy →
  url_Parse (getServer (getCluster context)) = Some (ReverseProxy.Target proxy).
Proof.
  unfold createProxyForContext.
  destruct (url_Parse _) as [server|] eqn:Hurl; [|done].
  cbv zeta.
  destruct (negb (HeadlampConfig.insecure c) || shouldVerifyTLS (getCluster context));
    destruct (getCAData (getCluster context)) as [ca|e];
    destruct (String.eqb_spec (getClientCertificate context) "");
    destruct (String.eqb_spec (getClientKey context) "");
    try destruct (LoadX509KeyPair _ _);
    destruct (getClientCertificateData context) as [cd|];
    destruct (getClientKeyData context) as [kd|];
    try destruct (X509KeyPair _ _);
    cbn; by intros [= <-].
Qed.

(** X14. When [createProxyForContext] succeeds, the proxy targets the parsed
    server URL, goes through the cluster's forward proxy if it names
    one, and offers the client key pairs that loaded: the pair of files
    first, then the pair given as data.  A pair that does not load is
    left out without an error. *)
Theorem createProxyForContext_Ok c context proxy :
  createProxyForContext c context = Ok proxy →
  url_Parse (getServer (getCluster context)) = Some (ReverseProxy.Target proxy)
  ∧ ∃ tr,
      ReverseProxy.Transport proxy = Some tr
      ∧ Transport.Proxy tr = getTransportProxy (getCluster context)
      ∧ TLSConfig.Certificates (Transport.TLSClientConfig tr)
        = (if negb (String.eqb (getClientCertificate context) "")
              && LoadX509KeyPair (getClientCertificate context)
                   (getClientKey context)
           then [KeyPairFromFiles (getClientCertificate context)
                   (getClientKey context)]
           else [])
          ++ match getClientCertificateData context, getClientKeyData context with
             | Some certData, Some keyData =>
                 if X509KeyPair certData keyData
                 then [KeyPairFromData certData keyData] else []
             | _, _ => []
             end.
Proof.
  unfold createProxyForContext.
  destruct (url_Parse _) as [server|] eqn:Hurl; [|done].
  cbv zeta.
  destruct (negb (HeadlampConfig.insecure c) || shouldVerifyTLS (getCluster context));
    destruct (getCAData (getCluster context)) as [ca|e];
    destruct (String.eqb_spec (getClientCertificate context) "");
    destruct (String.eqb_spec (getClientKey context) "");
    try destruct (LoadX509KeyPair _ _);
    destruct (getClientCertificateData context) as [cd|];
    destruct (getClientKeyData context) as [kd|];
    try destruct (X509KeyPair _ _);
    cbn; intros [= <-]; (split; [done|]); eexists; done.
Qed.
End FactoryMore.

(** ** Adding clusters at run time *)

Section AddCluster.
Context `{NetLib, KubeLib}.
Implicit Types (c : HeadlampConfig.t) (w : ResponseWriter.t) (r : Request.t)
  (req : ClusterReq.t).

Lemma addCluster_ok c req w proxy :
  ClusterReq.Name req ≠ "" → ClusterReq.Server req ≠ "" →
  createProxyForContext c (contextOfRequest req) = Ok proxy →
  let c' :=
    HeadlampConfig.set_contextProxies
      (<[ClusterReq.Name req :=
           contextProxy.mk (contextOfRequest req) (Some proxy) DynamicCluster]>
         (HeadlampConfig.contextProxies c)) c in
  addCluster c (Ok req) w
  = (c', getConfig c' (ResponseWriter.WriteHeader StatusCreated w)).
Proof.
  intros Hname Hserver Hproxy c'. unfold addCluster.
  destruct (String.eqb_spec (ClusterReq.Name req) ""); [done|].
  destruct (String.eqb_spec (ClusterReq.Server req) ""); [done|].
  cbn [orb]. fold (contextOfRequest req). by rewrite Hproxy.
Qed.

(** X15. [POST /cluster]: a body that does not decode, that has an empty
    name or server, or whose proxy cannot be built is answered 400 and
    the registry stays as it was.  Otherwise the answer is 201 with the
    clusters then registered, and the registry holds, under the name of
    the request, the new context (without auth info) with source
    [DynamicCluster], in place of whatever was registered under that
    name; the entries of all other names are unchanged. *)
Theorem addCluster_outcomes c decoded w :
  ResponseWriter.status w = None →
  let res := addCluster c decoded w in
  ((∀ req, decoded = Ok req →
      ClusterReq.Name req = "" ∨ ClusterReq.Server req = ""
      ∨ ∃ e, createProxyForContext c (contextOfRequest req) = Err e) →
     res.1 = c ∧ ResponseWriter.status res.2 = Some StatusBadRequest)
  ∧ (∀ req proxy,
       decoded = Ok req →
       ClusterReq.Name req ≠ "" → ClusterReq.Server req ≠ "" →
       createProxyForContext c (contextOfRequest req) = Ok proxy →
       ResponseWriter.status res.2 = Some StatusCreated
       ∧ ResponseWriter.body res.2
         = ResponseWriter.body w ++ [ConfigJSON (getClusters res.1)]
       ∧ HeadlampConfig.contextProxies res.1 !! ClusterReq.Name req
         = Some (contextProxy.mk (contextOfRequest req) (Some proxy)
                   DynamicCluster)
       ∧ ∀ other, other ≠ ClusterReq.Name req →
           HeadlampConfig.contextProxies res.1 !! other
           = HeadlampConfig.contextProxies c !! other).
Proof.
  intros Hw res. subst res. split.
  - intros Hbad. unfold addCluster.
    destruct decoded as [req|e];
      [|cbn [fst snd]; split; [done|by apply http_Error_status]].
    destruct (String.eqb_spec (ClusterReq.Name req) "") as [|Hname];
      [cbn [orb fst snd]; split; [done|by apply http_Error_status]|].
    destruct (String.eqb_spec (ClusterReq.Server req) "") as [|Hserver];
      [cbn [orb fst snd]; split; [done|by apply http_Error_status]|].
    cbn [orb]. fold (contextOfRequest req).
    destruct (Hbad req eq_refl) as [?|[?|[e He]]]; [done|done|].
    rewrite He. cbn [fst snd]. split; [done|by apply http_Error_status].
  - intros req proxy -> Hname Hserver Hproxy.
    rewrite (addCluster_ok _ _ _ _ Hname Hserver Hproxy). cbn [fst snd].
    split; [|split; [|split]].
    + unfold getConfig. apply Write_status. cbn [ResponseWriter.status].
      by apply WriteHeader_status.
    + rewrite getConfig_body. unfold ResponseWriter.WriteHeader.
      by rewrite Hw.
    + apply lookup_insert_eq.
    + intros other Hne. cbn. by apply lookup_insert_ne.
Qed.

(** X16. A cluster added through [POST /cluster] can be deleted again, and
    the delete removes whatever stood under that name: after add and
    delete the registry is the original one without the name.  So the
    pair leaves the registry as it was when the name was new, and
    removes a kubeconfig or in-cluster entry when the name was theirs. *)
Theorem addCluster_then_deleteCluster c req proxy w w2 r :
  ResponseWriter.status w2 = None →
  ClusterReq.Name req ≠ "" → ClusterReq.Server req ≠ "" →
  createProxyForContext c (contextOfRequest req) = Ok proxy →
  muxVar r "name" = ClusterReq.Name req →
  let added := (addCluster c (Ok req) w).1 in
  let res := deleteCluster added w2 r in
  ResponseWriter.status res.2 = Some StatusOK
  ∧ HeadlampConfig.contextProxies res.1
    = delete (ClusterReq.Name req) (HeadlampConfig.contextProxies c)
  ∧ (HeadlampConfig.contextProxies c !! ClusterReq.Name req = None →
     HeadlampConfig.contextProxies res.1 = HeadlampConfig.contextProxies c).
Proof.
  intros Hw2 Hname Hserver Hproxy Hvar added res. subst added res.
  rewrite (addCluster_ok _ _ _ _ Hname Hserver Hproxy). cbn [fst].
  set (added :=
         HeadlampConfig.set_contextProxies
           (<[ClusterReq.Name req :=
                contextProxy.mk (contextOfRequest req) (Some proxy)
                  DynamicCluster]> (HeadlampConfig.contextProxies c)) c).
  assert (HeadlampConfig.contextProxies added !! muxVar r "name"
          = Some (contextProxy.mk (contextOfRequest req) (Some proxy)
                    DynamicCluster)) as Hcp.
  { rewrite Hvar. apply lookup_insert_eq. }
  rewrite (deleteCluster_dynamic _ _ _ _ Hcp eq_refl).
  cbn [fst snd]. split; [by apply getConfig_status|].
  rewrite Hvar. cbn. rewrite delete_insert_eq.
  split; [done|]. intros Hnone. by apply delete_id.
Qed.

(** X17. A request routed to a cluster that was added through [POST
    /cluster]: with an Authorization value it is relayed to the host of
    the cluster's server, the header unchanged; without one the handler
    reads the token through the nil auth info of that context and
    panics. *)
Theorem added_cluster_requests c req proxy w changed w2 r :
  ClusterReq.Name req ≠ "" → ClusterReq.Server req ≠ "" →
  createProxyForContext c (contextOfRequest req) = Ok proxy →
  muxVar r "clusterName" = ClusterReq.Name req →
  let added := (addCluster c (Ok req) w).1 in
  (Header_Get (Request.Header r) "Authorization" = "" →
     clusterRequestHandler added changed w2 r = Panics)
  ∧ (Header_Get (Request.Header r) "Authorization" ≠ "" →
     ∃ w' r',
       clusterRequestHandler added changed w2 r
         = Returns (w', [Relay proxy r'])
       ∧ Request.Host r' = URL.Host (ReverseProxy.Target proxy)
       ∧ Request.Header r' !! "Authorization"
         = Request.Header r !! "Authorization").
Proof.
  intros Hname Hserver Hproxy Hvar added. subst added.
  rewrite (addCluster_ok _ _ _ _ Hname Hserver Hproxy). cbn [fst].
  pose proof (createProxyForContext_Target _ _ _ Hproxy) as Hurl.
  unfold clusterRequestHandler. rewrite Hvar.
  cbn [HeadlampConfig.contextProxies HeadlampConfig.set_contextProxies].
  rewrite lookup_insert_eq.
  cbn [contextProxy.context contextProxy.proxy].
  change (getServer (Context.cluster (contextOfRequest req)))
    with (getServer (getCluster (contextOfRequest req))).
  rewrite Hurl. split.
  - by intros ->.
  - intros Hauth.
    destruct (String.eqb_spec (Header_Get (Request.Header r) "Authorization") "");
      [done|].
    destruct (proxyHandler_relays (ReverseProxy.Target proxy) proxy changed w2 r)
      as (w' & r' & -> & Hhdr & Hhost).
    eauto.
Qed.
End AddCluster.

(** ** The registry at start-up and the configuration answer *)

Section Startup.
Context `{NetLib, KubeLib}.
Implicit Types (c : HeadlampConfig.t) (context : Context.t)
  (contexts : list Context.t).

(** The factory reads the registry nowhere. *)
Lemma createProxyForContext_registry c m context :
  createProxyForContext (HeadlampConfig.set_contextProxies m c) context
  = createProxyForContext c context.
Proof. done. Qed.

Lemma registerContexts_app c contexts1 contexts2 :
  registerContexts c (contexts1 ++ contexts2)
  = registerContexts (registerContexts c contexts1) contexts2.
Proof.
  revert c. induction contexts1 as [|context contexts1 IH]; intros c; [done|].
  cbn [app registerContexts].
  destruct (createProxyForContext c context); apply IH.
Qed.

(** The factory answers the same after any registration. *)
Lemma createProxyForContext_registerContexts c contexts context :
  createProxyForContext (registerContexts c contexts) context
  = createProxyForContext c context.
Proof.
  revert c. induction contexts as [|x contexts IH]; intros c; [done|].
  cbn [registerContexts]. destruct (createProxyForContext c x); rewrite IH; done.
Qed.

(** What the loop leaves under each name. *)
Lemma registerContexts_lookup c contexts name cp :
  HeadlampConfig.contextProxies (registerContexts c contexts) !! name = Some cp →
  HeadlampConfig.contextProxies c !! name = Some cp
  ∨ (contextProxy.source cp = KubeConfig
     ∧ contextProxy.context cp ∈ contexts
     ∧ Context.Name (contextProxy.context cp) = name
     ∧ createProxyForContext c (contextProxy.context cp)
       = from_option Ok (Err "") (contextProxy.proxy cp)
     ∧ is_Some (contextProxy.proxy cp)).
Proof.
  revert c. induction contexts as [|x contexts IH]; intros c; [by left|].
  cbn [registerContexts].
  destruct (createProxyForContext c x) as [proxy|e] eqn:Hx.
  - intros [Hin|(Hsrc & Hin & Hname & Hproxy & Hsome)]%IH.
    + cbn in Hin. destruct (decide (Context.Name x = name)) as [<-|Hne].
      * rewrite lookup_insert_eq in Hin. injection Hin as <-. right.
        cbn. split; [done|]. split; [apply list_elem_of_here|].
        split; [done|]. split; [done|eauto].
      * rewrite lookup_insert_ne in Hin by done. by left.
    + right. split; [done|]. split; [by apply list_elem_of_further|].
      split; [done|]. split; [|done].
      by rewrite createProxyForContext_registry in Hproxy.
  - intros [Hin|(Hsrc & Hin & Hname & Hproxy & Hsome)]%IH; [by left|].
    right. split; [done|]. split; [by apply list_elem_of_further|]. done.
Qed.

(** X18. A kubeconfig context whose proxy cannot be built does not keep the
    others from being registered: the registry after the loop is the one
    the loop builds without that context. *)
Theorem registerContexts_skips c contexts1 bad contexts2 e :
  createProxyForContext c bad = Err e →
  registerContexts c (contexts1 ++ bad :: contexts2)
  = registerContexts c (contexts1 ++ contexts2).
Proof.
  intros Hbad. rewrite !registerContexts_app. cbn [registerContexts].
  by rewrite createProxyForContext_registerContexts, Hbad.
Qed.

(** X19. Every cluster registered when the handler is created, the server's
    own or one of the kubeconfig, is refused by
    [DELETE /cluster/{name}] with 403 and stays registered. *)
Theorem initialRegistry_not_deletable c own contexts c' w r :
  initialRegistry c own contexts = Returns c' →
  ResponseWriter.status w = None →
  is_Some (HeadlampConfig.contextProxies c' !! muxVar r "name") →
  (deleteCluster c' w r).1 = c'
  ∧ ResponseWriter.status (deleteCluster c' w r).2 = Some StatusForbidden.
Proof.
  intros Hinit Hw [cp Hcp].
  assert (contextProxy.source cp ≠ DynamicCluster) as Hsrc.
  { unfold initialRegistry in Hinit. cbv zeta in Hinit.
    destruct (HeadlampConfig.useInCluster _).
    - unfold registerOwnContext in Hinit. destruct own as [context|]; [|done].
      injection Hinit as <-.
      apply registerContexts_lookup in Hcp as [Hcp|(-> & _)]; [|done].
      cbn in Hcp. destruct (decide (Context.Name context = muxVar r "name")) as [Heq|Hne].
      + rewrite Heq, lookup_insert_eq in Hcp. by injection Hcp as <-.
      + by rewrite lookup_insert_ne, lookup_empty in Hcp.
    - injection Hinit as <-.
      apply registerContexts_lookup in Hcp as [Hcp|(-> & _)]; [|done].
      cbn in Hcp. by rewrite lookup_empty in Hcp. }
  rewrite (deleteCluster_static _ _ _ _ Hcp Hsrc). cbn [fst snd].
  split; [done|by apply http_Error_status].
Qed.

(** X20. [GET /config] answers 200 with one cluster for each registered
    name: a cluster is in the answer exactly when it is the cluster of
    the context registered under some name. *)
Theorem getConfig_lists_registry c w :
  ResponseWriter.status w = None →
  ResponseWriter.status (getConfig c w) = Some StatusOK
  ∧ ResponseWriter.body (getConfig c w)
    = ResponseWriter.body w ++ [ConfigJSON (getClusters c)]
  ∧ length (getClusters c) = size (HeadlampConfig.contextProxies c)
  ∧ ∀ cluster,
      cluster ∈ getClusters c
      ↔ ∃ name cp,
          HeadlampConfig.contextProxies c !! name = Some cp
          ∧ cluster = getCluster (contextProxy.context cp).
Proof.
  intros Hw. split; [by apply getConfig_status|]. split; [apply getConfig_body|].
  unfold getClusters. split.
  - by rewrite length_fmap, length_map_to_list.
  - intros cluster. rewrite list_elem_of_fmap. split.
    + intros ([name cp] & -> & Hin%elem_of_map_to_list). eauto.
    + intros (name & cp & Hcp & ->). exists (name, cp). split; [done|].
      by apply elem_of_map_to_list.
Qed.
End Startup.

(** ** How the [/externalproxy] handler ends *)

Section ExternalProxy.
Context `{NetLib}.

Lemma isURLContainedInProxyURLs_None url proxyURLs :
  isURLContainedInProxyURLs url proxyURLs = None
  ↔ ∃ before bad after,
      proxyURLs = before ++ bad :: after
      ∧ glob_Match bad url = None
      ∧ ∀ pattern, pattern ∈ before → glob_Match pattern url = Some false.
Proof.
  induction proxyURLs as [|pattern rest IH]; cbn [isURLContainedInProxyURLs].
  - split; [done|]. intros (before & bad & after & Heq & _).
    by destruct before.
  - destruct (glob_Match pattern url) as [[]|] eqn:Hm.
    + split; [done|]. intros ([|p before] & bad & after & [= -> ->] & Hbad & Hbefore).
      * congruence.
      * specialize (Hbefore p (list_elem_of_here _ _)). congruence.
    + rewrite IH. split.
      * intros (before & bad & after & -> & Hbad & Hbefore).
        exists (pattern :: before), bad, after. split; [done|]. split; [done|].
        intros p [->|Hp]%elem_of_cons; auto.
      * intros ([|p before] & bad & after & [= -> ->] & Hbad & Hbefore).
        -- congruence.
        -- exists before, bad, after. split; [done|]. split; [done|].
           intros q Hq. apply Hbefore. by apply list_elem_of_further.
    + split; [|done]. intros _. exists [], pattern, rest. split; [done|].
      split; [done|]. by intros p ?%elem_of_nil.
Qed.

(** X21. The two ways in which a request to [/externalproxy] takes the
    server down instead of being answered.  A [proxy-to] value that
    [url.Parse] rejects ends the process through [log.Fatal].  A
    configured pattern that does not compile makes the handler panic,
    but only for requests that reach it: those whose URL none of the
    patterns before it matches. *)
Theorem externalproxyHandler_crashes config w r :
  let target := Header_Get (Request.Header r) "Proxy-To" in
  (externalproxyHandler config w r = Exits ↔ url_Parse target = None)
  ∧ (externalproxyHandler config w r = Panics
     ↔ ∃ url before bad after,
         url_Parse target = Some url
         ∧ HeadlampConfig.proxyURLs config = before ++ bad :: after
         ∧ glob_Match bad (url_String url) = None
         ∧ ∀ pattern, pattern ∈ before →
             glob_Match pattern (url_String url) = Some false).
Proof.
  intros target. subst target. unfold externalproxyHandler.
  destruct (url_Parse _) as [url|].
  - destruct (isURLContainedInProxyURLs _ _) as [contained|] eqn:Hc.
    + split; [done|]. split; [done|].
      intros (url' & before & bad & after & [= <-] & Hrest).
      assert (isURLContainedInProxyURLs (url_String url)
                (HeadlampConfig.proxyURLs config) = None) as Hnone
        by (apply isURLContainedInProxyURLs_None; eauto).
      congruence.
    + split; [done|]. split; [|done]. intros _.
      apply isURLContainedInProxyURLs_None in Hc
        as (before & bad & after & Hc). eauto 10.
  - split; [done|]. split; [done|]. by intros (url & ? & ? & ? & [=] & _).
Qed.
End ExternalProxy.

(** ** The OIDC flow from [/oidc] to [/oidc-callback] *)

Section Base64Facts.
Import Base64.

Lemma dec6_enc6 k : k < 64 → dec6 (enc6 k) = Some k.
Proof.
  intros Hk. do 64 (destruct k as [|k]; [reflexivity|]). lia.
Qed.

Lemma isNewline_enc6 k : k < 64 → isNewline (enc6 k) = false.
Proof.
  intros Hk. do 64 (destruct k as [|k]; [reflexivity|]). lia.
Qed.

(** The four sextets of three bytes, and the bytes back from them. *)
Lemma sextets a b c :
  a < 256 → b < 256 → c < 256 →
  a / 4 < 64 ∧ a mod 4 * 16 + b / 16 < 64 ∧ b mod 16 * 4 + c / 64 < 64
  ∧ c mod 64 < 64
  ∧ a / 4 * 4 + (a mod 4 * 16 + b / 16) / 16 = a
  ∧ (a mod 4 * 16 + b / 16) mod 16 * 16 + (b mod 16 * 4 + c / 64) / 4 = b
  ∧ (b mod 16 * 4 + c / 64) mod 4 * 64 + c mod 64 = c.
Proof. intros. zify. Z.div_mod_to_equations. lia. Qed.

(** Lists are taken three bytes at a time. *)
Lemma triples_ind (P : list nat → Prop) :
  P [] → (∀ a, P [a]) → (∀ a b, P [a; b]) →
  (∀ a b c rest, P rest → P (a :: b :: c :: rest)) →
  ∀ bs, P bs.
Proof.
  intros Hnil Hone Htwo Hmore bs.
  assert (∀ n bs, length bs ≤ n → P bs) as Hall; [|by apply (Hall (length bs))].
  clear bs. intros n. induction n as [n IH] using lt_wf_ind.
  intros [|a [|b [|c rest]]] Hlen; [done|done|done|].
  apply Hmore. apply (IH (length rest)); cbn in Hlen; lia.
Qed.

Lemma encodeBytes_no_newline bs :
  Forall (λ b, b < 256) bs →
  filter (λ c, isNewline c = false) (encodeBytes bs) = encodeBytes bs.
Proof.
  induction bs as [|a|a b|a b c rest IH] using triples_ind.
  - done.
  - intros [Ha _]%Forall_cons. cbn [encodeBytes].
    destruct (sextets a 0 0) as (? & Hy & _); [lia..|].
    rewrite Nat.add_0_r in Hy.
    by rewrite !filter_cons, !isNewline_enc6.
  - intros [Ha [Hb _]%Forall_cons]%Forall_cons. cbn [encodeBytes].
    destruct (sextets a b 0) as (? & ? & Hz & _); [lia..|].
    rewrite Nat.add_0_r in Hz.
    by rewrite !filter_cons, !isNewline_enc6.
  - intros [Ha [Hb [Hc Hrest]%Forall_cons]%Forall_cons]%Forall_cons.
    cbn [encodeBytes].
    destruct (sextets a b c) as (? & ? & ? & ? & _); [lia..|].
    by rewrite !filter_cons, !isNewline_enc6, (IH Hrest).
Qed.

Lemma decodeQuanta_encodeBytes bs :
  Forall (λ b, b < 256) bs → decodeQuanta (encodeBytes bs) = (bs, false).
Proof.
  induction bs as [|a|a b|a b c rest IH] using triples_ind.
  - done.
  - intros [Ha _]%Forall_cons. cbn [encodeBytes decodeQuanta].
    destruct (sextets a 0 0) as (? & Hy & _ & _ & Hx & _); [lia..|].
    rewrite Nat.add_0_r in Hy, Hx.
    rewrite !dec6_enc6 by done.
    change (dec6 pad) with (@None nat). change (isPad pad) with true.
    cbn [andb nonEmpty]. by rewrite Hx.
  - intros [Ha [Hb _]%Forall_cons]%Forall_cons. cbn [encodeBytes decodeQuanta].
    destruct (sextets a b 0) as (? & ? & Hz & _ & Hx & Hy & _); [lia..|].
    rewrite Nat.add_0_r in Hz, Hy.
    rewrite !dec6_enc6 by done.
    change (dec6 pad) with (@None nat). change (isPad pad) with true.
    cbn [nonEmpty]. by rewrite Hx, Hy.
  - intros [Ha [Hb [Hc Hrest]%Forall_cons]%Forall_cons]%Forall_cons.
    cbn [encodeBytes decodeQuanta].
    destruct (sextets a b c) as (? & ? & ? & ? & Hx & Hy & Hz); [lia..|].
    rewrite !dec6_enc6 by done. rewrite (IH Hrest). by rewrite Hx, Hy, Hz.
Qed.

(** What [EncodeToString] gives, [DecodeString] reads back without an
    error. *)
Lemma DecodeString_EncodeToString s :
  DecodeString (EncodeToString s) = (s, false).
Proof.
  unfold DecodeString, EncodeToString.
  rewrite String.list_ascii_of_string_of_list_ascii.
  assert (Forall (λ b, b < 256)
            (Ascii.nat_of_ascii <$> String.list_ascii_of_string s)) as Hbytes.
  { apply Forall_fmap, Forall_forall. intros c _. apply Ascii.nat_ascii_bounded. }
  rewrite (encodeBytes_no_newline _ Hbytes), (decodeQuanta_encodeBytes _ Hbytes).
  f_equal. rewrite <- list_fmap_compose.
  rewrite <- (String.string_of_list_ascii_of_string s) at 2. f_equal.
  clear Hbytes. induction (String.list_ascii_of_string s) as [|c l IH]; [done|].
  cbn. by rewrite Ascii.ascii_nat_embedding, IH.
Qed.

Lemma EncodeToString_inj s t :
  EncodeToString s = EncodeToString t → s = t.
Proof.
  intros Heq.
  pose proof (DecodeString_EncodeToString s) as Hs.
  rewrite Heq, DecodeString_EncodeToString in Hs. congruence.
Qed.

Lemma EncodeToString_nonempty s : s ≠ "" → EncodeToString s ≠ "".
Proof. intros Hs Heq. by apply Hs, EncodeToString_inj. Qed.
End Base64Facts.

Section OidcFlow.
Context `{OidcLib}.
Implicit Types (config : HeadlampConfig.t) (m : OauthRequestMap)
  (w : ResponseWriter.t) (r : Request.t).

Lemma http_Redirect_superfluous w url code code' :
  ResponseWriter.status w = Some code →
  ResponseWriter.status (http_Redirect url code' w) = Some code.
Proof.
  intros Hw. unfold http_Redirect. cbv zeta.
  destruct (bool_decide _).
  - by apply WriteHeader_superfluous.
  - by apply Write_status, WriteHeader_superfluous.
Qed.

(** The Location header that goes out with a redirect. *)
Lemma http_Redirect_Location w url code :
  ResponseWriter.status w = None →
  Header_Get (ResponseWriter.sent (http_Redirect url code w)) "Location"
  = hexEscapeNonASCII url.
Proof.
  intros Hw. unfold http_Redirect. cbv zeta.
  destruct (bool_decide _);
    unfold ResponseWriter.Write, ResponseWriter.WriteHeader,
      ResponseWriter.setHeader; cbn; rewrite Hw; cbn;
    unfold Header_Get, Header_Set.
  - by rewrite lookup_insert_eq.
  - by rewrite lookup_insert_ne, lookup_insert_eq.
Qed.

(** A URL of ASCII bytes is not changed by the escaping. *)
Lemma hexEscapeNonASCII_ascii s :
  (∀ c, c ∈ String.list_ascii_of_string s → Ascii.nat_of_ascii c < 128) →
  hexEscapeNonASCII s = s.
Proof.
  induction s as [|c s IH]; [done|]. cbn [String.list_ascii_of_string].
  intros Hall. cbn [hexEscapeNonASCII]. cbv zeta.
  destruct (Nat.leb_spec 128 (Ascii.nat_of_ascii c)) as [Hc|_].
  - specialize (Hall c (list_elem_of_here _ _)). lia.
  - f_equal. apply IH. intros a Ha. apply Hall. by apply list_elem_of_further.
Qed.

(** X22. The callback answers 303 only at the end of the whole chain: the
    state is not empty, is well-formed base64 and names a pending flow;
    the code is exchanged with that flow's configuration; the token
    answer has an id_token; that flow's verifier accepts it and its
    claims can be read.  In every other case the status is 400 or 500. *)
Theorem oidcCallbackHandler_redirects_iff config m w r :
  let state := Request.QueryGet r "state" in
  let answer := (oidcCallbackHandler config m w r).2 in
  ResponseWriter.status w = None →
  (ResponseWriter.status answer = Some StatusSeeOther
   ↔ state ≠ "" ∧ (Base64.DecodeString state).2 = false
     ∧ ∃ oauthConfig oauth2Token rawIDToken idToken,
         m !! state = Some oauthConfig
         ∧ Exchange oauthConfig (Request.QueryGet r "code") = Ok oauth2Token
         ∧ OAuth2Token.id_token oauth2Token = Some rawIDToken
         ∧ Verify oauthConfig rawIDToken = Ok idToken
         ∧ Claims idToken = None)
  ∧ (ResponseWriter.status answer = Some StatusSeeOther
     ∨ ResponseWriter.status answer = Some StatusBadRequest
     ∨ ResponseWriter.status answer = Some StatusInternalServerError).
Proof.
  intros state answer Hw. subst state answer. unfold oidcCallbackHandler.
  destruct (Base64.DecodeString _) as [decodedState err]. cbn [snd].
  destruct err.
  - set (w1 := http_Error _ _ w).
    assert (ResponseWriter.status w1 = Some StatusBadRequest) as Hw1
      by (by apply http_Error_status).
    clearbody w1.
    assert (∀ w', ResponseWriter.status w' = Some StatusBadRequest →
              (ResponseWriter.status w' = Some StatusSeeOther
               ↔ Request.QueryGet r "state" ≠ "" ∧ true = false
                 ∧ ∃ oauthConfig oauth2Token rawIDToken idToken,
                     m !! Request.QueryGet r "state" = Some oauthConfig
                     ∧ Exchange oauthConfig (Request.QueryGet r "code")
                       = Ok oauth2Token
                     ∧ OAuth2Token.id_token oauth2Token = Some rawIDToken
                     ∧ Verify oauthConfig rawIDToken = Ok idToken
                     ∧ Claims idToken = None)
              ∧ (ResponseWriter.status w' = Some StatusSeeOther
                 ∨ ResponseWriter.status w' = Some StatusBadRequest
                 ∨ ResponseWriter.status w' = Some StatusInternalServerError))
      as Hbad.
    { intros w' ->. split; [|by right; left]. split; [done|]. by intros (_ & ? & _). }
    destruct (String.eqb _ ""); cbn [snd];
      [by apply Hbad, http_Error_superfluous|].
    destruct (m !! _) as [oauthConfig|]; cbn [snd];
      [|by apply Hbad, http_Error_superfluous].
    destruct (Exchange _ _) as [oauth2Token|e]; cbn [snd];
      [|by apply Hbad, http_Error_superfluous].
    destruct (OAuth2Token.id_token _) as [rawIDToken|]; cbn [snd];
      [|by apply Hbad, http_Error_superfluous].
    destruct (Verify _ _) as [idToken|e]; cbn [snd];
      [|by apply Hbad, http_Error_superfluous].
    destruct (Claims _); cbn [snd];
      [by apply Hbad, http_Error_superfluous
      |by apply Hbad, http_Redirect_superfluous].
  - destruct (String.eqb_spec (Request.QueryGet r "state") "") as [Hempty|Hstate];
      cbn [snd].
    { rewrite (http_Error_status _ _ _ Hw). split; [|by right; left].
      split; [done|]. by intros (? & _). }
    destruct (m !! _) as [oauthConfig|] eqn:Hm; cbn [snd].
    2:{ rewrite (http_Error_status _ _ _ Hw). split; [|by right; left].
        split; [done|]. by intros (_ & _ & ? & ? & ? & ? & ? & _). }
    destruct (Exchange _ _) as [oauth2Token|e] eqn:Hex; cbn [snd].
    2:{ rewrite (http_Error_status _ _ _ Hw). split; [|by right; right].
        split; [done|].
        intros (_ & _ & ? & ? & ? & ? & [= <-] & ? & _). congruence. }
    destruct (OAuth2Token.id_token _) as [rawIDToken|] eqn:Hid; cbn [snd].
    2:{ rewrite (http_Error_status _ _ _ Hw). split; [|by right; right].
        split; [done|].
        intros (_ & _ & ? & ? & ? & ? & [= <-] & ? & ? & _). congruence. }
    destruct (Verify _ _) as [idToken|e] eqn:Hver; cbn [snd].
    2:{ rewrite (http_Error_status _ _ _ Hw). split; [|by right; right].
        split; [done|].
        intros (_ & _ & ? & ? & ? & ? & [= <-] & ? & ? & ? & _). congruence. }
    destruct (Claims _) as [e|] eqn:Hcl; cbn [snd].
    { rewrite (http_Error_status _ _ _ Hw). split; [|by right; right].
      split; [done|].
      intros (_ & _ & ? & ? & ? & ? & [= <-] & ? & ? & ? & ?). congruence. }
    rewrite (http_Redirect_status _ _ _ Hw). split; [|by left].
    split; [|done]. intros _. split; [done|]. split; [done|]. eauto 10.
Qed.


(** X24. The state carries the cluster through the flow.  After a login for
    a cluster (with a non-empty name) has been redirected, a callback
    that brings back the state of that login and passes the exchange
    and the verification is redirected, 303, to the frontend's [auth]
    page.  The URL is built from that same cluster name and the raw ID
    token, each as [fmt] pads it ([%1s] and [%2s]), and Location is
    that URL with its non-ASCII bytes escaped. *)
Theorem oidc_flow_returns_cluster config m w r w2 r2 oauth2Token rawIDToken idToken :
  let cluster := Request.QueryGet r "cluster" in
  let started := oidcHandler config m w r in
  let answer := (oidcCallbackHandler config started.1 w2 r2).2 in
  let redirectURL :=
    (if HeadlampConfig.devMode config then "http://localhost:3000/" else "/")
      +:+ "auth?cluster=" +:+ padLeft 1 cluster
      +:+ "&token=" +:+ padLeft 2 rawIDToken in
  ResponseWriter.status w = None →
  ResponseWriter.status w2 = None →
  cluster ≠ "" →
  ResponseWriter.status started.2 = Some StatusFound →
  Request.QueryGet r2 "state" = Base64.EncodeToString cluster →
  (∀ oauthConfig,
     started.1 !! Base64.EncodeToString cluster = Some oauthConfig →
     Exchange oauthConfig (Request.QueryGet r2 "code") = Ok oauth2Token
     ∧ Verify oauthConfig rawIDToken = Ok idToken) →
  OAuth2Token.id_token oauth2Token = Some rawIDToken →
  Claims idToken = None →
  ResponseWriter.status answer = Some StatusSeeOther
  ∧ Header_Get (ResponseWriter.sent answer) "Location"
    = hexEscapeNonASCII redirectURL
  ∧ ((∀ c, c ∈ String.list_ascii_of_string redirectURL →
           Ascii.nat_of_ascii c < 128) →
     Header_Get (ResponseWriter.sent answer) "Location" = redirectURL).
Proof.
  intros cluster started answer redirectURL Hw Hw2 Hcluster Hfound Hstate
    Hlib Hid Hclaims.
  subst answer.
  destruct (oidcHandler_records_state config m w r Hw Hfound)
    as [oauthConfig Hcfg].
  fold cluster in Hcfg. fold started in Hcfg.
  destruct (Hlib _ Hcfg) as [Hex Hver].
  unfold oidcCallbackHandler.
  rewrite Hstate, DecodeString_EncodeToString.
  destruct (String.eqb_spec (Base64.EncodeToString cluster) "") as [Hempty|_];
    [by apply EncodeToString_nonempty in Hempty|].
  rewrite Hcfg, Hex, Hid, Hver, Hclaims. cbn [snd]. fold redirectURL.
  split; [by apply http_Redirect_status|].
  rewrite (http_Redirect_Location _ _ _ Hw2). split; [done|].
  intros Hascii. by apply hexEscapeNonASCII_ascii.
Qed.

Lemma list_ascii_of_string_app (s t : string) :
  String.list_ascii_of_string (s +:+ t)
  = String.list_ascii_of_string s ++ String.list_ascii_of_string t.
Proof.
  induction s as [|c s IH]; [done|].
  change (String c s +:+ t) with (String c (s +:+ t)). cbn. by rewrite IH.
Qed.

Lemma trimLeft_snoc c l :
  trimLeft c (l ++ [c])
  = match trimLeft c l with [] => [] | x :: l' => x :: l' ++ [c] end.
Proof.
  induction l as [|a l IH]; cbn [app trimLeft].
  - by rewrite Ascii.eqb_refl.
  - destruct (Ascii.eqb a c); [exact IH|done].
Qed.

Lemma TrimSlash_leading s : TrimSlash ("/" +:+ s) = TrimSlash s.
Proof. done. Qed.

Lemma TrimSlash_trailing s : TrimSlash (s +:+ "/") = TrimSlash s.
Proof.
  unfold TrimSlash. cbv zeta. rewrite list_ascii_of_string_app.
  change (String.list_ascii_of_string "/") with [Ascii.ascii_of_nat 47].
  rewrite trimLeft_snoc.
  destruct (trimLeft _ (String.list_ascii_of_string s)) as [|x l]; [done|].
  rewrite app_comm_cons, rev_app_distr. cbn [rev app trimLeft].
  by rewrite Ascii.eqb_refl.
Qed.

(** X25. The callback URL does not depend on how the base URL is written:
    a leading or a trailing slash changes nothing (repeated, this covers
    any number of them), and a base URL made of slashes only counts as
    none. *)
Theorem getOidcCallbackURL_slashes r config b :
  getOidcCallbackURL r (set_baseURL ("/" +:+ b) config)
  = getOidcCallbackURL r (set_baseURL b config)
  ∧ getOidcCallbackURL r (set_baseURL (b +:+ "/") config)
    = getOidcCallbackURL r (set_baseURL b config)
  ∧ (TrimSlash b = "" →
     getOidcCallbackURL r (set_baseURL b config)
     = getOidcCallbackURL r (set_baseURL "" config)).
Proof.
  unfold getOidcCallbackURL. cbn [HeadlampConfig.baseURL set_baseURL].
  rewrite TrimSlash_leading, TrimSlash_trailing.
  split; [done|]. split; [done|]. by intros ->.
Qed.
End OidcFlow.

(** ** The listing after a session has been closed *)

Section Listing.
Context `{JsonLib}.
Implicit Types (pfs : PortForwards) (w : ResponseWriter.t) (r : Request.t)
  (v u : PortForward.t).

(** X26. [DELETE /portforward] followed by [GET /portforward/list] for the
    same cluster, on an index the package can reach and for a session
    [v] that is there: the listing is the JSON of the cluster's list
    as the close left it (200).  After a delete that list is one
    shorter and holds no session with the id.  After a stop, when the
    forwarder of [v] was waiting to receive, the list is as long as
    before and holds [v] with status Stopped; when it was not, the
    DELETE is never answered and the list is the one from before, [v]
    in it with the status it had. *)
Theorem portforwardListHandler_after_close dp pfs receiving w w2 r v :
  let cluster := deletePayload.Cluster dp in
  let id := deletePayload.ID dp in
  let closed := portforwardDeleteHandler (Ok dp) pfs receiving w in
  let pfs' := closed.1.1 in
  let listed := getPortForwardList cluster pfs' in
  ResponseWriter.status w2 = None →
  reachable pfs →
  cluster ≠ "" → id ≠ "" →
  Request.QueryGet r "cluster" = cluster →
  v ∈ getPortForwardList cluster pfs → PortForward.ID v = id →
  (∀ json, MarshalPortForwards listed = Ok json →
     ResponseWriter.status (portforwardListHandler pfs' w2 r) = Some StatusOK
     ∧ ResponseWriter.body (portforwardListHandler pfs' w2 r)
       = ResponseWriter.body w2 ++ [Text json])
  ∧ (deletePayload.StopOrDelete dp = false →
     length listed + 1 = length (getPortForwardList cluster pfs)
     ∧ ∀ u, u ∈ listed → PortForward.ID u ≠ id)
  ∧ (deletePayload.StopOrDelete dp = true →
     receives (PortForward.closeChan v) receiving = true →
     length listed = length (getPortForwardList cluster pfs)
     ∧ PortForward.set_Status STOPPED v ∈ listed)
  ∧ (deletePayload.StopOrDelete dp = true →
     receives (PortForward.closeChan v) receiving = false →
     closed.2 = Blocks
     ∧ listed = getPortForwardList cluster pfs
     ∧ v ∈ listed).
Proof.
  intros cluster id closed pfs' listed Hw2 Hreach Hcl Hid Hquery Hv Hv'.
  subst listed. split.
  - intros json Hjson. unfold portforwardListHandler. rewrite Hquery.
    destruct (String.eqb_spec cluster ""); [done|].
    rewrite Hjson. split.
    + by rewrite (json_written_status _ _ _ Hw2).
    + apply json_written_body.
  - pose proof (reachable_idsUnique pfs Hreach cluster) as Hnd.
    destruct (found_in_list _ _ _ Hv) as (l & Hl & Hlist).
    rewrite Hlist in *.
    destruct (findByID_elem_of id l v Hv Hv') as [[i x] Hfind].
    assert (x = v) as -> by (symmetry; by eapply findByID_unique).
    pose proof Hfind as (Hi & _ & _)%findByID_Some.
    subst pfs' closed. unfold portforwardDeleteHandler.
    fold id cluster.
    destruct (String.eqb_spec id ""); [done|].
    destruct (String.eqb_spec cluster ""); [done|].
    split; [|split].
    + intros ->.
      rewrite (stopOrDeletePortForward_delete _ _ _ _ _ _ _ Hl Hfind).
      cbn [fst snd]. rewrite getPortForwardList_insert.
      destruct (decide (cluster = cluster)); [|done].
      split.
      * rewrite <- (take_drop_middle l i v Hi) at 3.
        rewrite !length_app. cbn [length]. lia.
      * intros u Hu. rewrite <- Hv'.
        apply (idsUnique_middle (take i l) v (drop (S i) l)); [|done].
        by rewrite take_drop_middle.
    + intros -> Hrecv.
      rewrite (stopOrDeletePortForward_stop _ _ _ _ _ _ _ Hl Hfind Hrecv).
      cbn [fst snd]. rewrite getPortForwardList_insert.
      destruct (decide (cluster = cluster)); [|done].
      split; [by rewrite length_insert|].
      apply list_elem_of_lookup. exists i.
      apply list_lookup_insert_eq. by eapply lookup_lt_Some.
    + intros -> Hrecv.
      rewrite (stopOrDeletePortForward_blocks _ _ _ _ _ _ _ Hl Hfind Hrecv).
      cbn [fst snd]. by rewrite Hlist.
Qed.
End Listing.

(** ** The further properties on concrete runs *)

Section MoreRuns.
Import Sample Scenario.

Lemma index2_list :
  getPortForwardList "c1" index2
  = [session "c1" "a" 0 RUNNING; session "c1" "b" 1 RUNNING].
Proof. reflexivity. Qed.

Lemma index2_b : session "c1" "b" 1 RUNNING ∈ getPortForwardList "c1" index2.
Proof. rewrite index2_list. apply list_elem_of_further, list_elem_of_here. Qed.

Lemma index2_no_zz v :
  v ∈ getPortForwardList "c1" index2 → PortForward.ID v ≠ "zz".
Proof.
  rewrite index2_list.
  intros [->|[->|[]%elem_of_nil]%elem_of_cons]%elem_of_cons; discriminate.
Qed.

(** A body without id and port and the header [Bearer tok123]. *)
Lemma portforwardPostHandler_Bearer_witness :
  Header_Get (Request.Header bearerRequest) "Authorization" = "Bearer tok123"
  ∧ occursIn "Bearer " "tok123" = false
  ∧ validatePortForward openRequest = None
  ∧ portforwardPostHandler (Ok openRequest) "fresh" bearerRequest
      ResponseWriter.new
    = Returns
        (Validated
           (PortForwardPayload.mk "fresh" "ns1" "pod1" "" "" "8080" "c1" "")
           "tok123").
Proof.
  destruct (portforwardPostHandler_Bearer openRequest "fresh" bearerRequest
              ResponseWriter.new "tok123" eq_refl eq_refl eq_refl)
    as [Hvalid _].
  split; [reflexivity|]. split; [reflexivity|]. split; [reflexivity|].
  exact (Hvalid eq_refl).
Defined.

(** Stopping session [b] is a 200 while its forwarder receives and is
    never answered once it does not; an unknown id is a 500, an empty
    id a 400. *)
Lemma portforwardDeleteHandler_responses_witness :
  ResponseWriter.status ResponseWriter.new = None
  ∧ (∃ w',
       (portforwardDeleteHandler (Ok (closeRequest "b" true)) index2
          bothReceiving ResponseWriter.new).2 = Completes w'
       ∧ ResponseWriter.status w' = Some StatusOK)
  ∧ (portforwardDeleteHandler (Ok (closeRequest "b" true)) onceStopped
       (afterSends [Send (Some 1)] bothReceiving) ResponseWriter.new).2
    = Blocks
  ∧ (∃ w',
       (portforwardDeleteHandler (Ok (closeRequest "zz" true)) index2
          bothReceiving ResponseWriter.new).2 = Completes w'
       ∧ ResponseWriter.status w' = Some StatusInternalServerError)
  ∧ (∃ w',
       (portforwardDeleteHandler (Ok (closeRequest "" true)) index2
          bothReceiving ResponseWriter.new).2 = Completes w'
       ∧ ResponseWriter.status w' = Some StatusBadRequest).
Proof.
  destruct (portforwardDeleteHandler_responses (Ok (closeRequest "b" true))
              index2 bothReceiving ResponseWriter.new eq_refl) as [_ Hb].
  destruct (Hb _ eq_refl ltac:(discriminate) ltac:(discriminate))
    as (_ & Hfound & _).
  destruct Hfound as [Hok _].
  { exists (session "c1" "b" 1 RUNNING).
    split; [exact index2_b|reflexivity]. }
  destruct Hok as (w1 & Hw1 & Hst1 & _).
  { right. vm_compute. reflexivity. }
  destruct (portforwardDeleteHandler_responses (Ok (closeRequest "b" true))
              onceStopped (afterSends [Send (Some 1)] bothReceiving)
              ResponseWriter.new eq_refl) as [_ Hagain].
  destruct (Hagain _ eq_refl ltac:(discriminate) ltac:(discriminate))
    as (_ & Hfound' & _).
  destruct Hfound' as [_ Hblocks].
  { exists (session "c1" "b" 1 STOPPED). split; [|reflexivity].
    change (session "c1" "b" 1 STOPPED
            ∈ [session "c1" "a" 0 RUNNING; session "c1" "b" 1 STOPPED]).
    apply list_elem_of_further, list_elem_of_here. }
  destruct (Hblocks eq_refl ltac:(vm_compute; reflexivity)) as [Hblocked _].
  destruct (portforwardDeleteHandler_responses (Ok (closeRequest "zz" true))
              index2 bothReceiving ResponseWriter.new eq_refl) as [_ Hzz].
  destruct (Hzz _ eq_refl ltac:(discriminate) ltac:(discriminate))
    as (_ & _ & Hmissing).
  destruct (Hmissing index2_no_zz) as (_ & w2 & Hw2 & Hst2).
  destruct (portforwardDeleteHandler_responses (Ok (closeRequest "" true))
              index2 bothReceiving ResponseWriter.new eq_refl) as [Hempty _].
  destruct Hempty as (_ & w3 & Hw3 & Hst3).
  { intros dp [= <-]. left. reflexivity. }
  split; [reflexivity|]. split; [eauto|]. split; [exact Hblocked|].
  split; eauto.
Defined.

(** Session [b] is found, [zz] is a 404. *)
Lemma portforwardGetHandler_responses_witness :
  ResponseWriter.status ResponseWriter.new = None
  ∧ Request.QueryGet (getRequest "b") "cluster" ≠ ""
  ∧ Request.QueryGet (getRequest "b") "id" ≠ ""
  ∧ ResponseWriter.status
      (portforwardGetHandler index2 ResponseWriter.new (getRequest "b"))
    = Some StatusOK
  ∧ ResponseWriter.status
      (portforwardGetHandler index2 ResponseWriter.new (getRequest "zz"))
    = Some StatusNotFound.
Proof.
  destruct (@portforwardGetHandler_responses json index2 ResponseWriter.new
              (getRequest "b") eq_refl ltac:(discriminate) ltac:(discriminate))
    as [Hfound _].
  destruct (Hfound _ index2_b eq_refl) as (p & _ & _ & Hjson).
  destruct (@portforwardGetHandler_responses json index2 ResponseWriter.new
              (getRequest "zz") eq_refl ltac:(discriminate) ltac:(discriminate))
    as [_ Hmissing].
  split; [reflexivity|]. split; [discriminate|]. split; [discriminate|].
  split.
  - exact (proj1 (Hjson _ eq_refl)).
  - apply Hmissing. exact index2_no_zz.
Defined.

(** Session [b] is deleted; its watchdog later finds the pod Failed and
    stores it again. *)
Lemma deleted_session_comes_back_witness :
  reachable index2
  ∧ Forall (λ tick, keepsTicking tick = true) [ConnRefused]
  ∧ "Failed" ≠ PodRunning
  ∧ receives (Some 1) bothReceiving = true
  ∧ getPortForwardByID "c1" "b"
      (stopOrDeletePortForward "c1" "b" false index2 bothReceiving).1.2
    = PortForward.zero
  ∧ getPortForwardByID "c1" "b"
      (Watchdog.index
         (watchdog (session "c1" "b" 1 RUNNING) (Some 1)
            [ConnRefused; PodPhase "Failed"]
            (stopOrDeletePortForward "c1" "b" false index2 bothReceiving).1.2
            (afterSends
               (stopOrDeletePortForward "c1" "b" false index2 bothReceiving).2
               bothReceiving)))
    = PortForward.set_Error "Pod is not running" (session "c1" "b" 1 RUNNING).
Proof.
  assert (Forall (λ tick, keepsTicking tick = true) [ConnRefused]) as Hwait
    by (repeat constructor).
  assert (receives (Some 1) bothReceiving = true) as Hrecv
    by (vm_compute; reflexivity).
  destruct (deleted_session_comes_back (session "c1" "b" 1 RUNNING) (Some 1)
              [ConnRefused] "Failed" index2 bothReceiving index2_reachable
              Hwait ltac:(discriminate)) as (_ & _ & Hgone & Hback & _).
  split; [exact index2_reachable|]. split; [exact Hwait|].
  split; [discriminate|]. split; [exact Hrecv|].
  split; [exact Hgone|exact (Hback Hrecv)].
Defined.

(** Two ticks that change nothing. *)
Lemma watchdog_idle_witness :
  Forall (λ tick, keepsTicking tick = true) [ConnRefused; PodPhase "Running"]
  ∧ watchdog tunnel (Some 0) [ConnRefused; PodPhase "Running"] ∅ {[0]}
    = Watchdog.mk ∅ [] 2 false false.
Proof.
  assert (Forall (λ tick, keepsTicking tick = true)
            [ConnRefused; PodPhase "Running"]) as Hwait
    by (repeat constructor).
  split; [exact Hwait|].
  exact (watchdog_idle tunnel (Some 0) _ ∅ {[0]} Hwait).
Defined.

(** The second lookup times out. *)
Lemma watchdog_lookup_error_witness :
  Forall (λ tick, keepsTicking tick = true) [ConnRefused]
  ∧ receives (Some 0) {[0]} = true
  ∧ Watchdog.effects
      (watchdog tunnel (Some 0) [ConnRefused; LookupErr "i/o timeout"] ∅ {[0]})
    = [Send (Some 0); TickerStop]
  ∧ getPortForwardByID "c1" "id1"
      (Watchdog.index
         (watchdog tunnel (Some 0) [ConnRefused; LookupErr "i/o timeout"] ∅
            {[0]}))
    = PortForward.set_Error "i/o timeout" tunnel
  ∧ watchdog tunnel (Some 0) [ConnRefused; LookupErr "i/o timeout"] ∅ ∅
    = Watchdog.mk ∅ [] 2 false true.
Proof.
  assert (Forall (λ tick, keepsTicking tick = true) [ConnRefused]) as Hwait
    by (repeat constructor).
  assert (receives (Some 0) {[0]} = true) as Hrecv by (vm_compute; reflexivity).
  destruct (watchdog_lookup_error tunnel (Some 0) [ConnRefused] "i/o timeout"
              [] ∅ {[0]} Hwait) as [Hrunning _].
  destruct (Hrunning Hrecv) as (Heff & _ & _ & _ & _ & Hstored & _).
  destruct (watchdog_lookup_error tunnel (Some 0) [ConnRefused] "i/o timeout"
              [] ∅ ∅ Hwait) as [_ Hgone].
  split; [exact Hwait|]. split; [exact Hrecv|]. split; [exact Heff|].
  split; [exact Hstored|exact (Hgone eq_refl)].
Defined.

(** A tunnel to [pod1] of cluster [c1]: [errOut] is empty and the
    session is stored. *)
Lemma startPortForward_Started_witness :
  startPortForward (config [] registry) payload "tok" (Some 5) ∅
  = Started (portforwardstore opened ∅) opened
  ∧ PortForward.Status opened = RUNNING
  ∧ PortForward.closeChan opened = Some 5
  ∧ ∃ cp caData errOut,
      HeadlampConfig.contextProxies (config [] registry) !! "c1" = Some cp
      ∧ readyErrOut (restConfigFor (contextProxy.context cp) caData "tok")
          [Sprintf0 "8080:80"] = Some errOut
      ∧ (errOut = "" →
         getPortForwardByID "c1" "id1" (portforwardstore opened ∅) = opened).
Proof.
  destruct (@startPortForward_Started net kube forward (config [] registry)
              payload "tok" (Some 5) ∅ (portforwardstore opened ∅) opened
              eq_refl)
    as (_ & Hstatus & Hchan & cp & caData & errOut & Hcp & _ & Hready
        & Hstored & _).
  split; [reflexivity|]. split; [exact Hstatus|]. split; [exact Hchan|].
  exists cp, caData, errOut. split; [exact Hcp|]. split; [exact Hready|].
  intros Hempty. exact (proj2 (Hstored Hempty)).
Defined.

(** No cluster is registered. *)
Lemma portforwardPostOpen_unknown_cluster_witness :
  ResponseWriter.status ResponseWriter.new = None
  ∧ HeadlampConfig.contextProxies (config [] ∅) !! "c1" = None
  ∧ ∃ w',
      portforwardPostOpen (config [] ∅) payload "tok" (Some 5) index2
        ResponseWriter.new
      = Some (index2, w')
      ∧ ResponseWriter.status w' = Some StatusInternalServerError.
Proof.
  split; [reflexivity|]. split; [reflexivity|].
  exact (@portforwardPostOpen_unknown_cluster net kube forward json
           (config [] ∅) payload "tok" (Some 5) index2 ResponseWriter.new
           eq_refl eq_refl).
Defined.

(** No port is free, the tunnel opens all the same. *)
Lemma portforwardPostOpen_no_free_port_witness :
  PortForwardPayload.Port openRequest = ""
  ∧ @GetFreePort noFreePort = Err "no port"
  ∧ ∃ w',
      @portforwardPostOpen net kube noFreePort json (config [] registry)
        openRequest "tok" (Some 5) ∅ ResponseWriter.new
      = Some (portforwardstore (portForwardToStore openRequest (Some 5)) ∅, w')
      ∧ ResponseWriter.status w' = Some StatusInternalServerError.
Proof.
  destruct (@portforwardPostOpen_no_free_port net kube noFreePort json
              (config [] registry) openRequest "tok" (Some 5) ∅
              ResponseWriter.new "no port"
              (portforwardstore (portForwardToStore openRequest (Some 5)) ∅)
              (portForwardToStore openRequest (Some 5))
              eq_refl eq_refl eq_refl eq_refl) as (w' & Hopen & Hstatus & _).
  split; [reflexivity|]. split; [reflexivity|]. eauto.
Defined.

(** The same request when port 4571 is free. *)
Lemma portforwardPost_opens_witness :
  validatePortForward openRequest = None
  ∧ @GetFreePort forward = Ok 4571
  ∧ ∃ w',
      portforwardPost (config [] registry) (Ok openRequest) "fresh" (Some 5) ∅
        ResponseWriter.new bearerRequest
      = Returns
          (Some
             (portforwardstore
                (portForwardToStore
                   (PortForwardPayload.mk "fresh" "ns1" "pod1" "" "" "8080"
                      "c1" "4571") (Some 5)) ∅, w'))
      ∧ ResponseWriter.status w' = Some StatusOK
      ∧ ResponseWriter.body w' = [Text "fresh:4571"].
Proof.
  destruct (@portforwardPost_opens net kube forward json (config [] registry)
              openRequest "fresh" (Some 5) ∅ ResponseWriter.new bearerRequest
              "tok123" 4571
              (portforwardstore
                 (portForwardToStore
                    (PortForwardPayload.mk "fresh" "ns1" "pod1" "" "" "8080"
                       "c1" "4571") (Some 5)) ∅)
              (portForwardToStore
                 (PortForwardPayload.mk "fresh" "ns1" "pod1" "" "" "8080"
                    "c1" "4571") (Some 5))
              "fresh:4571"
              eq_refl eq_refl eq_refl eq_refl eq_refl eq_refl
              ltac:(discriminate) eq_refl eq_refl)
    as (w' & Hpost & Hstatus & Hbody & _).
  split; [reflexivity|]. split; [reflexivity|]. eauto.
Defined.

(** A cluster with a token and no client certificate: no key pair is
    offered. *)
Lemma createProxyForContext_Ok_witness :
  createProxyForContext (config [] ∅)
    (target "c1" "https://k8s.example" "" false)
  = Ok verifyingProxy
  ∧ parse "https://k8s.example" = Some (ReverseProxy.Target verifyingProxy)
  ∧ ∃ tr,
      ReverseProxy.Transport verifyingProxy = Some tr
      ∧ Transport.Proxy tr = None
      ∧ TLSConfig.Certificates (Transport.TLSClientConfig tr) = [].
Proof.
  destruct (@createProxyForContext_Ok net kube (config [] ∅)
              (target "c1" "https://k8s.example" "" false) verifyingProxy
              eq_refl) as (Hurl & tr & Htr & Hproxy & Hcerts).
  split; [reflexivity|]. split; [exact Hurl|].
  exists tr. split; [exact Htr|]. split; [exact Hproxy|exact Hcerts].
Defined.

(** Adding [n1] answers 201; a body without a name answers 400. *)
Lemma addCluster_outcomes_witness :
  ResponseWriter.status ResponseWriter.new = None
  ∧ ResponseWriter.status
      (addCluster (config [] registry) (Ok (newCluster "n1"))
         ResponseWriter.new).2
    = Some StatusCreated
  ∧ HeadlampConfig.contextProxies
      (addCluster (config [] registry) (Ok (newCluster "n1"))
         ResponseWriter.new).1 !! "n1"
    = Some (contextProxy.mk (contextOfRequest (newCluster "n1"))
              (Some newProxy) DynamicCluster)
  ∧ (addCluster (config [] registry) (Ok (newCluster ""))
       ResponseWriter.new).1
    = config [] registry
  ∧ ResponseWriter.status
      (addCluster (config [] registry) (Ok (newCluster ""))
         ResponseWriter.new).2
    = Some StatusBadRequest.
Proof.
  destruct (@addCluster_outcomes net kube (config [] registry)
              (Ok (newCluster "n1")) ResponseWriter.new eq_refl) as [_ Hgood].
  destruct (Hgood (newCluster "n1") newProxy eq_refl ltac:(discriminate)
              ltac:(discriminate) eq_refl) as (Hstatus & _ & Hentry & _).
  destruct (@addCluster_outcomes net kube (config [] registry)
              (Ok (newCluster "")) ResponseWriter.new eq_refl) as [Hbad _].
  destruct Hbad as [Hsame Hstatus'].
  { intros req [= <-]. left. reflexivity. }
  split; [reflexivity|]. split; [exact Hstatus|]. split; [exact Hentry|].
  split; [exact Hsame|exact Hstatus'].
Defined.

(** [n1] is added and deleted; [c1], replaced by an added cluster of
    that name, is deleted as well. *)
Lemma addCluster_then_deleteCluster_witness :
  createProxyForContext (config [] registry) (contextOfRequest (newCluster "n1"))
  = Ok newProxy
  ∧ muxVar (deleteRequest "n1") "name" = "n1"
  ∧ HeadlampConfig.contextProxies
      (deleteCluster
         (addCluster (config [] registry) (Ok (newCluster "n1"))
            ResponseWriter.new).1
         ResponseWriter.new (deleteRequest "n1")).1
    = registry
  ∧ HeadlampConfig.contextProxies
      (deleteCluster
         (addCluster (config [] registry) (Ok (newCluster "c1"))
            ResponseWriter.new).1
         ResponseWriter.new (deleteRequest "c1")).1
    = delete "c1" registry.
Proof.
  destruct (@addCluster_then_deleteCluster net kube (config [] registry)
              (newCluster "n1") newProxy ResponseWriter.new ResponseWriter.new
              (deleteRequest "n1") eq_refl ltac:(discriminate)
              ltac:(discriminate) eq_refl eq_refl) as (_ & _ & Hnew).
  destruct (@addCluster_then_deleteCluster net kube (config [] registry)
              (newCluster "c1") newProxy ResponseWriter.new ResponseWriter.new
              (deleteRequest "c1") eq_refl ltac:(discriminate)
              ltac:(discriminate) eq_refl eq_refl) as (_ & Hold & _).
  split; [reflexivity|]. split; [reflexivity|].
  split; [exact (Hnew eq_refl)|exact Hold].
Defined.

(** A request to the added cluster [n1] without Authorization panics;
    with one it is relayed. *)
Lemma added_cluster_requests_witness :
  muxVar (apiRequest []) "clusterName" = "n1"
  ∧ Header_Get (Request.Header (apiRequest [])) "Authorization" = ""
  ∧ clusterRequestHandler
      (addCluster (config [] ∅) (Ok (newCluster "n1")) ResponseWriter.new).1
      false ResponseWriter.new (apiRequest [])
    = Panics
  ∧ ∃ w' r',
      clusterRequestHandler
        (addCluster (config [] ∅) (Ok (newCluster "n1")) ResponseWriter.new).1
        false ResponseWriter.new
        (apiRequest [("Authorization", ["Bearer mine"])])
      = Returns (w', [Relay newProxy r'])
      ∧ Request.Host r' = "new.example".
Proof.
  destruct (@added_cluster_requests net kube (config [] ∅) (newCluster "n1")
              newProxy ResponseWriter.new false ResponseWriter.new
              (apiRequest []) ltac:(discriminate) ltac:(discriminate)
              eq_refl eq_refl) as [Hpanics _].
  destruct (@added_cluster_requests net kube (config [] ∅) (newCluster "n1")
              newProxy ResponseWriter.new false ResponseWriter.new
              (apiRequest [("Authorization", ["Bearer mine"])])
              ltac:(discriminate) ltac:(discriminate)
              eq_refl eq_refl) as [_ Hrelay].
  destruct (Hrelay ltac:(discriminate)) as (w' & r' & Heq & Hhost & _).
  split; [reflexivity|]. split; [reflexivity|].
  split; [exact (Hpanics eq_refl)|]. eauto.
Defined.

(** The context with a certificate and no key is passed over; [c1] and
    [c2] around it are registered. *)
Lemma registerContexts_skips_witness :
  createProxyForContext (config [] ∅) certWithoutKey
  = Err "found a ClientCertificate entry, but not a ClientKey"
  ∧ registerContexts (config [] ∅)
      [target "c1" "https://k8s.example" "tok" false; certWithoutKey;
       target "c2" "https://k2.example" "" false]
    = registerContexts (config [] ∅)
        [target "c1" "https://k8s.example" "tok" false;
         target "c2" "https://k2.example" "" false].
Proof.
  split; [reflexivity|].
  exact (@registerContexts_skips net kube (config [] ∅)
           [target "c1" "https://k8s.example" "tok" false] certWithoutKey
           [target "c2" "https://k2.example" "" false] _ eq_refl).
Defined.

(** The kubeconfig cluster [c1] cannot be deleted. *)
Lemma initialRegistry_not_deletable_witness :
  initialRegistry (config [] ∅) None
    [target "c1" "https://k8s.example" "tok" false]
  = Returns (config [] startRegistry)
  ∧ is_Some (startRegistry !! muxVar (deleteRequest "c1") "name")
  ∧ ResponseWriter.status
      (deleteCluster (config [] startRegistry) ResponseWriter.new
         (deleteRequest "c1")).2
    = Some StatusForbidden.
Proof.
  assert (initialRegistry (config [] ∅) None
            [target "c1" "https://k8s.example" "tok" false]
          = Returns (config [] startRegistry)) as Hinit
    by (vm_compute; reflexivity).
  assert (is_Some (startRegistry !! muxVar (deleteRequest "c1") "name"))
    as Hsome by (eexists; vm_compute; reflexivity).
  destruct (@initialRegistry_not_deletable net kube (config [] ∅) None
              [target "c1" "https://k8s.example" "tok" false]
              (config [] startRegistry) ResponseWriter.new
              (deleteRequest "c1") Hinit eq_refl Hsome) as [_ Hstatus].
  split; [exact Hinit|]. split; [exact Hsome|exact Hstatus].
Defined.

(** The two clusters of [registry] are listed. *)
Lemma getConfig_lists_registry_witness :
  ResponseWriter.status ResponseWriter.new = None
  ∧ ResponseWriter.status (getConfig (config [] registry) ResponseWriter.new)
    = Some StatusOK
  ∧ length (getClusters (config [] registry)) = 2
  ∧ getCluster (target "dyn" "https://dyn.example" "" false)
    ∈ getClusters (config [] registry).
Proof.
  destruct (getConfig_lists_registry (config [] registry) ResponseWriter.new
              eq_refl) as (Hstatus & _ & Hlen & Hin).
  split; [reflexivity|]. split; [exact Hstatus|]. split; [exact Hlen|].
  apply Hin. eexists "dyn", _. split; reflexivity.
Defined.

(** The callback for the pending flow of [c1] is redirected; one with
    an unknown state is not. *)
Lemma oidcCallbackHandler_redirects_iff_witness :
  ResponseWriter.status ResponseWriter.new = None
  ∧ ResponseWriter.status
      (oidcCallbackHandler (config [] ∅) pending ResponseWriter.new callback).2
    = Some StatusSeeOther
  ∧ ResponseWriter.status
      (oidcCallbackHandler (config [] ∅) ∅ ResponseWriter.new callback).2
    ≠ Some StatusSeeOther.
Proof.
  destruct (@oidcCallbackHandler_redirects_iff oidc (config [] ∅) pending
              ResponseWriter.new callback eq_refl) as [[_ Hredirect] _].
  destruct (@oidcCallbackHandler_redirects_iff oidc (config [] ∅) ∅
              ResponseWriter.new callback eq_refl) as [[Hnone _] _].
  split; [reflexivity|]. split.
  - apply Hredirect. split; [discriminate|]. split; [reflexivity|].
    eexists _, _, _, _. repeat split; reflexivity.
  - intros Hst. destruct (Hnone Hst) as (_ & _ & cfg & _ & _ & _ & Hcfg & _).
    discriminate Hcfg.
Defined.


(** The login for [c1] and its callback: the browser is sent to the
    [auth] page of [c1].  For the cluster name of two non-ASCII bytes
    the Location carries them escaped. *)
Lemma oidc_flow_returns_cluster_witness :
  Request.QueryGet (loginRequest "c1") "cluster" = "c1"
  ∧ Request.QueryGet callback "state" = Base64.EncodeToString "c1"
  ∧ ResponseWriter.status
      (oidcHandler (config [] ∅) ∅ ResponseWriter.new (loginRequest "c1")).2
    = Some StatusFound
  ∧ Header_Get
      (ResponseWriter.sent
         (oidcCallbackHandler (config [] ∅)
            (oidcHandler (config [] ∅) ∅ ResponseWriter.new
               (loginRequest "c1")).1
            ResponseWriter.new callback).2) "Location"
    = "/auth?cluster=c1&token=header.payload.sig"
  ∧ Request.QueryGet accentedCallback "state" = Base64.EncodeToString accented
  ∧ Header_Get
      (ResponseWriter.sent
         (oidcCallbackHandler (config [] ∅)
            (oidcHandler (config [] ∅) ∅ ResponseWriter.new
               (loginRequest accented)).1
            ResponseWriter.new accentedCallback).2) "Location"
    = "/auth?cluster=%c3%a9&token=header.payload.sig".
Proof.
  destruct (@oidc_flow_returns_cluster oidc (config [] ∅) ∅ ResponseWriter.new
              (loginRequest "c1") ResponseWriter.new callback
              (OAuth2Token.mk "access" (Some "header.payload.sig"))
              "header.payload.sig" (IDToken.mk "user" "header.payload.sig")
              eq_refl eq_refl ltac:(discriminate) eq_refl eq_refl
              (λ _ _, conj eq_refl eq_refl) eq_refl eq_refl)
    as (_ & Hlocation & _).
  destruct (@oidc_flow_returns_cluster oidc (config [] ∅) ∅ ResponseWriter.new
              (loginRequest accented) ResponseWriter.new accentedCallback
              (OAuth2Token.mk "access" (Some "header.payload.sig"))
              "header.payload.sig" (IDToken.mk "user" "header.payload.sig")
              eq_refl eq_refl ltac:(discriminate) eq_refl eq_refl
              (λ _ _, conj eq_refl eq_refl) eq_refl eq_refl)
    as (_ & Hescaped & _).
  split; [reflexivity|]. split; [reflexivity|]. split; [reflexivity|].
  split; [exact Hlocation|]. split; [reflexivity|exact Hescaped].
Defined.

(** Session [b] is stopped, stopped once more, and deleted; the list
    after each. *)
Lemma portforwardListHandler_after_close_witness :
  reachable index2
  ∧ Request.QueryGet listRequest "cluster" = "c1"
  ∧ receives (Some 1) bothReceiving = true
  ∧ session "c1" "b" 1 STOPPED
    ∈ getPortForwardList "c1"
        (portforwardDeleteHandler (Ok (closeRequest "b" true)) index2
           bothReceiving ResponseWriter.new).1.1
  ∧ (portforwardDeleteHandler (Ok (closeRequest "b" true)) index2 ∅
       ResponseWriter.new).2 = Blocks
  ∧ session "c1" "b" 1 RUNNING
    ∈ getPortForwardList "c1"
        (portforwardDeleteHandler (Ok (closeRequest "b" true)) index2 ∅
           ResponseWriter.new).1.1
  ∧ length
      (getPortForwardList "c1"
         (portforwardDeleteHandler (Ok (closeRequest "b" false)) index2
            bothReceiving ResponseWriter.new).1.1) + 1
    = 2.
Proof.
  assert (receives (Some 1) bothReceiving = true) as Hrecv
    by (vm_compute; reflexivity).
  destruct (@portforwardListHandler_after_close json (closeRequest "b" true)
              index2 bothReceiving ResponseWriter.new ResponseWriter.new
              listRequest (session "c1" "b" 1 RUNNING) eq_refl index2_reachable
              ltac:(discriminate) ltac:(discriminate) eq_refl index2_b eq_refl)
    as (_ & _ & Hstop & _).
  destruct (Hstop eq_refl Hrecv) as [_ Hstopped].
  destruct (@portforwardListHandler_after_close json (closeRequest "b" true)
              index2 ∅ ResponseWriter.new ResponseWriter.new
              listRequest (session "c1" "b" 1 RUNNING) eq_refl index2_reachable
              ltac:(discriminate) ltac:(discriminate) eq_refl index2_b eq_refl)
    as (_ & _ & _ & Hgone).
  destruct (Hgone eq_refl eq_refl) as (Hblocks & _ & Hkept).
  destruct (@portforwardListHandler_after_close json (closeRequest "b" false)
              index2 bothReceiving ResponseWriter.new ResponseWriter.new
              listRequest (session "c1" "b" 1 RUNNING) eq_refl index2_reachable
              ltac:(discriminate) ltac:(discriminate) eq_refl index2_b eq_refl)
    as (_ & Hdelete & _).
  destruct (Hdelete eq_refl) as [Hlen _].
  split; [exact index2_reachable|]. split; [reflexivity|].
  split; [exact Hrecv|]. split; [exact Hstopped|]. split; [exact Hblocks|].
  split; [exact Hkept|exact Hlen].
Defined.
End MoreRuns.
